(** * The Aliyun (ASK) master provisioner of the virtualcluster controller

    A shallow embedding of
    [incubator/virtualcluster/pkg/controller/virtualcluster/master_provisioner_aliyun.go]
    and the properties of its create / delete life cycle.

    Go strings are byte sequences and are modelled by [string]; a Go
    [(value, error)] result is a pair whose second component is
    [option error] ([None] is Go's [nil]); a run-time panic is an outcome
    of its own.  The HTTP backend, the Kubernetes client, the clock and the
    scheduler are an explicit [World] the code talks to; its effects are
    recorded in a trace. *)

From stdpp Require Import base option list strings gmap.
From Stdlib Require Import Ascii ZArith NArith Lia.

Local Open Scope string_scope.

(** ** Characters that cannot be written inside a literal *)

Definition NL : string := String "010"%char EmptyString.
Definition DQ : string := String "034"%char EmptyString.

(** [quoted s] is [s] between two double quotes. *)
Definition quoted (s : string) : string := DQ +:+ s +:+ DQ.

(** [lines l] joins [l] with newlines, as a raw multi-line literal reads. *)
Fixpoint lines (l : list string) : string :=
  match l with
  | [] => EmptyString
  | [x] => x
  | x :: rest => x +:+ NL +:+ lines rest
  end.

(** ** Outcomes: a value or a run-time panic

    [OutOfFuel] is not an outcome of the program: it marks a loop that was
    unrolled fewer times than it runs ([CreateVirtualCluster_returns] and
    [DeleteVirtualCluster_returns] show that it never shows up). *)

Inductive outcome (A : Type) : Type :=
| Ret (a : A)
| Panic (msg : string)
| OutOfFuel.
Arguments Ret {A} a.
Arguments Panic {A} msg.
Arguments OutOfFuel {A}.

Definition obind {A B} (o : outcome A) (f : A → outcome B) : outcome B :=
  match o with
  | Ret a => f a
  | Panic msg => Panic msg
  | OutOfFuel => OutOfFuel
  end.

#[global] Instance outcome_ret : MRet outcome := @Ret.
#[global] Instance outcome_bind : MBind outcome := λ A B f o, obind o f.

(** [l[i]] on a slice: out of range panics. *)
Definition index {A} (l : list A) (i : nat) : outcome A :=
  match l !! i with
  | Some x => Ret x
  | None => Panic "index out of range"
  end.

(** [s[lo:hi]] on a string: panics unless [0 <= lo <= hi <= len(s)]. *)
Definition slice (s : string) (lo hi : Z) : outcome string :=
  if ((0 <=? lo)%Z && (lo <=? hi)%Z && (hi <=? Z.of_nat (String.length s))%Z)%bool
  then Ret (String.substring (Z.to_nat lo) (Z.to_nat (hi - lo)) s)
  else Panic "slice bounds out of range".

(** ** [strings.Split] for a non-empty separator

    [Split_from sep skip cur s] scans [s] from the left; [cur] is the piece
    being collected and [skip] counts the bytes of a separator occurrence
    still to be dropped. Occurrences are taken left to right and do not
    overlap. *)
Fixpoint Split_from (sep : string) (skip : nat) (cur s : string) : list string :=
  match s with
  | EmptyString => [cur]
  | String c rest =>
      match skip with
      | S k => Split_from sep k cur rest
      | O =>
          if String.prefix sep s
          then cur :: Split_from sep (String.length sep - 1) EmptyString rest
          else Split_from sep 0 (cur +:+ String c EmptyString) rest
      end
  end.

Definition Split (s sep : string) : list string := Split_from sep 0 EmptyString s.

(** [strings.Contains]-style substring test, used to inspect request bodies. *)
Fixpoint Contains (s sub : string) : bool :=
  String.prefix sub s ||
  match s with
  | EmptyString => false
  | String _ rest => Contains rest sub
  end.

(** ** Constants *)

Definition DefaultVcManagerNs : string := "vc-manager".

Definition AliyunAkSrt : string := "aliyun-accesskey".
Definition AliyunAKIDName : string := "accessKeyID".
Definition AliyunAKSecretName : string := "accessKeySecret".

Definition AliyunASKConfigMap : string := "aliyun-ask-config".
Definition AliyunASKCfgMpRegionID : string := "askRegionID".
Definition AliyunASKCfgMpZoneID : string := "askZoneID".
Definition AliyunASKCfgMpVPCID : string := "askVpcID".

Definition AnnotationClusterIDKey : string := "clusterID".

Record ASKConfig : Type := {
  vpcID : string;
  regionID : string;
  zoneID : string;
}.

Definition AliyunSDKErrCode : Type := string.

Definition OprationNotSupported : AliyunSDKErrCode := "ErrorCheckAcl".
Definition ClusterNotFound : AliyunSDKErrCode := "ErrorClusterNotFound".
Definition ClusterNameAlreadyExist : AliyunSDKErrCode := "ClusterNameAlreadyExist".

(** AliyunSDKErr holds the information of the error response returned by aliyun. *)
Record AliyunSDKErr : Type := {
  errorName : string;
  errorCode : AliyunSDKErrCode;
  errorMessage : string;
}.

(** ** Error values

    The dynamic types an [error] can have in this file:
    - [ErrClient]: an error of the SDK client;
    - [ErrOS]: an error of [kubeutil.GetPodNsFromInside];
    - [ErrJSON]: an error of [encoding/json];
    - [ErrNew]: made here by [errors.New] or [fmt.Errorf];
    - [ErrSDK]: a [*AliyunSDKErr], made by [isErrResponse] only;
    - [ErrStatus]: an error of the Kubernetes client, with the reason of
      its API status. *)
Inductive error : Type :=
| ErrClient (msg : string)
| ErrOS (msg : string)
| ErrJSON (msg : string)
| ErrNew (msg : string)
| ErrSDK (ase : AliyunSDKErr)
| ErrStatus (reason msg : string).

(** [apierrors.IsAlreadyExists] *)
Definition IsAlreadyExists (err : error) : bool :=
  match err with
  | ErrStatus reason _ => bool_decide (reason = "AlreadyExists")
  | _ => false
  end.

(** ** JSON values

    What [encoding/json] reads from a text; a number keeps its literal.
    A value decoded into [interface{}] is kept as the [json] it came from;
    the type assertion [v.(string)] succeeds on [JString] only. *)
#[local] Unset Elimination Schemes.
Inductive json : Type :=
| JNull
| JBool (b : bool)
| JNumber (lit : string)
| JString (s : string)
| JArray (elems : list json)
| JObject (members : list (string * json)).
#[local] Set Elimination Schemes.

(** A JSON object as a Go map: of a repeated key the last member stays. *)
Definition object_map (members : list (string * json)) : gmap string json :=
  list_to_map (reverse members).

(** [v.(string)] in its two-result form. *)
Definition assertString (v : json) : string * bool :=
  match v with
  | JString s => (s, true)
  | _ => (EmptyString, false)
  end.

(** ** Requests, clients and Kubernetes objects *)

Record CommonRequest : Type := {
  Method : string;
  Scheme : string;
  Domain : string;
  Version : string;
  PathPattern : string;
  Headers : gmap string string;
  QueryParams : gmap string string;
  Content : string;
}.

(** The value [sdk.NewClientWithAccessKey] builds. *)
Record Client : Type := {
  cliRegionID : string;
  cliAccessKeyID : string;
  cliAccessKeySecret : string;
}.

Record Virtualcluster : Type := {
  vcName : string;
  vcNamespace : string;
  vcUID : string;
}.

Inductive Kind : Type := KSecret | KConfigMap.

(** The objects the provisioner creates: a [v1.Namespace] with a name, and
    the secret [secret.KubeconfigToSecret name namespace kubeconfig]. *)
Inductive Object : Type :=
| NamespaceObj (name : string)
| KubeconfigSecret (name ns kubeconfig : string).

(** ** Time *)

Definition Duration : Type := N.
Definition Second : Duration := 1000000000%N.

(** ** Effects

    Every call that leaves the process is an event; [t] is the reading of
    the clock when the call is made. *)
Inductive Event : Type :=
| EvGet (kind : Kind) (ns name : string)
| EvCreate (obj : Object) (err : option error)
| EvNewClient (cli : Client) (err : option error)
| EvRequest (t : N) (cli : Client) (req : CommonRequest) (body : string) (err : option error)
| EvAfter (t : N) (d : Duration).

(** The world the provisioner runs in. Every answer may depend on what
    happened so far.
    - [podNs]: [kubeutil.GetPodNsFromInside];
    - [k8sGet]: [client.Client.Get] of a Secret or ConfigMap, the [Data] it
      leaves in the object and its error;
    - [k8sCreate]: [client.Client.Create];
    - [newClient]: [sdk.NewClientWithAccessKey];
    - [http]: [cli.ProcessCommonRequest], the content of the response, the
      error, and the time the call takes;
    An error of the Kubernetes client is given by its reason and message,
    the other errors by their message.
    - [coin]: the case [select] takes when both channels are ready. *)
Record World : Type := {
  podNs : list Event → string * option string;
  k8sGet : list Event → Kind → string → string → gmap string string * option (string * string);
  k8sCreate : list Event → Object → option (string * string);
  newClient : list Event → Client → option string;
  http : list Event → Client → CommonRequest → string * option string * Duration;
  coin : list Event → bool;
}.

Record State : Type := {
  clock : N;
  trace : list Event;
}.

Definition st0 (t0 : N) : State := {| clock := t0; trace := [] |}.

Definition M (A : Type) : Type := State → outcome A * State.

Definition ret {A} (a : A) : M A := λ s, (Ret a, s).

Definition bind {A B} (m : M A) (f : A → M B) : M B :=
  λ s, match m s with
       | (Ret a, s') => f a s'
       | (Panic msg, s') => (Panic msg, s')
       | (OutOfFuel, s') => (OutOfFuel, s')
       end.

Definition lift {A} (o : outcome A) : M A := λ s, (o, s).

#[global] Instance M_ret : MRet M := @ret.
#[global] Instance M_bind : MBind M := λ A B f m, bind m f.

(** How a loop body ends: [break OuterLoop], or [return err]. *)
Inductive loopExit : Type :=
| Break
| Return (err : option error).

(** What the file imports from the rest of the controller and from
    [encoding/json]:
    - [IsJSON]: [strutil.IsJSON], of the controller's string utilities;
    - [json_parse]: the reader of [encoding/json], the value of a text,
      [None] when the text is not JSON;
    - [ToClusterKey]: [conversion.ToClusterKey], of the syncer;
    - [AdminSecretName]: [secret.AdminSecretName]. *)
Class Imports : Type := {
  IsJSON : string → bool;
  json_parse : string → option json;
  ToClusterKey : Virtualcluster → string;
  AdminSecretName : string;
}.

Existing Class World.

Section Provisioner.

Context {imports : Imports} {w : World}.

(** *** [json.Unmarshal] at the three types the provisioner decodes into

    A text that is not JSON, or a value that does not fit the Go type, is
    an error; [null] leaves the target as it was. *)

(** into [map[string]interface{}] *)
Definition Unmarshal_map (data : string) : gmap string json * option error :=
  match json_parse data with
  | None => (∅, Some (ErrJSON "invalid character"))
  | Some JNull => (∅, None)
  | Some (JObject members) => (object_map members, None)
  | Some _ => (∅, Some (ErrJSON "cannot unmarshal into Go value of type map[string]interface {}"))
  end.

(** A member of a [map[string]string]: a string, or [null] read as the
    zero value. *)
Definition stringMember (v : json) : option string :=
  match v with
  | JString s => Some s
  | JNull => Some EmptyString
  | _ => None
  end.

(** into [map[string]string] *)
Definition Unmarshal_stringmap (data : string) : gmap string string * option error :=
  match json_parse data with
  | None => (∅, Some (ErrJSON "invalid character"))
  | Some JNull => (∅, None)
  | Some (JObject members) =>
      match mapM (λ kv, v ← stringMember kv.2; Some (kv.1, v)) members with
      | Some kvs => (list_to_map (reverse kvs), None)
      | None => (∅, Some (ErrJSON "cannot unmarshal into Go value of type string"))
      end
  | Some _ => (∅, Some (ErrJSON "cannot unmarshal into Go value of type map[string]string"))
  end.

(** An element of a [[]map[string]interface{}]: an object, or [null] read
    as the nil map. *)
Definition mapElement (v : json) : option (gmap string json) :=
  match v with
  | JObject members => Some (object_map members)
  | JNull => Some ∅
  | _ => None
  end.

(** into [[]map[string]interface{}] *)
Definition Unmarshal_maplist (data : string) : list (gmap string json) * option error :=
  match json_parse data with
  | None => ([], Some (ErrJSON "invalid character"))
  | Some JNull => ([], None)
  | Some (JArray elems) =>
      match mapM mapElement elems with
      | Some l => (l, None)
      | None => ([], Some (ErrJSON "cannot unmarshal into Go value of type map[string]interface {}"))
      end
  | Some _ => ([], Some (ErrJSON "cannot unmarshal into Go value of type []map[string]interface {}"))
  end.

(** *** Primitive effects *)

Definition record (e : Event) (s : State) : State :=
  {| clock := clock s; trace := trace s ++ [e] |}.

(** [kubeutil.GetPodNsFromInside()] *)
Definition GetPodNsFromInside : M (string * option error) :=
  λ s, let '(ns, err) := podNs w (trace s) in (Ret (ns, ErrOS <$> err), s).

(** [mpa.Get(ctx, types.NamespacedName{Namespace: ns, Name: name}, obj)]:
    the [Data] of [obj] afterwards, and the error. *)
Definition Get (kind : Kind) (ns name : string) : M (gmap string string * option error) :=
  λ s, let '(data, err) := k8sGet w (trace s) kind ns name in
       (Ret (data, uncurry ErrStatus <$> err), record (EvGet kind ns name) s).

(** [mpa.Create(ctx, obj)] *)
Definition Create (obj : Object) : M (option error) :=
  λ s, let err := uncurry ErrStatus <$> k8sCreate w (trace s) obj in
       (Ret err, record (EvCreate obj err) s).

(** [sdk.NewClientWithAccessKey(regionID, accessKeyID, accessKeySecret)] *)
Definition NewClientWithAccessKey (region akID akSecret : string) : M (Client * option error) :=
  λ s, let cli := {| cliRegionID := region; cliAccessKeyID := akID;
                     cliAccessKeySecret := akSecret |} in
       let err := ErrClient <$> newClient w (trace s) cli in
       (Ret (cli, err), record (EvNewClient cli err) s).

(** [cli.ProcessCommonRequest(request)]: the content of the response and
    the error; the clock advances by the time the call takes. *)
Definition ProcessCommonRequest (cli : Client) (request : CommonRequest)
  : M (string * option error) :=
  λ s, let '(body, err, d) := http w (trace s) cli request in
       let err := ErrClient <$> err in
       (Ret (body, err),
        {| clock := (clock s + d)%N;
           trace := trace s ++ [EvRequest (clock s) cli request body err] |}).

(** [time.After(d)]: a channel that is ready from [now + d] on, given by
    that instant. *)
Definition time_After (d : Duration) : M N :=
  λ s, (Ret (clock s + d)%N, record (EvAfter (clock s) d) s).

(** [select { case <-a: ... case <-b: ... }] on two such channels: blocks
    until one is ready, resumes at that instant and takes a ready case;
    [true] is the first case. *)
Definition select2 (a b : N) : M bool :=
  λ s, let wake := N.max (clock s) (N.min a b) in
       let s' := {| clock := wake; trace := trace s |} in
       if ((a <=? wake)%N && (b <=? wake)%N)%bool
       then (Ret (coin w (trace s)), s')
       else (Ret (a <=? wake)%N, s').

(** [requests.NewCommonRequest()] with the fields every request of this
    file sets. *)
Definition NewCommonRequest (method path regionID body : string) : CommonRequest :=
  {| Method := method;
     Scheme := "https";
     Domain := "cs.aliyuncs.com";
     Version := "2015-12-15";
     PathPattern := path;
     Headers := {[ "Content-Type" := "application/json" ]};
     QueryParams := {[ "RegionId" := regionID ]};
     Content := body |}.

(** *** The provisioner *)

(** The scan of [getClusterIDByName] over the decoded cluster list. *)
Fixpoint getClusterIDByName_scan (clusterName : string) (clsInfoLst : list (gmap string json))
  : string * option error :=
  match clsInfoLst with
  | [] => (EmptyString,
           Some (ErrNew ("can't find cluster information for cluster(" +:+ clusterName +:+ ")")))
  | clsInfo :: rest =>
      match clsInfo !! "name" with
      | None => (EmptyString, Some (ErrNew "clusterInfo doesn't contain 'name' field"))
      | Some clsNameInf =>
          let '(clsName, ok) := assertString clsNameInf in
          if negb ok then (EmptyString, Some (ErrNew "fail to assert 'name' to string"))
          else if decide (clsName = clusterName) then
            match clsInfo !! "cluster_id" with
            | None => (EmptyString, Some (ErrNew "clusterInfo doesn't contain 'cluster_id' field"))
            | Some clsIDInf =>
                let '(clsID, ok) := assertString clsIDInf in
                if negb ok then (EmptyString, Some (ErrNew "fail to assert 'cluster_id' to string"))
                else (clsID, None)
            end
          else getClusterIDByName_scan clusterName rest
      end
  end.

(** getClusterIDByName returns the clusterID of the cluster with clusterName. *)
Definition getClusterIDByName (cli : Client) (clusterName regionID : string)
  : M (string * option error) :=
  let request := NewCommonRequest "GET" "/clusters" regionID EmptyString in
  '(response, err) ← ProcessCommonRequest cli request;
  match err with
  | Some _ => ret (EmptyString, err)
  | None =>
      let '(clsInfoLst, err) := Unmarshal_maplist response in
      match err with
      | Some _ => ret (EmptyString, err)
      | None => ret (getClusterIDByName_scan clusterName clsInfoLst)
      end
  end.

(** isErrResponse checks if given responseBody belongs to an error response,
    if yes, the responseBody is parsed and an AliyunSDKErr is returned. *)
Definition isErrResponse (responseBody : string) : outcome (option AliyunSDKErr) :=
  if IsJSON responseBody then Ret None
  else
    let errEntries := Split responseBody NL in
    line0 ← index errEntries 0;
    name ← index (Split line0 ": ") 1;
    line4 ← index errEntries 4;
    errorCode ← index (Split line4 ":") 2;
    code ← slice errorCode 1 (Z.of_nat (String.length errorCode) - 1);
    line4' ← index errEntries 4;
    errorMessage ← index (Split line4' ":") 4;
    message ← slice errorMessage 1 (Z.of_nat (String.length errorMessage) - 1);
    Ret (Some {| errorName := name; errorCode := code; errorMessage := message |}).

(** The body of the creation request. *)
Definition creationBody (clusterName : string) (askCfg : ASKConfig) : string :=
  let vpcIDEntry :=
    if decide (vpcID askCfg ≠ EmptyString)
    then DQ +:+ NL +:+ "vpc_id" +:+ DQ +:+ ": " +:+ vpcID askCfg +:+ NL
    else EmptyString in
  lines [ "{";
          quoted "cluster_type" +:+ ": " +:+ quoted "Ask" +:+ ",";
          quoted "name" +:+ ": " +:+ quoted clusterName +:+ ", ";
          quoted "region_id" +:+ ": " +:+ quoted (regionID askCfg) +:+ ",";
          quoted "zoneid" +:+ ": " +:+ quoted (zoneID askCfg) +:+ ", " +:+ vpcIDEntry;
          quoted "nat_gateway" +:+ ": true,";
          quoted "private_zone" +:+ ": true";
          "}" ].

(** sendCreationRequest sends ASK creation request to Aliyun. If there exists
    an ASK with the same clusterName, retrieve and return the clusterID of the
    ASK instead of creating a new one. *)
Definition sendCreationRequest (cli : Client) (clusterName : string) (askCfg : ASKConfig)
  : M (string * option error) :=
  let body := creationBody clusterName askCfg in
  let request := NewCommonRequest "POST" "/clusters" (regionID askCfg) body in
  '(response, err) ← ProcessCommonRequest cli request;
  match err with
  | Some _ => ret (EmptyString, err)
  | None =>
      sdkErr ← lift (isErrResponse response);
      match sdkErr with
      | Some ase =>
          if decide (errorCode ase = ClusterNameAlreadyExist) then
            '(clsID, getClsIDErr) ← getClusterIDByName cli clusterName (regionID askCfg);
            match getClsIDErr with
            | Some _ => ret (EmptyString, getClsIDErr)
            | None => ret (clsID, None)
            end
          else ret (EmptyString, Some (ErrSDK ase))
      | None =>
          let '(clsInfo, err) := Unmarshal_stringmap response in
          match err with
          | Some _ => ret (EmptyString, err)
          | None =>
              match clsInfo !! "cluster_id" with
              | None => ret (EmptyString, Some (ErrNew "can't find 'cluster_id' in response body"))
              | Some clusterID => ret (clusterID, None)
              end
          end
      end
  end.

(** clusterNotFoundErr checks if given err is ASK ClusterNotFound Error. *)
Definition clusterNotFoundErr (err : error) : bool :=
  match err with
  | ErrSDK ase =>
      if decide (errorCode ase = ClusterNotFound ∨ errorCode ase = OprationNotSupported)
      then true else false
  | _ => false
  end.

(** getASKState gets the latest state of the ASK with the given clusterID. *)
Definition getASKState (cli : Client) (clusterID regionID : string)
  : M (string * option error) :=
  let request := NewCommonRequest "GET" ("/clusters/" +:+ clusterID) regionID EmptyString in
  '(response, err) ← ProcessCommonRequest cli request;
  match err with
  | Some _ => ret (EmptyString, err)
  | None =>
      errRep ← lift (isErrResponse response);
      match errRep with
      | Some _ => ret (EmptyString, err)
      | None =>
          let '(clsInfo, err) := Unmarshal_map response in
          match err with
          | Some _ => ret (EmptyString, err)
          | None =>
              match clsInfo !! "cluster_id" with
              | None =>
                  ret (EmptyString,
                       Some (ErrNew "cluster info entry doesn't contain 'cluster_id' field"))
              | Some clsIDInf =>
                  let '(clsID, ok) := assertString clsIDInf in
                  if negb ok then ret (EmptyString, Some (ErrNew "fail to assert cluster id"))
                  else if decide (clsID ≠ clusterID) then
                    ret (EmptyString,
                         Some (ErrNew ("cluster id does not match: got " +:+ clsID
                                       +:+ " want " +:+ clusterID)))
                  else
                    match clsInfo !! "state" with
                    | None =>
                        ret (EmptyString,
                             Some (ErrNew ("fail to get 'state' of cluster(" +:+ clusterID +:+ ")")))
                    | Some clsStateInf =>
                        let '(clsState, ok) := assertString clsStateInf in
                        if negb ok
                        then ret (EmptyString, Some (ErrNew "fail to assert cluster.state to string"))
                        else ret (clsState, None)
                    end
              end
          end
      end
  end.

(** getASKKubeConfig retrieves the kubeconfig of the ASK with the given clusterID. *)
Definition getASKKubeConfig (cli : Client) (clusterID regionID : string)
  : M (string * option error) :=
  let request :=
    NewCommonRequest "GET" ("/k8s/" +:+ clusterID +:+ "/user_config") regionID EmptyString in
  '(response, err) ← ProcessCommonRequest cli request;
  match err with
  | Some _ => ret (EmptyString, err)
  | None =>
      let '(kbCfgJson, err) := Unmarshal_stringmap response in
      match err with
      | Some _ => ret (EmptyString, err)
      | None =>
          match kbCfgJson !! "config" with
          | None =>
              ret (EmptyString,
                   Some (ErrNew ("kubeconfig of cluster(" +:+ clusterID +:+ ") is not found")))
          | Some kbCfg => ret (kbCfg, None)
          end
      end
  end.

(** sendDeletionRequest sends a request for deleting the ASK with the given clusterID. *)
Definition sendDeletionRequest (cli : Client) (clusterID regionID : string) : M (option error) :=
  let request := NewCommonRequest "DELETE" ("/clusters/" +:+ clusterID) regionID EmptyString in
  '(_, err) ← ProcessCommonRequest cli request;
  match err with
  | Some _ => ret err
  | None => ret None
  end.

(** getAliyunAKPair gets the current aliyun AccessKeyID/AccessKeySecret from secret. *)
Definition getAliyunAKPair : M (string * string * option error) :=
  '(vcManagerNs, getNsErr) ← GetPodNsFromInside;
  let vcManagerNs := if getNsErr is Some _ then DefaultVcManagerNs else vcManagerNs in
  '(akSrtData, getErr) ← Get KSecret vcManagerNs AliyunAkSrt;
  let err := if getErr is Some _ then getErr else None in
  let err := if akSrtData !! AliyunAKIDName is None
             then Some (ErrNew "aliyun accessKeyID doesn't exist") else err in
  let keyID := default EmptyString (akSrtData !! AliyunAKIDName) in
  let err := if akSrtData !! AliyunAKSecretName is None
             then Some (ErrNew "aliyun accessKeySecret doesn't exist") else err in
  let keySecret := default EmptyString (akSrtData !! AliyunAKSecretName) in
  ret (keyID, keySecret, err).

(** getASKConfigs gets the ASK configuration information from ConfigMap. *)
Definition getASKConfigs : M (ASKConfig * option error) :=
  let cfg := {| vpcID := EmptyString; regionID := EmptyString; zoneID := EmptyString |} in
  '(vcManagerNs, getNsErr) ← GetPodNsFromInside;
  let vcManagerNs := if getNsErr is Some _ then DefaultVcManagerNs else vcManagerNs in
  '(ASKCfgMpData, getErr) ← Get KConfigMap vcManagerNs AliyunASKConfigMap;
  let err := if getErr is Some _ then getErr else None in
  match ASKCfgMpData !! AliyunASKCfgMpRegionID with
  | None => ret (cfg, Some (ErrNew (AliyunASKCfgMpRegionID +:+ " not exist")))
  | Some region =>
      let cfg := {| vpcID := vpcID cfg; regionID := region; zoneID := zoneID cfg |} in
      match ASKCfgMpData !! AliyunASKCfgMpZoneID with
      | None => ret (cfg, Some (ErrNew (AliyunASKCfgMpZoneID +:+ " not exist")))
      | Some zone =>
          let cfg := {| vpcID := vpcID cfg; regionID := regionID cfg; zoneID := zone |} in
          match ASKCfgMpData !! AliyunASKCfgMpVPCID with
          | Some vpc =>
              ret ({| vpcID := vpc; regionID := regionID cfg; zoneID := zoneID cfg |}, err)
          | None => ret (cfg, err)
          end
      end
  end.

Definition out_of_fuel {A} : M A := λ s, (OutOfFuel, s).

(** The polling loop of [CreateVirtualCluster]; [fuel] bounds the number of
    iterations. *)
Fixpoint creationLoop (fuel : nat) (cli : Client) (clsID region : string) (creationTimeout : N)
  : M loopExit :=
  match fuel with
  | O => out_of_fuel
  | S fuel' =>
      tick ← time_After (10 * Second)%N;
      first ← select2 tick creationTimeout;
      if first : bool then
        '(clsState, err) ← getASKState cli clsID region;
        match err with
        | Some _ => ret (Return err)
        | None =>
            if decide (clsState = "running") then ret Break
            else creationLoop fuel' cli clsID region creationTimeout
        end
      else ret (Return (Some (ErrNew ("creating cluster(" +:+ clsID +:+ ") timeout"))))
  end.

(** Twelve ticks of ten seconds fit into the 120 seconds; the thirteenth
    iteration can only meet the deadline. *)
Definition creationFuel : nat := 13.

(** CreateVirtualCluster creates a new ASK on aliyun for given Virtualcluster. *)
Definition CreateVirtualCluster (vc : Virtualcluster) : M (option error) :=
  (* 1. load aliyun accessKeyID/accessKeySecret from secret *)
  '(aliyunAKID, aliyunAKSrt, err) ← getAliyunAKPair;
  if err is Some _ then ret err else
  '(askCfg, err) ← getASKConfigs;
  if err is Some _ then ret err else
  (* 2. send ASK creation request *)
  '(cli, err) ← NewClientWithAccessKey (regionID askCfg) aliyunAKID aliyunAKSrt;
  if err is Some _ then ret err else
  '(clsID, err) ← sendCreationRequest cli (vcName vc) askCfg;
  if err is Some _ then ret err else
  (* 3. block until the newly created ASK is up and running *)
  creationTimeout ← time_After (120 * Second)%N;
  exit ← creationLoop creationFuel cli clsID (regionID askCfg) creationTimeout;
  match exit with
  | Return err => ret err
  | Break =>
      (* 4. create the root namespace of the Virtualcluster *)
      let vcNs := ToClusterKey vc in
      err ← Create (NamespaceObj (ToClusterKey vc));
      if bool_decide (err ≠ None) && negb (from_option IsAlreadyExists false err) then ret err else
      (* 5. get kubeconfig of the newly created ASK *)
      '(kbCfg, err) ← getASKKubeConfig cli clsID (regionID askCfg);
      if err is Some _ then ret err else
      (* 6. serialize kubeconfig to secret and store it in the
         corresponding namespace *)
      let adminSrt := KubeconfigSecret AdminSecretName vcNs kbCfg in
      err ← Create adminSrt;
      if bool_decide (err ≠ None) && negb (from_option IsAlreadyExists false err) then ret err else
      ret None
  end.

(** The polling loop of [DeleteVirtualCluster]. *)
Fixpoint deletionLoop (fuel : nat) (cli : Client) (vc : Virtualcluster) (clusterID region : string)
  (deletionTimeout : N) : M loopExit :=
  match fuel with
  | O => out_of_fuel
  | S fuel' =>
      tick ← time_After (2 * Second)%N;
      first ← select2 tick deletionTimeout;
      if first : bool then
        '(state, err) ← getASKState cli clusterID region;
        match err with
        | Some e =>
            if clusterNotFoundErr e then ret Break
            else ret (Return err)
        | None =>
            if decide (state = "deleting") then ret Break
            else deletionLoop fuel' cli vc clusterID region deletionTimeout
        end
      else ret (Return (Some (ErrNew ("Delete ASK(" +:+ vcName vc +:+ ") timeout"))))
  end.

(** Fifty ticks of two seconds fit into the 100 seconds. *)
Definition deletionFuel : nat := 51.

(** DeleteVirtualCluster deletes the ASK cluster corresponding to the given
    Virtualcluster. *)
Definition DeleteVirtualCluster (vc : Virtualcluster) : M (option error) :=
  '(aliyunAKID, aliyunAKSrt, err) ← getAliyunAKPair;
  if err is Some _ then ret err else
  '(askCfg, err) ← getASKConfigs;
  if err is Some _ then ret err else
  '(cli, err) ← NewClientWithAccessKey (regionID askCfg) aliyunAKID aliyunAKSrt;
  if err is Some _ then ret err else
  '(clusterID, err) ← getClusterIDByName cli (vcName vc) (regionID askCfg);
  if err is Some _ then ret err else
  err ← sendDeletionRequest cli clusterID (regionID askCfg);
  if err is Some _ then ret err else
  (* block until the ASK is deleted or timeout *)
  deletionTimeout ← time_After (100 * Second)%N;
  exit ← deletionLoop deletionFuel cli vc clusterID (regionID askCfg) deletionTimeout;
  match exit with
  | Return err => ret err
  | Break => ret None
  end.

Definition GetMasterProvisioner : string := "aliyun".

End Provisioner.

(** ** Sample responses and worlds *)

(** The error body of the comment in [isErrResponse], with the fields of
    the specification's sample. *)
Definition errorBody (code message requestId status : string) : string :=
  lines [ "ERROR: SDK.ServerError";
          "ErrorCode:";
          "Recommend:";
          "RequestId:";
          "Message: {" +:+ quoted "code" +:+ ":" +:+ quoted code +:+ ","
            +:+ quoted "message" +:+ ":" +:+ quoted message +:+ ","
            +:+ quoted "requestId" +:+ ":" +:+ quoted requestId +:+ ","
            +:+ quoted "status" +:+ ":" +:+ status +:+ "}" ].

Definition sampleBody : string :=
  errorBody "ClusterNameAlreadyExist" "cluster name X already exist" "R1" "400".

(** An error body whose fifth line has the code as its third and the
    message as its fifth piece between colons, each between quotes: the
    shape on which [isErrResponse] yields the code itself. *)
Definition pieceBody (code message : string) : string :=
  lines [ "ERROR: SDK.ServerError";
          "ErrorCode:";
          "Recommend:";
          "RequestId:";
          "Message: {" +:+ quoted "code" +:+ ":" +:+ quoted code +:+ ":"
            +:+ quoted "message" +:+ ":" +:+ quoted message ].

Definition createdBody : string :=
  "{" +:+ quoted "cluster_id" +:+ ":" +:+ quoted "cls-123" +:+ "}".

Definition stateBody (id state : string) : string :=
  "{" +:+ quoted "cluster_id" +:+ ":" +:+ quoted id +:+ ","
      +:+ quoted "state" +:+ ":" +:+ quoted state +:+ "}".

Definition listBody : string :=
  "[{" +:+ quoted "name" +:+ ":" +:+ quoted "tenant-a" +:+ ","
       +:+ quoted "cluster_id" +:+ ":" +:+ quoted "cls-123" +:+ "}]".

Definition configBody : string :=
  "{" +:+ quoted "config" +:+ ":" +:+ quoted "apiVersion: v1" +:+ "}".

(** The reading of the sample texts; every other text counts as not JSON. *)
Definition sample_json_parse (data : string) : option json :=
  if String.eqb data createdBody then
    Some (JObject [("cluster_id", JString "cls-123")])
  else if String.eqb data (stateBody "cls-123" "creating") then
    Some (JObject [("cluster_id", JString "cls-123"); ("state", JString "creating")])
  else if String.eqb data (stateBody "cls-123" "running") then
    Some (JObject [("cluster_id", JString "cls-123"); ("state", JString "running")])
  else if String.eqb data (stateBody "cls-123" "deleting") then
    Some (JObject [("cluster_id", JString "cls-123"); ("state", JString "deleting")])
  else if String.eqb data (stateBody "cls-999" "running") then
    Some (JObject [("cluster_id", JString "cls-999"); ("state", JString "running")])
  else if String.eqb data listBody then
    Some (JArray [JObject [("name", JString "tenant-a"); ("cluster_id", JString "cls-123")]])
  else if String.eqb data configBody then
    Some (JObject [("config", JString "apiVersion: v1")])
  else None.

Definition sample_IsJSON (data : string) : bool :=
  bool_decide (is_Some (sample_json_parse data)).

Definition sample_ToClusterKey (vc : Virtualcluster) : string :=
  vcNamespace vc +:+ "-" +:+ vcUID vc +:+ "-" +:+ vcName vc.

Definition tenantA : Virtualcluster :=
  {| vcName := "tenant-a"; vcNamespace := "default"; vcUID := "0a1b2c" |}.

Definition sampleCli : Client :=
  {| cliRegionID := "cn-hangzhou"; cliAccessKeyID := "id"; cliAccessKeySecret := "secret" |}.

Definition sampleCfg : ASKConfig :=
  {| vpcID := EmptyString; regionID := "cn-hangzhou"; zoneID := "cn-hangzhou-b" |}.

Definition sampleData (kind : Kind) : gmap string string :=
  match kind with
  | KSecret => {[ AliyunAKIDName := "id"; AliyunAKSecretName := "secret" ]}
  | KConfigMap => {[ AliyunASKCfgMpRegionID := "cn-hangzhou"; AliyunASKCfgMpZoneID := "cn-hangzhou-b" ]}
  end.

Definition isRequest (method path : string) (e : Event) : bool :=
  match e with
  | EvRequest _ _ req _ _ =>
      bool_decide (Method req = method) && bool_decide (PathPattern req = path)
  | _ => false
  end.

(** The number of requests with the given method and path sent so far. *)
Fixpoint sent (method path : string) (tr : list Event) : nat :=
  match tr with
  | [] => 0
  | e :: rest => (if isRequest method path e then 1 else 0) + sent method path rest
  end.

(** A world with the stores filled, no pod namespace to be found, a
    Kubernetes client and an SDK constructor that succeed, requests that
    take one second, and a backend [answer]. *)
Definition sampleWorld (answer : list Event → CommonRequest → string * option string) : World :=
  {| podNs := λ _, (EmptyString, Some "open namespace: no such file or directory");
     k8sGet := λ _ kind _ _, (sampleData kind, None);
     k8sCreate := λ _ _, None;
     newClient := λ _ _, None;
     http := λ tr _ req, (answer tr req, Second);
     coin := λ _, true |}.

(** The backend of the specification's literal success path: the state
    reads "creating" at the first poll and "running" from the second on. *)
Definition successBackend (tr : list Event) (req : CommonRequest) : string * option string :=
  if decide (Method req = "POST") then (createdBody, None)
  else if decide (PathPattern req = "/clusters/cls-123") then
    if decide (sent "GET" "/clusters/cls-123" tr = 0)
    then (stateBody "cls-123" "creating", None)
    else (stateBody "cls-123" "running", None)
  else (configBody, None).

(** A backend on which the cluster never leaves "creating". *)
Definition creatingBackend (tr : list Event) (req : CommonRequest) : string * option string :=
  if decide (Method req = "POST") then (createdBody, None)
  else (stateBody "cls-123" "creating", None).

(** A backend that knows the name already and lists the cluster. *)
Definition existingBackend (tr : list Event) (req : CommonRequest) : string * option string :=
  if decide (Method req = "POST")
  then (pieceBody "ClusterNameAlreadyExist" "cluster name tenant-a already exist", None)
  else if decide (PathPattern req = "/clusters") then (listBody, None)
  else if decide (PathPattern req = "/clusters/cls-123")
  then (stateBody "cls-123" "running", None)
  else (configBody, None).

(** A backend that keeps names unique: the first POST creates the cluster,
    every later one is told that the name exists. *)
Definition uniqueNameBackend (tr : list Event) (req : CommonRequest) : string * option string :=
  if decide (Method req = "POST") then
    if decide (sent "POST" "/clusters" tr = 0) then (createdBody, None)
    else (pieceBody "ClusterNameAlreadyExist" "cluster name tenant-a already exist", None)
  else (listBody, None).

(** A backend whose first state probe is answered by an error body and the
    later ones by "running". *)
Definition throttledBackend (tr : list Event) (req : CommonRequest) : string * option string :=
  if decide (Method req = "POST") then (createdBody, None)
  else if decide (PathPattern req = "/clusters/cls-123") then
    if decide (sent "GET" "/clusters/cls-123" tr = 0)
    then (errorBody "Throttling" "request was throttled" "R2" "400", None)
    else (stateBody "cls-123" "running", None)
  else (configBody, None).

(** A backend on which the cluster is gone once the deletion was sent:
    every state probe is answered by [probe]. *)
Definition goneBackend (probe : string) (tr : list Event) (req : CommonRequest)
  : string * option string :=
  if decide (Method req = "DELETE") then (EmptyString, None)
  else if decide (PathPattern req = "/clusters") then (listBody, None)
  else (probe, None).

(** A backend that cannot be reached for the deletion. *)
Definition unreachableBackend (tr : list Event) (req : CommonRequest) : string * option string :=
  if decide (Method req = "DELETE") then (EmptyString, Some "dial tcp: i/o timeout")
  else if decide (PathPattern req = "/clusters") then (listBody, None)
  else (stateBody "cls-123" "deleting", None).


Definition sampleImports : Imports :=
  {| IsJSON := sample_IsJSON;
     json_parse := sample_json_parse;
     ToClusterKey := sample_ToClusterKey;
     AdminSecretName := "admin-kubeconfig" |}.

Definition runCreate (answer : list Event → CommonRequest → string * option string) :=
  @CreateVirtualCluster sampleImports (sampleWorld answer) tenantA (st0 0).

Definition runDelete (answer : list Event → CommonRequest → string * option string) :=
  @DeleteVirtualCluster sampleImports (sampleWorld answer) tenantA (st0 0).


(** ** Vocabulary of the statements *)

Section Vocabulary.

Context {imports : Imports} {w : World}.

(** The requests the provisioner sends. *)
Definition listRequest (region : string) : CommonRequest :=
  NewCommonRequest "GET" "/clusters" region EmptyString.

Definition creationRequest (clusterName : string) (askCfg : ASKConfig) : CommonRequest :=
  NewCommonRequest "POST" "/clusters" (regionID askCfg) (creationBody clusterName askCfg).

Definition stateRequest (clusterID region : string) : CommonRequest :=
  NewCommonRequest "GET" ("/clusters/" +:+ clusterID) region EmptyString.

Definition configRequest (clusterID region : string) : CommonRequest :=
  NewCommonRequest "GET" ("/k8s/" +:+ clusterID +:+ "/user_config") region EmptyString.

Definition deletionRequest (clusterID region : string) : CommonRequest :=
  NewCommonRequest "DELETE" ("/clusters/" +:+ clusterID) region EmptyString.

(** The state after [request] was sent in [s] and answered by the world. *)
Definition answered (s : State) (cli : Client) (request : CommonRequest) : State :=
  let '(body, err, d) := http w (trace s) cli request in
  {| clock := (clock s + d)%N;
     trace := trace s ++ [EvRequest (clock s) cli request body (ErrClient <$> err)] |}.

(** [body] is a JSON object that tells the state [st] of the cluster
    [clusterID]. *)
Definition tellsState (clusterID st body : string) : Prop :=
  ∃ clsInfo, Unmarshal_map body = (clsInfo, None)
             ∧ clsInfo !! "cluster_id" = Some (JString clusterID)
             ∧ clsInfo !! "state" = Some (JString st).

(** A state probe that was answered, without error, by "running" for the
    cluster it asked about. *)
Definition runningPoll (e : Event) : Prop :=
  ∃ t cli clusterID region body,
    e = EvRequest t cli (stateRequest clusterID region) body None
    ∧ IsJSON body = true
    ∧ tellsState clusterID "running" body.

(** The creation of a kubeconfig secret. *)
Definition secretCreation (e : Event) : Prop :=
  match e with
  | EvCreate (KubeconfigSecret _ _ _) _ => True
  | _ => False
  end.

(** A request with the method DELETE. *)
Definition deletion (e : Event) : Prop :=
  match e with
  | EvRequest _ _ req _ _ => Method req = "DELETE"
  | _ => False
  end.

(** The events of one turn of a polling loop with the interval [d]: the
    timer is started at [t], and the probe, if there is one, is sent no
    sooner than [d] later. *)
Inductive pollTurn (d : Duration) (clusterID : string) : list Event → Prop :=
| turn_probe t t' cli region body err :
    (t + d ≤ t')%N →
    pollTurn d clusterID
      [EvAfter t d; EvRequest t' cli (stateRequest clusterID region) body err]
| turn_deadline t :
    pollTurn d clusterID [EvAfter t d].

(** The events of a polling loop: turn after turn. *)
Inductive pollTurns (d : Duration) (clusterID : string) : list Event → Prop :=
| turns_nil : pollTurns d clusterID []
| turns_cons turn rest :
    pollTurn d clusterID turn → pollTurns d clusterID rest →
    pollTurns d clusterID (turn ++ rest).

Local Open Scope list_scope.

(** The error [CreateVirtualCluster] returns at the deadline. *)
Definition timeoutOf (clsID : string) : error :=
  ErrNew ("creating cluster(" +:+ clsID +:+ ") timeout").

(** An error that is not the timeout of [CreateVirtualCluster]. *)
Definition early (err : option error) : Prop :=
  ∀ clsID, err ≠ Some (timeoutOf clsID).

(** Neither the creation of a kubeconfig secret nor a DELETE request. *)
Definition plain (e : Event) : Prop := ¬ secretCreation e ∧ ¬ deletion e.

(** The shape of every run: it ends before the polling starts, with
    plain events only; or it starts the deadline timer, polls turn after
    turn, and either stops there, without another event, or leaves the
    loop after a probe read "running" and goes on. *)
Definition creationRun (o : outcome (option error)) (s' : State) (evs : list Event) : Prop :=
  (Forall plain evs ∧ ∀ err, o = Ret err → early err)
  ∨ ∃ pre T0 clsID polls tail,
      evs = pre ++ EvAfter T0 (120 * Second)%N :: polls ++ tail
      ∧ Forall plain pre
      ∧ pollTurns (10 * Second)%N clsID polls
      ∧ ((tail = [] ∧ ∀ err, o = Ret err → early err ∨ (T0 + 120 * Second ≤ clock s')%N)
         ∨ (Exists runningPoll polls
            ∧ Forall (λ e, ¬ deletion e) tail
            ∧ ∀ err, o = Ret err → early err)).

(** The shape of every run of [DeleteVirtualCluster]: it ends before the
    deletion is sent; or it sends the deletion and, when the client fails,
    returns that error at once, and otherwise starts the deadline timer
    and polls turn after turn. *)
Definition deletionRun (o : outcome (option error)) (evs : list Event) : Prop :=
  Forall (λ e, ¬ deletion e) evs
  ∨ ∃ pre t cli clusterID region body err rest,
      evs = pre ++ EvRequest t cli (deletionRequest clusterID region) body (ErrClient <$> err)
                   :: rest
      ∧ Forall (λ e, ¬ deletion e) pre
      ∧ match err with
        | Some msg => rest = [] ∧ o = Ret (Some (ErrClient msg))
        | None => ∃ T0 polls, rest = EvAfter T0 (100 * Second)%N :: polls
                              ∧ pollTurns (2 * Second)%N clusterID polls
        end.

End Vocabulary.


(** ** Further vocabulary *)

(** The number of bytes [c] in [s]. *)
Fixpoint occurrences (c : ascii) (s : string) : nat :=
  match s with
  | EmptyString => 0
  | String a rest => (if ascii_dec c a then 1 else 0) + occurrences c rest
  end.

(** [s] has no colon and no line break. *)
Definition plainText (s : string) : Prop :=
  occurrences ":"%char s = 0 ∧ occurrences "010"%char s = 0.

(** An entry of the cluster list whose name is a string other than
    [clusterName]. *)
Definition otherName (clusterName : string) (clsInfo : gmap string json) : Prop :=
  ∃ n, clsInfo !! "name" = Some (JString n) ∧ n ≠ clusterName.

(** [l] lists a cluster [clusterName] with the id [clusterID], after
    entries with other names only. *)
Definition firstNamed (clusterName clusterID : string) (l : list (gmap string json)) : Prop :=
  ∃ pre entry post,
    l = (pre ++ entry :: post)%list
    ∧ Forall (otherName clusterName) pre
    ∧ entry !! "name" = Some (JString clusterName)
    ∧ entry !! "cluster_id" = Some (JString clusterID).

(** The namespace the provisioner reads its secret and its config map
    from in [s]: the namespace of the pod, [DefaultVcManagerNs] when that
    is not to be found. *)
Definition vcManagerNs {w : World} (s : State) : string :=
  match podNs w (trace s) with
  | (ns, None) => ns
  | (_, Some _) => DefaultVcManagerNs
  end.

(** A request with the method [method]. *)
Definition isMethod (method : string) (e : Event) : bool :=
  match e with
  | EvRequest _ _ req _ _ => bool_decide (Method req = method)
  | _ => false
  end.

(** The creation of a Kubernetes object. *)
Definition isCreate (e : Event) : bool :=
  match e with
  | EvCreate _ _ => true
  | _ => false
  end.

(** The number of events of [tr] that satisfy [p]. *)
Fixpoint countEvents (p : Event → bool) (tr : list Event) : nat :=
  match tr with
  | [] => 0
  | e :: rest => (if p e then 1 else 0) + countEvents p rest
  end.

(** An event of a polling loop: a timer of [d], or a state probe of [cli]
    for [clusterID] in [region]. *)
Definition pollEvent (d : Duration) (cli : Client) (clusterID region : string) (e : Event)
  : Prop :=
  (∃ t, e = EvAfter t d)
  ∨ (∃ t body err, e = EvRequest t cli (stateRequest clusterID region) body err).

(** Not a request, or a request sent by [cli] for the region [region]. *)
Definition sentBy (cli : Client) (region : string) (e : Event) : Prop :=
  match e with
  | EvRequest _ c req _ _ => c = cli ∧ QueryParams req !! "RegionId" = Some region
  | _ => True
  end.

(** The error [DeleteVirtualCluster] returns at the deadline. *)
Definition deletionTimeoutOf (vc : Virtualcluster) : error :=
  ErrNew ("Delete ASK(" +:+ vcName vc +:+ ") timeout").

(** A state probe: a GET request for a path under "/clusters/". *)
Definition isProbe (e : Event) : bool :=
  match e with
  | EvRequest _ _ req _ _ =>
      bool_decide (Method req = "GET") && String.prefix "/clusters/" (PathPattern req)
  | _ => false
  end.

(** What a run sends and creates, bounded: every request of [evs] is sent
    by [cli] for [region], and [evs] has at most [posts] POST requests,
    [gets] GET requests, [probes] of them state probes, [deletes] DELETE
    requests and [creates] creations of Kubernetes objects. *)
Definition traffic (cli : Client) (region : string) (posts gets probes deletes creates : nat)
  (evs : list Event) : Prop :=
  Forall (sentBy cli region) evs
  ∧ (countEvents (isMethod "POST") evs ≤ posts)%nat
  ∧ (countEvents (isMethod "GET") evs ≤ gets)%nat
  ∧ (countEvents isProbe evs ≤ probes)%nat
  ∧ (countEvents (isMethod "DELETE") evs ≤ deletes)%nat
  ∧ (countEvents isCreate evs ≤ creates)%nat.

(** A world whose cluster has neither the secret nor the config map of the
    provisioner. *)
Definition bareWorld : World :=
  {| podNs := λ _, ("vc-manager", None);
     k8sGet := λ _ _ _ name, (∅, Some ("NotFound", name +:+ " not found"));
     k8sCreate := λ _ _, None;
     newClient := λ _ _, None;
     http := λ _ _ _, (EmptyString, None, Second);
     coin := λ _, true |}.

(** A backend that keeps names unique, as [uniqueNameBackend], and tells a
    repeated creation so by the error body of the specification's sample. *)
Definition conflictBackend (tr : list Event) (req : CommonRequest) : string * option string :=
  if decide (Method req = "POST") then
    if decide (sent "POST" "/clusters" tr = 0) then (createdBody, None)
    else (sampleBody, None)
  else (listBody, None).

(** In a run with the outcome [o] and the events [evs], a creation that
    failed with another error than AlreadyExists is the last event, and
    its error is what the run returns. *)
Definition creationErrorsFatal (o : outcome (option error)) (evs : list Event) : Prop :=
  ∀ pre obj e post,
    evs = (pre ++ EvCreate obj (Some e) :: post)%list →
    IsAlreadyExists e = false →
    post = [] ∧ o = Ret (Some e).

(** The world of the literal success path, but for a Kubernetes client
    that may create nothing. *)
Definition forbiddenWorld : World :=
  {| podNs := podNs (sampleWorld successBackend);
     k8sGet := k8sGet (sampleWorld successBackend);
     k8sCreate := λ _ _, Some ("Forbidden", "creation is forbidden");
     newClient := newClient (sampleWorld successBackend);
     http := http (sampleWorld successBackend);
     coin := coin (sampleWorld successBackend) |}.

(** * Properties *)

Section Facts.

Context {imports : Imports} {w : World}.

Local Open Scope list_scope.

Implicit Types (s : State) (cli : Client).

Ltac unfold_M :=
  unfold mbind, M_bind, bind, mret, M_ret, ret, lift, ProcessCommonRequest, answered.

Ltac break_match :=
  match goal with
  | |- context [match ?x with _ => _ end] =>
      lazymatch x with
      | context [match _ with _ => _ end] => fail
      | _ => match type of x with
             | sumbool _ _ => destruct x
             | _ => destruct x eqn:?
             end
      end
  end.

Lemma early_None : early None.
Proof. intros x; discriminate. Qed.

Ltac solve_early :=
  solve [ apply early_None
        | let x := fresh in let H := fresh in
          intros x H; cbn in H; discriminate H ].

Lemma bind_Ret {A B} (m : M A) (f : A → M B) s a s' :
  m s = (Ret a, s') → (m ≫= f) s = f a s'.
Proof. intros H. unfold mbind, M_bind, bind. by rewrite H. Qed.

Lemma ProcessCommonRequest_run cli req s :
  ∃ body err d, http w (trace s) cli req = (body, err, d)
    ∧ ProcessCommonRequest cli req s = (Ret (body, ErrClient <$> err), answered s cli req).
Proof.
  unfold ProcessCommonRequest, answered.
  destruct (http w (trace s) cli req) as [[body err] d]. by exists body, err, d.
Qed.

(** ** The requests, one by one *)

Lemma getASKState_state cli id region s :
  (getASKState cli id region s).2 = answered s cli (stateRequest id region).
Proof.
  unfold getASKState. fold (stateRequest id region). unfold_M.
  destruct (http w (trace s) cli _) as [[body [msg|]] d]; cbn; [done|].
  repeat (break_match; cbn; try done).
Qed.

Lemma getASKState_transport cli id region s body msg d :
  http w (trace s) cli (stateRequest id region) = (body, Some msg, d) →
  (getASKState cli id region s).1 = Ret (EmptyString, Some (ErrClient msg)).
Proof.
  intros H. unfold getASKState. fold (stateRequest id region). unfold_M.
  rewrite H. reflexivity.
Qed.

Lemma getASKState_classified cli id region s body d ase :
  http w (trace s) cli (stateRequest id region) = (body, None, d) →
  isErrResponse body = Ret (Some ase) →
  (getASKState cli id region s).1 = Ret (EmptyString, None).
Proof.
  intros H Hc. unfold getASKState. fold (stateRequest id region). unfold_M.
  rewrite H. cbn. rewrite Hc. reflexivity.
Qed.

Lemma isErrResponse_None body : isErrResponse body = Ret None → IsJSON body = true.
Proof.
  unfold isErrResponse. destruct (IsJSON body); [done|].
  unfold mbind, outcome_bind, obind, mret, outcome_ret.
  repeat (break_match; try done).
Qed.

Lemma isErrResponse_returns body : isErrResponse body ≠ OutOfFuel.
Proof.
  unfold isErrResponse. destruct (IsJSON body); [done|].
  unfold mbind, outcome_bind, obind, mret, outcome_ret, index, slice.
  repeat (break_match; try done).
Qed.

Lemma assertString_true v x : assertString v = (x, true) → v = JString x.
Proof. destruct v; cbn; congruence. Qed.

(** A probe that returns a state without an error was either told that
    state for the cluster it asked about, or was answered by an error
    body and returns the empty state. *)
Lemma getASKState_ok cli id region s st :
  (getASKState cli id region s).1 = Ret (st, None) →
  ∃ body d, http w (trace s) cli (stateRequest id region) = (body, None, d)
    ∧ ((IsJSON body = true ∧ tellsState id st body)
       ∨ (st = EmptyString ∧ ∃ ase, isErrResponse body = Ret (Some ase))).
Proof.
  unfold getASKState. fold (stateRequest id region). unfold_M.
  destruct (http w (trace s) cli _) as [[body [msg|]] d]; cbn; [done|].
  intros H. exists body, d. split; [done|].
  destruct (isErrResponse body) as [[ase|]|msg|] eqn:Hc; cbn in H; try done.
  { right. split; [congruence | eauto]. }
  left. split; [by apply isErrResponse_None|].
  unfold tellsState.
  destruct (Unmarshal_map body) as [m [e|]]; cbn in H; [done|].
  destruct (m !! "cluster_id") as [v|] eqn:Hid; cbn in H; [|done].
  destruct (assertString v) as [x [|]] eqn:Hx; cbn in H; [|done].
  apply assertString_true in Hx. subst v.
  case_decide as Hne; cbn in H; [done|].
  destruct (m !! "state") as [v'|] eqn:Hst; cbn in H; [|done].
  destruct (assertString v') as [x' [|]] eqn:Hx'; cbn in H; [|done].
  apply assertString_true in Hx'. subst v'.
  exists m. split; [done|]. split.
  - rewrite Hid. f_equal. f_equal. by destruct (decide (x = id)).
  - congruence.
Qed.

Lemma Unmarshal_map_err body m err :
  Unmarshal_map body = (m, Some err) → ∃ msg, err = ErrJSON msg.
Proof. unfold Unmarshal_map. repeat (break_match; try done); intros [= <- <-]; eauto. Qed.

Lemma Unmarshal_stringmap_err body m err :
  Unmarshal_stringmap body = (m, Some err) → ∃ msg, err = ErrJSON msg.
Proof. unfold Unmarshal_stringmap. repeat (break_match; try done); intros [= <- <-]; eauto. Qed.

Lemma Unmarshal_maplist_err body m err :
  Unmarshal_maplist body = (m, Some err) → ∃ msg, err = ErrJSON msg.
Proof. unfold Unmarshal_maplist. repeat (break_match; try done); intros [= <- <-]; eauto. Qed.

(** The error of a probe is never a [*AliyunSDKErr], and never the timeout
    of the creation. *)
Lemma getASKState_err cli id region s st err :
  (getASKState cli id region s).1 = Ret (st, Some err) →
  clusterNotFoundErr err = false ∧ early (Some err) ∧ st = EmptyString.
Proof.
  unfold getASKState. fold (stateRequest id region). unfold_M.
  destruct (http w (trace s) cli _) as [[body [msg|]] d]; cbn.
  { intros [= <- <-]. split; [done|]. split; [solve_early|done]. }
  destruct (isErrResponse body) as [[ase|]|msg|]; cbn; try done.
  destruct (Unmarshal_map body) as [m [e|]] eqn:Hu; cbn.
  { apply Unmarshal_map_err in Hu as [msg ->].
    intros [= <- <-]. split; [done|]. split; [solve_early|done]. }
  repeat (break_match; cbn; try done);
    intros [= <- <-]; (split; [done|]); (split; [solve_early|done]).
Qed.


Lemma getClusterIDByName_scan_early name l : early (getClusterIDByName_scan name l).2.
Proof.
  induction l as [|clsInfo rest IH]; cbn; [solve_early|].
  repeat (break_match; cbn; try solve_early); done.
Qed.

Lemma getClusterIDByName_run cli name region s :
  ∃ r, getClusterIDByName cli name region s = (Ret r, answered s cli (listRequest region))
       ∧ early r.2.
Proof.
  unfold getClusterIDByName. fold (listRequest region). unfold_M.
  destruct (http w (trace s) cli _) as [[body [msg|]] d]; cbn.
  { eexists. split; [done|]. solve_early. }
  destruct (Unmarshal_maplist body) as [l [e|]] eqn:Hu; cbn.
  { apply Unmarshal_maplist_err in Hu as [msg ->]. eexists. split; [done|]. solve_early. }
  eexists. split; [done|]. apply getClusterIDByName_scan_early.
Qed.

Lemma sendDeletionRequest_run cli id region s :
  sendDeletionRequest cli id region s
  = (Ret (ErrClient <$> (http w (trace s) cli (deletionRequest id region)).1.2),
     answered s cli (deletionRequest id region)).
Proof.
  unfold sendDeletionRequest. fold (deletionRequest id region). unfold_M.
  by destruct (http w (trace s) cli _) as [[body [msg|]] d].
Qed.

Lemma getASKKubeConfig_run cli id region s :
  ∃ r, getASKKubeConfig cli id region s = (Ret r, answered s cli (configRequest id region))
       ∧ early r.2.
Proof.
  unfold getASKKubeConfig. fold (configRequest id region). unfold_M.
  destruct (http w (trace s) cli _) as [[body [msg|]] d]; cbn.
  { eexists. split; [done|]. solve_early. }
  destruct (Unmarshal_stringmap body) as [l [e|]] eqn:Hu; cbn.
  { apply Unmarshal_stringmap_err in Hu as [msg ->]. eexists. split; [done|]. solve_early. }
  destruct (l !! "config"); eexists; (split; [done|]); solve_early.
Qed.

Lemma sendCreationRequest_run cli name cfg s :
  ∃ o s', sendCreationRequest cli name cfg s = (o, s')
    ∧ (s' = answered s cli (creationRequest name cfg)
       ∨ s' = answered (answered s cli (creationRequest name cfg)) cli (listRequest (regionID cfg)))
    ∧ (∀ r, o = Ret r → early r.2)
    ∧ o ≠ OutOfFuel.
Proof.
  unfold sendCreationRequest. fold (creationRequest name cfg).
  destruct (ProcessCommonRequest_run cli (creationRequest name cfg) s)
    as (body & err & d & _ & Hp).
  rewrite (bind_Ret _ _ _ _ _ Hp). clear Hp.
  set (s1 := answered _ _ _).
  destruct err as [msg|]; cbn.
  { do 2 eexists. split; [done|]. split; [by left|]. split; [|done].
    intros r [= <-]. solve_early. }
  unfold mbind at 1. unfold M_bind, bind at 1. unfold lift.
  pose proof (isErrResponse_returns body) as Hfuel.
  destruct (isErrResponse body) as [[ase|]|msg|]; cbn.
  - case_decide.
    + destruct (getClusterIDByName_run cli name (regionID cfg) s1) as ([id e] & Hg & He).
      rewrite (bind_Ret _ _ _ _ _ Hg).
      destruct e as [e|]; cbn; do 2 eexists; (split; [done|]); (split; [by right|]);
        (split; [|done]); intros r [= <-]; cbn; [done|solve_early].
    + do 2 eexists. split; [done|]. split; [by left|]. split; [|done].
      intros r [= <-]. solve_early.
  - destruct (Unmarshal_stringmap body) as [l [e|]] eqn:Hu; cbn.
    { apply Unmarshal_stringmap_err in Hu as [msg ->].
      do 2 eexists. split; [done|]. split; [by left|]. split; [|done].
      intros r [= <-]. solve_early. }
    destruct (l !! "cluster_id"); do 2 eexists; (split; [done|]); (split; [by left|]);
      (split; [|done]); intros r [= <-]; solve_early.
  - do 2 eexists. split; [done|]. split; [by left|]. split; [|done]. done.
  - done.
Qed.

Lemma getAliyunAKPair_run s :
  ∃ r ns, getAliyunAKPair s = (Ret r, record (EvGet KSecret ns AliyunAkSrt) s)
          ∧ early r.2
          ∧ ((podNs w (trace s)).2 ≠ None → ns = DefaultVcManagerNs).
Proof.
  unfold getAliyunAKPair, GetPodNsFromInside, Get. unfold_M.
  destruct (podNs w (trace s)) as [ns [e|]]; cbn;
    destruct (k8sGet w (trace s) KSecret _ AliyunAkSrt) as [data [[reason msg]|]]; cbn;
    do 2 eexists; (split; [done|]); (split; [|done]);
    repeat (break_match; cbn; try solve_early).
Qed.

Lemma getASKConfigs_run s :
  ∃ r ns, getASKConfigs s = (Ret r, record (EvGet KConfigMap ns AliyunASKConfigMap) s)
          ∧ early r.2
          ∧ ((podNs w (trace s)).2 ≠ None → ns = DefaultVcManagerNs).
Proof.
  unfold getASKConfigs, GetPodNsFromInside, Get. unfold_M.
  destruct (podNs w (trace s)) as [ns [e|]]; cbn;
    destruct (k8sGet w (trace s) KConfigMap _ AliyunASKConfigMap) as [data [[reason msg]|]]; cbn;
    repeat (break_match; cbn);
    do 2 eexists; (split; [done|]); (split; [|done]); solve_early.
Qed.


(** ** Timers and the polling loops *)

Lemma answered_trace s cli req :
  ∃ body err d, http w (trace s) cli req = (body, err, d)
    ∧ trace (answered s cli req)
      = (trace s ++ [EvRequest (clock s) cli req body (ErrClient <$> err)])%list
    ∧ clock (answered s cli req) = (clock s + d)%N.
Proof.
  unfold answered. destruct (http w (trace s) cli req) as [[body err] d].
  by exists body, err, d.
Qed.

Lemma select2_run a b s :
  ∃ first, select2 a b s
           = (Ret first, {| clock := N.max (clock s) (N.min a b); trace := trace s |})
    ∧ (first = true → (a ≤ N.max (clock s) (N.min a b))%N)
    ∧ (first = false → (b ≤ N.max (clock s) (N.min a b))%N).
Proof.
  unfold select2. set (wake := N.max _ _).
  destruct (a <=? wake)%N eqn:Ha, (b <=? wake)%N eqn:Hb; cbn;
    eexists; (split; [done|]); split; intros; try done;
    try (apply N.leb_le; done).
  apply N.leb_gt in Ha. subst wake. lia.
Qed.

Lemma pollTurns_app d id l1 l2 :
  pollTurns d id l1 → pollTurns d id l2 → pollTurns d id (l1 ++ l2).
Proof.
  induction 1 as [|turn rest Ht Hr IH]; [done|].
  intros H2. rewrite <- app_assoc. constructor; auto.
Qed.

Lemma pollTurns_one d id turn : pollTurn d id turn → pollTurns d id turn.
Proof. intros H. rewrite <- (app_nil_r turn). constructor; [done|constructor]. Qed.

Lemma getASKState_returns cli id region s : (getASKState cli id region s).1 ≠ OutOfFuel.
Proof.
  unfold getASKState. fold (stateRequest id region).
  destruct (ProcessCommonRequest_run cli (stateRequest id region) s)
    as (b' & e' & d' & _ & Hp).
  rewrite (bind_Ret _ _ _ _ _ Hp).
  destruct e'; cbn; [done|].
  unfold mbind, M_bind, bind, lift.
  pose proof (isErrResponse_returns b').
  destruct (isErrResponse b') as [[?|]|?|]; cbn; try done.
  repeat (break_match; cbn; try done).
Qed.

Lemma creationLoop_run fuel cli id region T s o s' :
  creationLoop fuel cli id region T s = (o, s') →
  ∃ polls,
    trace s' = (trace s ++ polls)%list
    ∧ pollTurns (10 * Second)%N id polls
    ∧ (clock s ≤ clock s')%N
    ∧ (o = Ret Break → Exists runningPoll polls)
    ∧ (∀ err, o = Ret (Return err) → early err ∨ (T ≤ clock s')%N)
    ∧ (fuel ≠ 0 → (T < clock s + 10 * Second * N.of_nat fuel)%N → o ≠ OutOfFuel).
Proof.
  revert s. induction fuel as [|fuel IH]; intros s Hloop.
  { injection Hloop as <- <-. exists []. rewrite app_nil_r.
    split; [done|]. split; [apply turns_nil|]. split; [lia|].
    split; [done|]. split; [done|]. done. }
  cbn [creationLoop] in Hloop.
  unfold mbind at 1 in Hloop. unfold M_bind, bind at 1 in Hloop.
  unfold time_After at 1 in Hloop. cbn [fst snd] in Hloop.
  set (s1 := record _ s) in Hloop.
  destruct (select2_run (clock s + 10 * Second)%N T s1) as (first & Hsel & Hfst & Hsnd).
  rewrite (bind_Ret _ _ _ _ _ Hsel) in Hloop. clear Hsel.
  cbn [clock trace s1 record] in *.
  set (wake := N.max _ _) in *. set (s2 := Build_State _ _) in Hloop.
  destruct first.
  - (* the tick *)
    specialize (Hfst eq_refl).
    unfold mbind at 1 in Hloop. unfold M_bind, bind at 1 in Hloop.
    destruct (getASKState cli id region s2) as [o3 s3] eqn:Hg.
    pose proof (getASKState_state cli id region s2) as Hst. rewrite Hg in Hst. cbn in Hst.
    pose proof (getASKState_returns cli id region s2) as Hret3. rewrite Hg in Hret3.
    destruct (answered_trace s2 cli (stateRequest id region))
      as (body & err & d & Hh & Htr & Hck).
    rewrite <- Hst in Htr, Hck. cbn [trace clock s2] in Htr, Hck.
    assert (Hturn : pollTurn (10 * Second)%N id
              [EvAfter (clock s) (10 * Second)%N;
               EvRequest wake cli (stateRequest id region) body (ErrClient <$> err)])
      by (constructor; lia).
    destruct o3 as [[st [e|]]|msg|]; cbn in Hloop.
    + injection Hloop as <- <-.
      eexists. split; [by rewrite Htr, <- app_assoc|].
      split; [by apply pollTurns_one|]. split; [lia|].
      split; [done|]. split; [|done].
      intros ? [= <-]. left.
      eapply getASKState_err. by rewrite Hg.
    + destruct (decide (st = "running")) as [->|Hne]; cbn in Hloop.
      * injection Hloop as <- <-.
        eexists. split; [by rewrite Htr, <- app_assoc|].
        split; [by apply pollTurns_one|]. split; [lia|].
        split; [|done].
        intros _. apply Exists_cons_tl, Exists_cons_hd.
        destruct (getASKState_ok cli id region s2 "running") as (body' & d' & Hh' & Hr);
          [by rewrite Hg|].
        rewrite Hh in Hh'. injection Hh' as <- -> <-.
        destruct Hr as [[Hj Ht]|[? _]]; [|done].
        by exists wake, cli, id, region, body.
      * destruct (IH s3 Hloop) as (polls & Hp & Hturns & Hclk & Hbrk & Hret & Hfuel).
        exists ([EvAfter (clock s) (10 * Second)%N;
                 EvRequest wake cli (stateRequest id region) body (ErrClient <$> err)]
                ++ polls).
        split; [by rewrite Hp, Htr, <- !app_assoc|].
        split; [by apply pollTurns_app; [apply pollTurns_one|]|].
        split; [lia|].
        split; [intros H; apply Exists_app; right; auto|].
        split; [done|].
        unfold Second in *. intros _ Hlt. apply Hfuel; lia.
    + injection Hloop as <- <-.
      eexists. split; [by rewrite Htr, <- app_assoc|].
      split; [by apply pollTurns_one|]. split; [lia|]. done.
    + done.
  - (* the deadline *)
    specialize (Hsnd eq_refl). cbn in Hloop. injection Hloop as <- <-.
    exists [EvAfter (clock s) (10 * Second)%N].
    split; [done|]. split; [apply pollTurns_one; constructor|].
    split; [cbn; lia|]. split; [done|]. split; [|done].
    intros err _. by right.
Qed.


(** ** The run of [CreateVirtualCluster] *)

Ltac solve_plain :=
  repeat (apply Forall_cons; split;
          [split; cbn; intros ?; first [done | discriminate]|]);
  try apply List.Forall_nil.


Lemma split_in_tail {A} (P : A → Prop) (l1 tail pre : list A) (x : A) post :
  l1 ++ tail = pre ++ x :: post →
  Forall (λ y, ¬ P y) l1 → P x →
  ∃ k, pre = l1 ++ k ∧ tail = k ++ x :: post.
Proof.
  revert pre. induction l1 as [|a l1 IH]; intros pre Heq Hn He.
  { by exists pre. }
  apply Forall_cons in Hn as [Ha Hn].
  destruct pre as [|a' pre]; cbn in Heq.
  { injection Heq as -> _. done. }
  injection Heq as -> Heq.
  destruct (IH pre Heq Hn He) as (k & -> & ->). by exists k.
Qed.

Lemma early_status (err : option (string * string)) : early (uncurry ErrStatus <$> err).
Proof. destruct err as [[a b]|]; solve_early. Qed.

Lemma CreateVirtualCluster_run vc s o s' :
  CreateVirtualCluster vc s = (o, s') →
  o ≠ OutOfFuel ∧ ∃ evs, trace s' = trace s ++ evs ∧ creationRun o s' evs.
Proof.
  unfold CreateVirtualCluster. intros H.
  (* 1. the access key pair *)
  destruct (getAliyunAKPair_run s) as ([[akid aksrt] e1] & ns1 & H1 & He1 & _).
  rewrite (bind_Ret _ _ _ _ _ H1) in H. clear H1. cbn in He1.
  set (s1 := record _ s) in H.
  assert (Ht1 : trace s1 = trace s ++ [EvGet KSecret ns1 AliyunAkSrt]) by done.
  clearbody s1.
  destruct e1 as [e1|].
  { injection H as <- <-. split; [done|]. eexists. split; [exact Ht1|].
    left. split; [solve_plain|]. by intros ? [= <-]. }
  (* the configuration *)
  destruct (getASKConfigs_run s1) as ([cfg e2] & ns2 & H2 & He2 & _).
  rewrite (bind_Ret _ _ _ _ _ H2) in H. clear H2. cbn in He2.
  set (s2 := record _ s1) in H.
  assert (Ht2 : trace s2 = trace s ++ [EvGet KSecret ns1 AliyunAkSrt;
                                       EvGet KConfigMap ns2 AliyunASKConfigMap])
    by (subst s2; cbn [trace record]; by rewrite Ht1, <- app_assoc).
  clearbody s2.
  destruct e2 as [e2|].
  { injection H as <- <-. split; [done|]. eexists. split; [exact Ht2|].
    left. split; [solve_plain|]. by intros ? [= <-]. }
  (* 2. the client and the creation request *)
  unfold mbind at 1 in H. unfold M_bind, bind at 1 in H.
  unfold NewClientWithAccessKey at 1 in H. cbn [fst snd] in H.
  set (cli := Build_Client _ _ _) in H.
  set (s3 := record _ s2) in H.
  assert (Ht3 : ∃ e3, trace s3 = trace s ++ [EvGet KSecret ns1 AliyunAkSrt;
                                       EvGet KConfigMap ns2 AliyunASKConfigMap;
                                       EvNewClient cli e3])
    by (eexists; subst s3; cbn [trace record]; by rewrite Ht2, <- app_assoc).
  destruct Ht3 as [e3 Ht3]. clearbody s3.
  destruct (newClient w (trace s2) cli) as [msg3|]; cbn [fmap option_fmap option_map] in H.
  { injection H as <- <-. split; [done|]. eexists. split; [exact Ht3|].
    left. split; [solve_plain|]. intros ? [= <-]. solve_early. }
  destruct (sendCreationRequest_run cli (vcName vc) cfg s3)
    as (o4 & s4 & H4 & Hs4 & He4 & Hf4).
  unfold mbind at 1 in H. unfold M_bind, bind at 1 in H. rewrite H4 in H. clear H4.
  assert (Ht4 : ∃ evs4, trace s4 = trace s ++ evs4 ∧ Forall plain evs4).
  { destruct (answered_trace s3 cli (creationRequest (vcName vc) cfg))
      as (b & e & d & _ & Hta & _).
    destruct Hs4 as [->| ->].
    - eexists. split; [by rewrite Hta, Ht3, <- app_assoc|]. solve_plain.
    - destruct (answered_trace (answered s3 cli (creationRequest (vcName vc) cfg)) cli
                  (listRequest (regionID cfg))) as (b' & e' & d' & _ & Htb & _).
      eexists. split; [by rewrite Htb, Hta, Ht3, <- !app_assoc|]. solve_plain. }
  destruct Ht4 as (evs4 & Ht4 & Hp4).
  destruct o4 as [[clsID e4]|msg|]; [|injection H as <- <-|done].
  2:{ split; [done|]. exists evs4. split; [done|]. left. split; [done|]. done. }
  specialize (He4 _ eq_refl). cbn in He4.
  destruct e4 as [e4|].
  { injection H as <- <-. split; [done|]. exists evs4. split; [done|].
    left. split; [done|]. by intros ? [= <-]. }
  (* 3. the polling *)
  unfold mbind at 1 in H. unfold M_bind, bind at 1 in H.
  unfold time_After at 1 in H. cbn [fst snd] in H.
  set (s5 := record _ s4) in H.
  unfold mbind at 1 in H. unfold M_bind, bind at 1 in H.
  destruct (creationLoop creationFuel cli clsID (regionID cfg) (clock s4 + 120 * Second)%N s5)
    as [o6 s6] eqn:H6.
  destruct (creationLoop_run _ _ _ _ _ _ _ _ H6)
    as (polls & Ht6 & Hturns & Hclk & Hbrk & Hret & Hfuel).
  assert (Ht6' : trace s6 = trace s ++ evs4 ++ EvAfter (clock s4) (120 * Second)%N :: polls).
  { rewrite Ht6. subst s5. cbn [trace record]. rewrite Ht4, <- !app_assoc. done. }
  assert (Hf6 : o6 ≠ OutOfFuel).
  { apply Hfuel; [done|]. subst s5. cbn [clock record]. unfold creationFuel, Second. lia. }
  destruct o6 as [[|err]|msg|]; [| |injection H as <- <-|done].
  - (* the loop was left: 4. the namespace *)
    specialize (Hbrk eq_refl).
    unfold mbind at 1 in H. unfold M_bind, bind at 1 in H.
    unfold Create at 1 in H. cbn [fst snd] in H.
    set (s7 := record _ s6) in H.
    set (e7 := uncurry ErrStatus <$> _) in *.
    assert (He7 : early e7) by apply early_status.
    destruct (bool_decide (e7 ≠ None) && negb (from_option IsAlreadyExists false e7)).
    { injection H as <- <-. split; [done|].
      exists (evs4 ++ EvAfter (clock s4) (120 * Second)%N :: polls
              ++ [EvCreate (NamespaceObj (ToClusterKey vc)) e7]).
      split; [subst s7; cbn; rewrite Ht6', <- !app_assoc; done|].
      right. exists evs4, (clock s4), clsID, polls, [EvCreate (NamespaceObj (ToClusterKey vc)) e7].
      split; [done|]. split; [done|]. split; [done|]. right.
      split; [done|]. split; [repeat constructor; cbn; tauto|]. by intros ? [= <-]. }
    (* 5. the kubeconfig *)
    destruct (getASKKubeConfig_run cli clsID (regionID cfg) s7) as ([kbCfg e8] & H8 & He8).
    rewrite (bind_Ret _ _ _ _ _ H8) in H. clear H8. cbn in He8.
    destruct (answered_trace s7 cli (configRequest clsID (regionID cfg)))
      as (b8 & e8' & d8 & _ & Ht8 & _).
    set (s8 := answered s7 _ _) in *.
    destruct e8 as [e8|].
    { injection H as <- <-. split; [done|].
      eexists. split; [rewrite Ht8; subst s7; cbn; rewrite Ht6', <- !app_assoc; done|].
      right. eexists evs4, (clock s4), clsID, polls, [_; _].
      split; [done|]. split; [done|]. split; [done|]. right.
      split; [done|]. split; [repeat constructor; cbn; try tauto; discriminate|].
      by intros ? [= <-]. }
    (* 6. the secret *)
    unfold mbind at 1 in H. unfold M_bind, bind at 1 in H.
    unfold Create at 1 in H. cbn [fst snd] in H.
    set (s9 := record _ s8) in H.
    set (e9 := uncurry ErrStatus <$> _) in *.
    assert (He9 : early e9) by apply early_status.
    set (b9 := bool_decide _ && negb _) in H.
    assert (Ho : s' = s9 ∧ o ≠ OutOfFuel ∧ ∀ err, o = Ret err → early err).
    { destruct b9; injection H as <- <-; (split; [done|]); (split; [done|]);
        intros ? [= <-]; first [apply early_status | solve_early]. }
    destruct Ho as (Hs' & Hof & Ho).
    clear H. subst s'. split; [done|].
    eexists. split; [subst s9; cbn; rewrite Ht8; subst s7; cbn; rewrite Ht6', <- !app_assoc; done|].
    right. eexists evs4, (clock s4), clsID, polls, [_; _; _].
    split; [done|]. split; [done|]. split; [done|]. right.
    split; [done|]. split; [repeat constructor; cbn; try tauto; discriminate|]. done.
  - (* the loop returned *)
    injection H as <- <-. split; [done|].
    exists (evs4 ++ EvAfter (clock s4) (120 * Second)%N :: polls ++ []).
    split; [by rewrite app_nil_r|].
    right. exists evs4, (clock s4), clsID, polls, [].
    split; [done|]. split; [done|]. split; [done|]. left.
    split; [done|]. intros ? [= <-]. by apply Hret.
  - (* a panic in the loop *)
    split; [done|].
    exists (evs4 ++ EvAfter (clock s4) (120 * Second)%N :: polls ++ []).
    split; [by rewrite app_nil_r|].
    right. exists evs4, (clock s4), clsID, polls, [].
    split; [done|]. split; [done|]. split; [done|]. left. done.
Qed.

(** ** The run of [DeleteVirtualCluster] *)

Lemma deletionLoop_run fuel cli vc id region T s o s' :
  deletionLoop fuel cli vc id region T s = (o, s') →
  ∃ polls,
    trace s' = trace s ++ polls
    ∧ pollTurns (2 * Second)%N id polls
    ∧ (clock s ≤ clock s')%N
    ∧ (fuel ≠ 0 → (T < clock s + 2 * Second * N.of_nat fuel)%N → o ≠ OutOfFuel).
Proof.
  revert s. induction fuel as [|fuel IH]; intros s Hloop.
  { injection Hloop as <- <-. exists []. rewrite app_nil_r.
    split; [done|]. split; [apply turns_nil|]. split; [lia|]. done. }
  cbn [deletionLoop] in Hloop.
  unfold mbind at 1 in Hloop. unfold M_bind, bind at 1 in Hloop.
  unfold time_After at 1 in Hloop. cbn [fst snd] in Hloop.
  set (s1 := record _ s) in Hloop.
  destruct (select2_run (clock s + 2 * Second)%N T s1) as (first & Hsel & Hfst & Hsnd).
  rewrite (bind_Ret _ _ _ _ _ Hsel) in Hloop. clear Hsel.
  cbn [clock trace s1 record] in *.
  set (wake := N.max _ _) in *. set (s2 := Build_State _ _) in Hloop.
  destruct first.
  - specialize (Hfst eq_refl).
    unfold mbind at 1 in Hloop. unfold M_bind, bind at 1 in Hloop.
    destruct (getASKState cli id region s2) as [o3 s3] eqn:Hg.
    pose proof (getASKState_state cli id region s2) as Hst. rewrite Hg in Hst. cbn in Hst.
    pose proof (getASKState_returns cli id region s2) as Hret3. rewrite Hg in Hret3.
    destruct (answered_trace s2 cli (stateRequest id region))
      as (body & err & d & Hh & Htr & Hck).
    rewrite <- Hst in Htr, Hck. cbn [trace clock s2] in Htr, Hck.
    assert (Hturn : pollTurn (2 * Second)%N id
              [EvAfter (clock s) (2 * Second)%N;
               EvRequest wake cli (stateRequest id region) body (ErrClient <$> err)])
      by (constructor; lia).
    assert (Hone : ∀ o : outcome loopExit, o ≠ OutOfFuel →
              ∃ polls, trace s3 = trace s ++ polls
                ∧ pollTurns (2 * Second)%N id polls
                ∧ (clock s ≤ clock s3)%N
                ∧ (S fuel ≠ 0 → (T < clock s + 2 * Second * N.of_nat (S fuel))%N
                   → o ≠ OutOfFuel)).
    { intros o' Ho'. eexists. split; [by rewrite Htr, <- app_assoc|].
      split; [by apply pollTurns_one|]. split; [lia|]. done. }
    destruct o3 as [[st [e|]]|msg|]; cbn in Hloop.
    + destruct (clusterNotFoundErr e); injection Hloop as <- <-; by apply Hone.
    + destruct (decide (st = "deleting")) as [->|Hne]; cbn in Hloop.
      * injection Hloop as <- <-. by apply Hone.
      * destruct (IH s3 Hloop) as (polls & Hp & Hturns & Hclk & Hfuel).
        exists ([EvAfter (clock s) (2 * Second)%N;
                 EvRequest wake cli (stateRequest id region) body (ErrClient <$> err)]
                ++ polls).
        split; [by rewrite Hp, Htr, <- !app_assoc|].
        split; [by apply pollTurns_app; [apply pollTurns_one|]|].
        split; [lia|].
        unfold Second in *. intros _ Hlt. apply Hfuel; lia.
    + injection Hloop as <- <-. by apply Hone.
    + done.
  - specialize (Hsnd eq_refl). cbn in Hloop. injection Hloop as <- <-.
    exists [EvAfter (clock s) (2 * Second)%N].
    split; [done|]. split; [apply pollTurns_one; constructor|].
    split; [cbn; lia|]. done.
Qed.

Ltac solve_quiet :=
  repeat (apply Forall_cons; split; [cbn; intros ?; first [done | discriminate]|]);
  try apply List.Forall_nil.

Lemma DeleteVirtualCluster_run vc s o s' :
  DeleteVirtualCluster vc s = (o, s') →
  o ≠ OutOfFuel ∧ ∃ evs, trace s' = trace s ++ evs ∧ deletionRun o evs.
Proof.
  unfold DeleteVirtualCluster. intros H.
  destruct (getAliyunAKPair_run s) as ([[akid aksrt] e1] & ns1 & H1 & _ & _).
  rewrite (bind_Ret _ _ _ _ _ H1) in H. clear H1.
  set (s1 := record _ s) in H.
  assert (Ht1 : trace s1 = trace s ++ [EvGet KSecret ns1 AliyunAkSrt]) by done.
  clearbody s1.
  destruct e1 as [e1|].
  { injection H as <- <-. split; [done|]. eexists. split; [exact Ht1|].
    left. solve_quiet. }
  destruct (getASKConfigs_run s1) as ([cfg e2] & ns2 & H2 & _ & _).
  rewrite (bind_Ret _ _ _ _ _ H2) in H. clear H2.
  set (s2 := record _ s1) in H.
  assert (Ht2 : trace s2 = trace s ++ [EvGet KSecret ns1 AliyunAkSrt;
                                       EvGet KConfigMap ns2 AliyunASKConfigMap])
    by (subst s2; cbn [trace record]; by rewrite Ht1, <- app_assoc).
  clearbody s2.
  destruct e2 as [e2|].
  { injection H as <- <-. split; [done|]. eexists. split; [exact Ht2|].
    left. solve_quiet. }
  unfold mbind at 1 in H. unfold M_bind, bind at 1 in H.
  unfold NewClientWithAccessKey at 1 in H. cbn [fst snd] in H.
  set (cli := Build_Client _ _ _) in H.
  set (s3 := record _ s2) in H.
  assert (Ht3 : ∃ e3, trace s3 = trace s ++ [EvGet KSecret ns1 AliyunAkSrt;
                                       EvGet KConfigMap ns2 AliyunASKConfigMap;
                                       EvNewClient cli e3])
    by (eexists; subst s3; cbn [trace record]; by rewrite Ht2, <- app_assoc).
  destruct Ht3 as [e3 Ht3]. clearbody s3.
  destruct (newClient w (trace s2) cli) as [msg3|]; cbn [fmap option_fmap option_map] in H.
  { injection H as <- <-. split; [done|]. eexists. split; [exact Ht3|].
    left. solve_quiet. }
  destruct (getClusterIDByName_run cli (vcName vc) (regionID cfg) s3) as ([id e4] & H4 & _).
  rewrite (bind_Ret _ _ _ _ _ H4) in H. clear H4.
  destruct (answered_trace s3 cli (listRequest (regionID cfg)))
    as (b4 & e4' & d4 & _ & Ht4 & _).
  set (s4 := answered s3 _ _) in *. rewrite Ht3, <- app_assoc in Ht4. cbn [app] in Ht4.
  clearbody s4.
  set (pre := [_; _; _; _]) in Ht4.
  assert (Hpre : Forall (λ e, ¬ deletion e) pre) by (subst pre; solve_quiet).
  clearbody pre.
  destruct e4 as [e4|].
  { injection H as <- <-. split; [done|]. eexists. split; [exact Ht4|]. by left. }
  rewrite (bind_Ret _ _ _ _ _ (sendDeletionRequest_run cli id (regionID cfg) s4)) in H.
  destruct (answered_trace s4 cli (deletionRequest id (regionID cfg)))
    as (b5 & e5 & d5 & Hh5 & Ht5 & _).
  set (s5 := answered s4 _ _) in *. rewrite Ht4, <- app_assoc in Ht5.
  rewrite Hh5 in H. cbn [fst snd] in H.
  destruct e5 as [msg5|]; cbn [fmap option_fmap option_map] in H.
  { injection H as <- <-. split; [done|]. eexists. split; [exact Ht5|].
    right. exists pre, (clock s4), cli, id, (regionID cfg), b5, (Some msg5), [].
    split; [done|]. split; [done|]. done. }
  unfold mbind at 1 in H. unfold M_bind, bind at 1 in H.
  unfold time_After at 1 in H. cbn [fst snd] in H.
  set (s6 := record _ s5) in H.
  unfold mbind at 1 in H. unfold M_bind, bind at 1 in H.
  destruct (deletionLoop deletionFuel cli vc id (regionID cfg) (clock s5 + 100 * Second)%N s6)
    as [o7 s7] eqn:H7.
  destruct (deletionLoop_run _ _ _ _ _ _ _ _ _ H7) as (polls & Ht7 & Hturns & _ & Hfuel).
  assert (Hf7 : o7 ≠ OutOfFuel).
  { apply Hfuel; [done|]. subst s6. cbn [clock record]. unfold deletionFuel, Second. lia. }
  assert (Ho : s' = s7 ∧ o ≠ OutOfFuel).
  { destruct o7 as [[|err]|msg|]; [| | |done]; by injection H as <- <-. }
  destruct Ho as [-> Ho]. split; [done|].
  eexists. split.
  { rewrite Ht7. subst s6. cbn [trace record]. rewrite Ht5, <- !app_assoc. done. }
  right. exists pre, (clock s4), cli, id, (regionID cfg), b5, None, (EvAfter (clock s5) (100 * Second)%N :: polls).
  split; [done|]. split; [done|]. by exists (clock s5), polls.
Qed.

(** ** The life cycle *)




(** Both calls return: the unrolling of their loops is long enough. *)
Lemma CreateVirtualCluster_returns vc s : (CreateVirtualCluster vc s).1 ≠ OutOfFuel.
Proof.
  destruct (CreateVirtualCluster vc s) as [o s'] eqn:H.
  by apply CreateVirtualCluster_run in H as [? _].
Qed.

Lemma DeleteVirtualCluster_returns vc s : (DeleteVirtualCluster vc s).1 ≠ OutOfFuel.
Proof.
  destruct (DeleteVirtualCluster vc s) as [o s'] eqn:H.
  by apply DeleteVirtualCluster_run in H as [? _].
Qed.




(** ** The classifier and the requests *)

(** C1. On the five-line sample body of the specification, which is not
    JSON, the classifier does not yield the code "ClusterNameAlreadyExist":
    the third piece of the fifth line between colons runs up to the next
    colon, so the code it yields goes on with the quote, the comma and the
    next key. The name of the error is "SDK.ServerError". *)
Theorem isErrResponse_sampleBody :
  isErrResponse sampleBody = Ret None
  ∨ (isErrResponse sampleBody
     = Ret (Some {| errorName := "SDK.ServerError";
                    errorCode := "ClusterNameAlreadyExist" +:+ DQ +:+ "," +:+ DQ +:+ "message";
                    errorMessage := "R1" +:+ DQ +:+ "," +:+ DQ +:+ "status" |})
     ∧ "ClusterNameAlreadyExist" +:+ DQ +:+ "," +:+ DQ +:+ "message" ≠ ClusterNameAlreadyExist).
Proof.
  unfold isErrResponse. destruct (IsJSON sampleBody); [by left|].
  right. split; [by vm_compute|]. by vm_compute.
Qed.

(** C10. When the state request is answered without a client error by a
    JSON body, [getASKState] returns a state exactly when the body is an
    object whose "cluster_id" is the string asked for and whose "state" is
    a string, and the state is that string; in every other case it returns
    an error and the empty state. *)
Theorem getASKState_own_cluster cli id region s body d :
  http w (trace s) cli (stateRequest id region) = (body, None, d) →
  IsJSON body = true →
  (∀ st, tellsState id st body → (getASKState cli id region s).1 = Ret (st, None))
  ∧ ((∀ st, ¬ tellsState id st body) →
     ∃ err, (getASKState cli id region s).1 = Ret (EmptyString, Some err)).
Proof.
  intros Hh Hj. unfold getASKState. fold (stateRequest id region).
  destruct (ProcessCommonRequest_run cli (stateRequest id region) s)
    as (b & e & d' & Hh' & Hp).
  rewrite Hh in Hh'. injection Hh' as <- <- <-.
  rewrite (bind_Ret _ _ _ _ _ Hp). clear Hp. cbn.
  unfold mbind, M_bind, bind, lift, isErrResponse. rewrite Hj. cbn.
  unfold tellsState.
  destruct (Unmarshal_map body) as [m [ue|]] eqn:Hu; cbn.
  { split; [by intros st (m' & [= _ ?] & _)|]. intros _. by eexists. }
  destruct (m !! "cluster_id") as [v|] eqn:Hid; cbn.
  2:{ split; [by intros st (m' & [= <-] & ? & _); congruence|]. intros _. by eexists. }
  destruct v as [| | |x| |]; cbn;
    try solve [split; [by intros st (m' & [= <-] & ? & _); congruence
                      |intros _; by eexists]].
  destruct (decide (x ≠ id)) as [Hne|Heq]; cbn.
  { split; [intros st (m' & [= <-] & ? & _); congruence|]. intros _. by eexists. }
  assert (x = id) as -> by (by destruct (decide (x = id))).
  destruct (m !! "state") as [v'|] eqn:Hst; cbn.
  2:{ split; [by intros st (m' & [= <-] & _ & ?); congruence|]. intros _. by eexists. }
  destruct v' as [| | |x'| |]; cbn;
    try solve [split; [by intros st (m' & [= <-] & _ & ?); congruence
                      |intros _; by eexists]].
  split; [intros st (m' & [= <-] & _ & ?); congruence|].
  intros Hno. destruct (Hno x'). by exists m.
Qed.

(** The branches of [sendCreationRequest] on the answer to the POST, in
    terms of what the classifier reads: an error of the client is returned
    with only the POST sent; a body the classifier reads as
    "ClusterNameAlreadyExist" makes it look the name up by one list request
    and return what the lookup returns; a body read as any other error is
    returned as that error with only the POST sent. Which bodies the
    classifier reads as "ClusterNameAlreadyExist" is another matter. *)
Theorem sendCreationRequest_classified cli name cfg s body err d :
  http w (trace s) cli (creationRequest name cfg) = (body, err, d) →
  (∀ msg, err = Some msg →
     sendCreationRequest cli name cfg s
     = (Ret (EmptyString, Some (ErrClient msg)), answered s cli (creationRequest name cfg)))
  ∧ (∀ ase, err = None → isErrResponse body = Ret (Some ase) →
       (errorCode ase = ClusterNameAlreadyExist →
          ∃ r, getClusterIDByName cli name (regionID cfg)
                 (answered s cli (creationRequest name cfg))
               = (Ret r, answered (answered s cli (creationRequest name cfg)) cli
                           (listRequest (regionID cfg)))
               ∧ sendCreationRequest cli name cfg s
                 = (Ret (if r.2 is Some _ then (EmptyString, r.2) else (r.1, None)),
                    answered (answered s cli (creationRequest name cfg)) cli
                      (listRequest (regionID cfg))))
       ∧ (errorCode ase ≠ ClusterNameAlreadyExist →
            sendCreationRequest cli name cfg s
            = (Ret (EmptyString, Some (ErrSDK ase)),
               answered s cli (creationRequest name cfg)))).
Proof.
  intros Hh. unfold sendCreationRequest. fold (creationRequest name cfg).
  destruct (ProcessCommonRequest_run cli (creationRequest name cfg) s)
    as (b & e & d' & Hh' & Hp).
  rewrite Hh in Hh'. injection Hh' as <- <- <-.
  rewrite (bind_Ret _ _ _ _ _ Hp). clear Hp.
  set (s1 := answered _ _ _).
  split.
  { by intros msg ->. }
  intros ase -> Hc. cbn.
  split; intros Hcode;
    unfold mbind at 1; unfold M_bind, bind at 1; unfold lift; rewrite Hc; cbn.
  - destruct (decide (errorCode ase = ClusterNameAlreadyExist)); [|done].
    destruct (getClusterIDByName_run cli name (regionID cfg) s1) as ([id ge] & Hg & _).
    exists (id, ge). split; [done|].
    rewrite (bind_Ret _ _ _ _ _ Hg). by destruct ge.
  - destruct (decide (errorCode ase = ClusterNameAlreadyExist)); [done|reflexivity].
Qed.

(** C8. When the namespace of the pod cannot be found, the access-key
    secret and the ASK ConfigMap are both read in the namespace
    "vc-manager". *)
Theorem fallback_namespace s ns msg :
  podNs w (trace s) = (ns, Some msg) →
  trace (getAliyunAKPair s).2 = trace s ++ [EvGet KSecret "vc-manager" "aliyun-accesskey"]
  ∧ trace (getASKConfigs s).2 = trace s ++ [EvGet KConfigMap "vc-manager" "aliyun-ask-config"].
Proof.
  intros Hns.
  destruct (getAliyunAKPair_run s) as (r1 & ns1 & -> & _ & H1).
  destruct (getASKConfigs_run s) as (r2 & ns2 & -> & _ & H2).
  rewrite Hns in H1, H2. cbn in *. by rewrite H1, H2.
Qed.

End Facts.

(** * The sample worlds *)

Local Open Scope list_scope.

(** C9. With the VPC "vpc-1" configured, the body of the creation request
    is not the JSON object of the interface: after the "zoneid" member come
    a quote and a line break, the key without its opening quote, the id
    without quotes, and no comma before "nat_gateway"; the text has no
    "vpc_id" between quotes at all. *)
Theorem creationBody_with_vpc :
  creationBody "tenant-a"
    {| vpcID := "vpc-1"; regionID := "cn-hangzhou"; zoneID := "cn-hangzhou-b" |}
  = lines [ "{";
            quoted "cluster_type" +:+ ": " +:+ quoted "Ask" +:+ ",";
            quoted "name" +:+ ": " +:+ quoted "tenant-a" +:+ ", ";
            quoted "region_id" +:+ ": " +:+ quoted "cn-hangzhou" +:+ ",";
            quoted "zoneid" +:+ ": " +:+ quoted "cn-hangzhou-b" +:+ ", " +:+ DQ;
            "vpc_id" +:+ DQ +:+ ": vpc-1";
            EmptyString;
            quoted "nat_gateway" +:+ ": true,";
            quoted "private_zone" +:+ ": true";
            "}" ]
  ∧ Contains
      (creationBody "tenant-a"
         {| vpcID := "vpc-1"; regionID := "cn-hangzhou"; zoneID := "cn-hangzhou-b" |})
      (quoted "vpc_id") = false.
Proof. split; vm_compute; reflexivity. Qed.

(** Without a VPC the body is the object of the interface, without a
    "vpc_id" member. *)
Lemma creationBody_without_vpc name region zone :
  creationBody name {| vpcID := EmptyString; regionID := region; zoneID := zone |}
  = lines [ "{";
            quoted "cluster_type" +:+ ": " +:+ quoted "Ask" +:+ ",";
            quoted "name" +:+ ": " +:+ quoted name +:+ ", ";
            quoted "region_id" +:+ ": " +:+ quoted region +:+ ",";
            quoted "zoneid" +:+ ": " +:+ quoted zone +:+ ", ";
            quoted "nat_gateway" +:+ ": true,";
            quoted "private_zone" +:+ ": true";
            "}" ].
Proof. reflexivity. Qed.

(** C2. A backend that answers every state probe after the deletion by an
    error body with the code "ErrorClusterNotFound": the classifier yields
    that code, and yet [DeleteVirtualCluster] polls until the deadline and
    returns the timeout error. The same happens with the error body in the
    shape of the specification's sample. *)
Theorem deletion_not_found_times_out :
  @isErrResponse sampleImports (pieceBody "ErrorClusterNotFound" "cluster not found")
  = Ret (Some {| errorName := "SDK.ServerError";
                 errorCode := ClusterNotFound;
                 errorMessage := "cluster not found" |})
  ∧ (runDelete (goneBackend (pieceBody "ErrorClusterNotFound" "cluster not found"))).1
    = Ret (Some (ErrNew "Delete ASK(tenant-a) timeout"))
  ∧ (runDelete (goneBackend (errorBody "ErrorClusterNotFound" "cluster not found" "R4" "404"))).1
    = Ret (Some (ErrNew "Delete ASK(tenant-a) timeout")).
Proof. repeat split; vm_compute; reflexivity. Qed.

(** C6. A backend that answers the first state probe by an error body and
    the later ones by "running": the classifier reads the first answer as
    an error, and yet [CreateVirtualCluster] does not return it; it sends a
    second probe, creates the kubeconfig secret and returns no error. *)
Theorem creation_polls_on_after_error_body :
  (∃ ase, @isErrResponse sampleImports
            (errorBody "Throttling" "request was throttled" "R2" "400") = Ret (Some ase))
  ∧ (runCreate throttledBackend).1 = Ret None
  ∧ sent "GET" "/clusters/cls-123" (trace (runCreate throttledBackend).2) = 2
  ∧ last (trace (runCreate throttledBackend).2)
    = Some (EvCreate (KubeconfigSecret "admin-kubeconfig" "default-0a1b2c-tenant-a"
                        "apiVersion: v1") None).
Proof.
  split; [eexists; vm_compute; reflexivity|].
  repeat split; vm_compute; reflexivity.
Qed.


(** The literal success path of the specification: the state reads
    "creating" at the first poll and "running" at the second; the call
    returns no error and its last event creates the kubeconfig secret in
    the namespace of the tenant. *)
Lemma literal_success_path :
  (runCreate successBackend).1 = Ret None
  ∧ sent "GET" "/clusters/cls-123" (trace (runCreate successBackend).2) = 2
  ∧ last (trace (runCreate successBackend).2)
    = Some (EvCreate (KubeconfigSecret "admin-kubeconfig" (sample_ToClusterKey tenantA)
                        "apiVersion: v1") None).
Proof. repeat split; vm_compute; reflexivity. Qed.

(** A cluster that stays "creating": with requests of one second, the
    deadline timer starts at second 1, eleven probes are sent, and the call
    returns the timeout at second 122. *)
Lemma literal_timeout :
  (runCreate creatingBackend).1 = Ret (Some (timeoutOf "cls-123"))
  ∧ sent "GET" "/clusters/cls-123" (trace (runCreate creatingBackend).2) = 11
  ∧ clock (runCreate creatingBackend).2 = (122 * Second)%N.
Proof. repeat split; vm_compute; reflexivity. Qed.

(** Two creation requests in a row against a backend that keeps names
    unique: both return the id of the one cluster, and two POSTs were
    sent. *)
Lemma repeated_creation_same_cluster :
  let twice :=
    (r1 ← @sendCreationRequest sampleImports (sampleWorld uniqueNameBackend)
            sampleCli "tenant-a" sampleCfg;
     r2 ← @sendCreationRequest sampleImports (sampleWorld uniqueNameBackend)
            sampleCli "tenant-a" sampleCfg;
     mret (r1, r2)) (st0 0) in
  twice.1 = Ret (("cls-123", None), ("cls-123", None))
  ∧ sent "POST" "/clusters" (trace twice.2) = 2.
Proof. split; vm_compute; reflexivity. Qed.

(** ** Witnesses *)




Lemma getASKState_own_cluster_witness :
  (@getASKState sampleImports (sampleWorld successBackend)
     sampleCli "cls-123" "cn-hangzhou" (st0 0)).1
  = Ret ("creating", None).
Proof.
  apply (proj1 (@getASKState_own_cluster sampleImports (sampleWorld successBackend)
                  sampleCli "cls-123" "cn-hangzhou" (st0 0)
                  (stateBody "cls-123" "creating") Second eq_refl eq_refl)).
  eexists. split; [vm_compute; reflexivity|]. split; vm_compute; reflexivity.
Defined.

Lemma sendCreationRequest_classified_witness :
  (@sendCreationRequest sampleImports (sampleWorld existingBackend)
     sampleCli "tenant-a" sampleCfg (st0 0)).1
  = Ret ("cls-123", None).
Proof.
  destruct (@sendCreationRequest_classified sampleImports (sampleWorld existingBackend)
              sampleCli "tenant-a" sampleCfg (st0 0)
              (pieceBody "ClusterNameAlreadyExist" "cluster name tenant-a already exist")
              None Second eq_refl) as [_ H].
  destruct (H {| errorName := "SDK.ServerError";
                 errorCode := ClusterNameAlreadyExist;
                 errorMessage := "cluster name tenant-a already exist" |}
              eq_refl eq_refl) as [H1 _].
  destruct (H1 eq_refl) as (r & Hg & Hs).
  rewrite Hs. vm_compute in Hg. injection Hg as <-. reflexivity.
Defined.

Lemma fallback_namespace_witness :
  trace (@getAliyunAKPair (sampleWorld successBackend) (st0 0)).2
  = [EvGet KSecret "vc-manager" "aliyun-accesskey"]
  ∧ trace (@getASKConfigs (sampleWorld successBackend) (st0 0)).2
    = [EvGet KConfigMap "vc-manager" "aliyun-ask-config"].
Proof.
  apply (@fallback_namespace (sampleWorld successBackend) (st0 0) EmptyString
           "open namespace: no such file or directory").
  reflexivity.
Defined.

(** * Further properties *)

(** ** Strings *)

#[local] Arguments String.append !_ _ / : simpl nomatch.

Lemma str_append_nil_r (s : string) : s +:+ EmptyString = s.
Proof. induction s as [|a s IH]; cbn; [done|]. by rewrite IH. Qed.

Lemma str_append_assoc (a b c : string) : (a +:+ b) +:+ c = a +:+ (b +:+ c).
Proof. induction a as [|x a IH]; cbn; [done|]. by rewrite IH. Qed.

Lemma str_length_append (a b : string) :
  String.length (a +:+ b) = String.length a + String.length b.
Proof. induction a as [|x a IH]; cbn; [done|]. by rewrite IH. Qed.

Lemma occurrences_append c (a b : string) :
  occurrences c (a +:+ b) = occurrences c a + occurrences c b.
Proof. induction a as [|x a IH]; cbn; [done|]. rewrite IH. lia. Qed.

Lemma substring_all (a b : string) : String.substring 0 (String.length a) (a +:+ b) = a.
Proof. induction a as [|x a IH]; cbn; [by destruct b|]. by rewrite IH. Qed.

(** [s[1 : len(s)-1]] drops the first and the last byte. *)
Lemma slice_strip (a b : ascii) (mid : string) :
  let s := String a (mid +:+ String b EmptyString) in
  slice s 1 (Z.of_nat (String.length s) - 1) = Ret mid.
Proof.
  cbn zeta. unfold slice. cbn [String.length].
  rewrite str_length_append. cbn [String.length].
  replace (Z.of_nat (S (String.length mid + 1)) - 1)%Z
    with (Z.of_nat (S (String.length mid))) by lia.
  destruct (_ && _)%bool eqn:Hb.
  - f_equal. replace (Z.to_nat (Z.of_nat (S (String.length mid)) - 1)) with (String.length mid) by lia.
    change (Z.to_nat 1) with 1. cbn [String.substring]. apply substring_all.
  - exfalso. revert Hb. rewrite !andb_false_iff, !Z.leb_gt. lia.
Qed.

(** Splitting at a byte: a piece free of the byte is taken whole. *)
Lemma Split_from_free c (cur a b : string) :
  occurrences c a = 0 →
  Split_from (String c EmptyString) 0 cur (a +:+ b)
  = Split_from (String c EmptyString) 0 (cur +:+ a) b.
Proof.
  revert cur. induction a as [|x a IH]; intros cur Hfree; cbn.
  { by rewrite str_append_nil_r. }
  cbn in Hfree. destruct (ascii_dec c x) as [->|Hne]; [done|].
  rewrite IH by done. by rewrite str_append_assoc.
Qed.

Lemma str_prefix_nil (b : string) : String.prefix EmptyString b = true.
Proof. by destruct b. Qed.

Lemma Split_from_sep c (cur b : string) :
  Split_from (String c EmptyString) 0 cur (String c b)
  = cur :: Split_from (String c EmptyString) 0 EmptyString b.
Proof. cbn. destruct (ascii_dec c c); [by rewrite str_prefix_nil|congruence]. Qed.

Lemma Split_piece c (a b : string) :
  occurrences c a = 0 →
  Split (a +:+ String c b) (String c EmptyString) = a :: Split b (String c EmptyString).
Proof.
  intros Hfree. unfold Split. rewrite Split_from_free by done. cbn [String.append].
  apply Split_from_sep.
Qed.

Lemma Split_last c (a : string) :
  occurrences c a = 0 → Split a (String c EmptyString) = [a].
Proof.
  intros Hfree. unfold Split. rewrite <- (str_append_nil_r a) at 1.
  by rewrite Split_from_free.
Qed.

(** The pieces are one more than the separating bytes. *)
Lemma Split_length c (s : string) :
  length (Split s (String c EmptyString)) = S (occurrences c s).
Proof.
  unfold Split. generalize EmptyString at 2 as cur.
  induction s as [|x s IH]; intros cur; [done|].
  cbn. destruct (ascii_dec c x); rewrite ?str_prefix_nil; cbn; by rewrite IH.
Qed.

(** Lines joined by line breaks are split into the same lines. *)
Lemma Split_lines (l : list string) :
  l ≠ [] → Forall (λ x, occurrences "010"%char x = 0) l → Split (lines l) NL = l.
Proof.
  induction l as [|x l IH]; [done|]. intros _ Hl.
  apply Forall_cons in Hl as [Hx Hl].
  destruct l as [|y l].
  { cbn. by apply Split_last. }
  change (lines (x :: y :: l)) with (x +:+ String "010"%char (lines (y :: l))).
  unfold NL. rewrite Split_piece by done. f_equal. by apply IH.
Qed.

Section MoreFacts.

Context {imports : Imports} {w : World}.

Implicit Types (s : State) (cli : Client).

Local Open Scope list_scope.

Ltac unfold_run :=
  unfold mbind, M_bind, bind, mret, M_ret, ret, lift, ProcessCommonRequest, answered.

Ltac break_inner :=
  match goal with
  | |- context [match ?x with _ => _ end] =>
      lazymatch x with
      | context [match _ with _ => _ end] => fail
      | _ => match type of x with
             | sumbool _ _ => destruct x
             | _ => destruct x eqn:?
             end
      end
  end.

(** ** The classifier on bodies that are not JSON *)

Lemma index_lookup {A} (l : list A) i x : l !! i = Some x → index l i = Ret x.
Proof. unfold index. by intros ->. Qed.

Lemma index_out {A} (l : list A) (i : nat) : (length l ≤ i)%nat → ∃ msg, index l i = Panic msg.
Proof. intros H. unfold index. rewrite lookup_ge_None_2 by done. eauto. Qed.

(** The fifth line of a body, and the second piece of its first line, are
    read without a test that there is one. *)
Lemma short_body_faults body :
  IsJSON body = false →
  (occurrences "010"%char body < 4)%nat →
  ∃ msg, isErrResponse body = Panic msg.
Proof.
  intros Hj Hocc. unfold isErrResponse. rewrite Hj.
  pose proof (Split_length "010"%char body) as Hlen. fold NL in Hlen.
  destruct (Split body NL) as [|line0 rest] eqn:Hs; [done|].
  unfold mbind, outcome_bind, obind. cbn [index lookup list_lookup].
  destruct (index (Split line0 ": ") 1) as [name|msg|] eqn:Hname; [|eauto|].
  - destruct (index_out (line0 :: rest) 4) as [msg ->]; [cbn in *; lia|]. eauto.
  - exfalso. revert Hname. unfold index. by destruct (_ !! 1).
Qed.


(** The fifth line of [errorBody], piece by piece between its first five
    colons. *)
Lemma errorLine_pieces (code message requestId status : string) :
  "Message: {" +:+ quoted "code" +:+ ":" +:+ quoted code +:+ ","
    +:+ quoted "message" +:+ ":" +:+ quoted message +:+ ","
    +:+ quoted "requestId" +:+ ":" +:+ quoted requestId +:+ ","
    +:+ quoted "status" +:+ ":" +:+ status +:+ "}"
  = "Message" +:+ String ":"
      ((" {" +:+ quoted "code") +:+ String ":"
        (String "034" ((code +:+ DQ +:+ "," +:+ DQ +:+ "message") +:+ String "034" EmptyString)
         +:+ String ":"
           (String "034" ((message +:+ DQ +:+ "," +:+ DQ +:+ "requestId")
                          +:+ String "034" EmptyString)
            +:+ String ":"
              (String "034" ((requestId +:+ DQ +:+ "," +:+ DQ +:+ "status")
                             +:+ String "034" EmptyString)
               +:+ String ":" (status +:+ "}"))))).
Proof. unfold quoted, DQ. cbn. rewrite !str_append_assoc. cbn. reflexivity. Qed.

Lemma occurrences_quote_known :
  occurrences "034"%char ClusterNameAlreadyExist = 0
  ∧ occurrences "034"%char ClusterNotFound = 0
  ∧ occurrences "034"%char OprationNotSupported = 0.
Proof. by vm_compute. Qed.

(** What the classifier reads in an error body in the shape of the comment
    of [isErrResponse]. *)
Lemma documented_shape_read (code message requestId status : string) :
  IsJSON (errorBody code message requestId status) = false →
  plainText code → plainText message → plainText requestId →
  occurrences "010"%char status = 0 →
  isErrResponse (errorBody code message requestId status)
  = Ret (Some {| errorName := "SDK.ServerError";
                 errorCode := code +:+ DQ +:+ "," +:+ DQ +:+ "message";
                 errorMessage := requestId +:+ DQ +:+ "," +:+ DQ +:+ "status" |}).
Proof.
  intros Hj [Hc1 Hc2] [Hm1 Hm2] [Hr1 Hr2] Hs2.
  unfold isErrResponse. rewrite Hj. unfold errorBody.
  rewrite Split_lines.
  2: done.
  2:{ repeat (apply Forall_cons; split; [try reflexivity|]); [|by apply List.Forall_nil].
      unfold quoted, DQ. rewrite !occurrences_append, Hc2, Hm2, Hr2, Hs2. reflexivity. }
  unfold mbind, outcome_bind, obind.
  erewrite (index_lookup _ 0) by reflexivity.
  change (Split "ERROR: SDK.ServerError" ": ") with ["ERROR"; "SDK.ServerError"].
  erewrite (index_lookup _ 4) by reflexivity.
  rewrite errorLine_pieces.
  assert (Hq : ∀ x : string, occurrences ":"%char x = 0 →
            occurrences ":"%char (x +:+ DQ +:+ "," +:+ DQ +:+ "message") = 0
            ∧ occurrences ":"%char (x +:+ DQ +:+ "," +:+ DQ +:+ "requestId") = 0
            ∧ occurrences ":"%char (x +:+ DQ +:+ "," +:+ DQ +:+ "status") = 0).
  { intros x Hx. unfold DQ. rewrite !occurrences_append, Hx. by vm_compute. }
  rewrite (Split_piece ":"%char "Message") by reflexivity.
  rewrite (Split_piece ":"%char (" {" +:+ quoted "code")) by reflexivity.
  rewrite (Split_piece ":"%char (String "034" (_ +:+ String "034" EmptyString))).
  2:{ cbn [occurrences]. rewrite occurrences_append. by rewrite (proj1 (Hq _ Hc1)). }
  rewrite (Split_piece ":"%char (String "034" (_ +:+ String "034" EmptyString))).
  2:{ cbn [occurrences]. rewrite occurrences_append.
      by rewrite (proj1 (proj2 (Hq _ Hm1))). }
  rewrite (Split_piece ":"%char (String "034" (_ +:+ String "034" EmptyString))).
  2:{ cbn [occurrences]. rewrite occurrences_append.
      by rewrite (proj2 (proj2 (Hq _ Hr1))). }
  erewrite (index_lookup _ 1) by reflexivity.
  erewrite (index_lookup _ 2) by reflexivity.
  rewrite slice_strip.
  erewrite (index_lookup _ 4) by reflexivity.
  rewrite slice_strip. reflexivity.
Qed.

(** A code with a quote in it is none of the codes the file knows. *)
Lemma overlong_code_unknown (code : string) :
  code +:+ DQ +:+ "," +:+ DQ +:+ "message" ≠ ClusterNameAlreadyExist
  ∧ code +:+ DQ +:+ "," +:+ DQ +:+ "message" ≠ ClusterNotFound
  ∧ code +:+ DQ +:+ "," +:+ DQ +:+ "message" ≠ OprationNotSupported.
Proof.
  destruct occurrences_quote_known as (H1 & H2 & H3).
  assert (Hocc : occurrences "034"%char (code +:+ DQ +:+ "," +:+ DQ +:+ "message") ≠ 0).
  { unfold DQ. rewrite !occurrences_append. cbn. lia. }
  repeat split; intros Heq; rewrite Heq in Hocc; done.
Qed.

(** X1. On an error body in the shape of the comment of [isErrResponse]
    (a JSON message in the fifth line), with a code, a message and a
    request id free of colons and line breaks, the classifier reads as the
    code the code followed by the quote, the comma and the next key, and as
    the message the request id followed by the quote, the comma and the
    key after it: on this shape it recognises none of the three codes the
    file knows. *)
Theorem isErrResponse_documented_shape (code message requestId status : string) :
  IsJSON (errorBody code message requestId status) = false →
  plainText code → plainText message → plainText requestId →
  occurrences "010"%char status = 0 →
  isErrResponse (errorBody code message requestId status)
  = Ret (Some {| errorName := "SDK.ServerError";
                 errorCode := code +:+ DQ +:+ "," +:+ DQ +:+ "message";
                 errorMessage := requestId +:+ DQ +:+ "," +:+ DQ +:+ "status" |})
  ∧ code +:+ DQ +:+ "," +:+ DQ +:+ "message" ≠ ClusterNameAlreadyExist
  ∧ code +:+ DQ +:+ "," +:+ DQ +:+ "message" ≠ ClusterNotFound
  ∧ code +:+ DQ +:+ "," +:+ DQ +:+ "message" ≠ OprationNotSupported.
Proof.
  intros Hj Hc Hm Hr Hs.
  split; [by apply documented_shape_read | apply overlong_code_unknown].
Qed.

(** C3. When the creation request is answered, without an error of the
    client, by an error body in the shape of the comment of
    [isErrResponse], the name conflict of the specification among them,
    [sendCreationRequest] does not look the name up: it returns the empty
    id and the error the classifier has read, whose code is the code
    followed by the quote, the comma and the next key and so is not
    "ClusterNameAlreadyExist", with only the POST sent. A creation that is
    repeated against a backend that answers so ends in an error, not in
    the id of the existing cluster. *)
Theorem sendCreationRequest_documented_conflict cli name cfg s
    (code message requestId status : string) d :
  http w (trace s) cli (creationRequest name cfg)
  = (errorBody code message requestId status, None, d) →
  IsJSON (errorBody code message requestId status) = false →
  plainText code → plainText message → plainText requestId →
  occurrences "010"%char status = 0 →
  sendCreationRequest cli name cfg s
  = (Ret (EmptyString,
          Some (ErrSDK {| errorName := "SDK.ServerError";
                          errorCode := code +:+ DQ +:+ "," +:+ DQ +:+ "message";
                          errorMessage := requestId +:+ DQ +:+ "," +:+ DQ +:+ "status" |})),
     answered s cli (creationRequest name cfg)).
Proof.
  intros Hh Hj Hc Hm Hr Hs.
  pose proof (documented_shape_read code message requestId status Hj Hc Hm Hr Hs) as Hread.
  destruct (overlong_code_unknown code) as (Hne & _).
  unfold sendCreationRequest. fold (creationRequest name cfg).
  destruct (ProcessCommonRequest_run cli (creationRequest name cfg) s)
    as (body & err & d' & Hh' & Hp).
  rewrite Hh in Hh'. injection Hh' as <- <- <-.
  rewrite (bind_Ret _ _ _ _ _ Hp).
  cbn [fmap option_fmap option_map].
  unfold mbind at 1. unfold M_bind, bind at 1. unfold lift. rewrite Hread.
  cbn [errorCode]. by rewrite decide_False.
Qed.



(** ** The scan of the cluster list *)

Lemma assertString_false v : (∀ x, v ≠ JString x) → assertString v = (EmptyString, false).
Proof. intros H. destruct v; try done. by destruct (H s). Qed.

Lemma scan_skip name entry rest :
  otherName name entry →
  getClusterIDByName_scan name (entry :: rest) = getClusterIDByName_scan name rest.
Proof.
  intros (n & Hn & Hne). cbn. rewrite Hn. cbn. by rewrite decide_False.
Qed.

Lemma scan_skips name pre rest :
  Forall (otherName name) pre →
  getClusterIDByName_scan name (pre ++ rest) = getClusterIDByName_scan name rest.
Proof.
  induction 1 as [|entry pre He _ IH]; [done|].
  cbn [app]. by rewrite scan_skip.
Qed.

Lemma scan_found_intro name id l :
  firstNamed name id l → getClusterIDByName_scan name l = (id, None).
Proof.
  intros (pre & entry & post & -> & Hpre & Hn & Hid).
  rewrite scan_skips by done. cbn. rewrite Hn. cbn.
  rewrite decide_True by done. by rewrite Hid.
Qed.

Lemma scan_found_inv name id l :
  getClusterIDByName_scan name l = (id, None) → firstNamed name id l.
Proof.
  induction l as [|entry rest IH]; [done|].
  cbn. destruct (entry !! "name") as [v|] eqn:Hn; [|done].
  destruct (assertString v) as [n ok] eqn:Hv.
  destruct ok; cbn; [|done].
  apply assertString_true in Hv as ->.
  destruct (decide (n = name)) as [->|Hne].
  - destruct (entry !! "cluster_id") as [v|] eqn:Hid; [|done].
    destruct (assertString v) as [i ok] eqn:Hv.
    destruct ok; cbn; [|done].
    apply assertString_true in Hv as ->. intros [= ->].
    by exists [], entry, rest.
  - intros H. destruct (IH H) as (pre & e & post & -> & Hpre & He).
    exists (entry :: pre), e, post. split; [done|]. split; [|done].
    constructor; [|done]. by exists n.
Qed.

Lemma scan_error_empty name l id err :
  getClusterIDByName_scan name l = (id, Some err) → id = EmptyString.
Proof.
  induction l as [|entry rest IH]; cbn; [by intros [= <- _]|].
  repeat (break_inner; cbn; try done); by intros [= <- _].
Qed.

(** X3. The scan of [getClusterIDByName] returns an id without an error
    exactly when the list has an entry named [clusterName] with a string
    as its cluster_id and every entry before it has a string other than
    [clusterName] as its name: the first entry of that name decides, what
    follows it is not read. *)
Theorem getClusterIDByName_scan_first_match name id l :
  getClusterIDByName_scan name l = (id, None) ↔ firstNamed name id l.
Proof. split; [apply scan_found_inv | apply scan_found_intro]. Qed.

(** X4. When every entry of the list has a string other than
    [clusterName] as its name, and so when the list is empty, the scan
    returns the empty id and the error that names the cluster. *)
Theorem getClusterIDByName_scan_not_listed name l :
  Forall (otherName name) l →
  getClusterIDByName_scan name l
  = (EmptyString,
     Some (ErrNew ("can't find cluster information for cluster(" +:+ name +:+ ")"))).
Proof.
  intros H. rewrite <- (app_nil_r l). by rewrite scan_skips.
Qed.

(** X5. An entry that has no name, or a name that is not a string, ends
    the scan with an error when only entries of other names precede it,
    whatever follows: a cluster of the wanted name listed after it is not
    found. The same holds for the first entry of the wanted name when its
    cluster_id is missing or not a string. *)
Theorem getClusterIDByName_scan_malformed name pre entry post :
  Forall (otherName name) pre →
  (entry !! "name" = None →
   getClusterIDByName_scan name (pre ++ entry :: post)
   = (EmptyString, Some (ErrNew "clusterInfo doesn't contain 'name' field")))
  ∧ (∀ v, entry !! "name" = Some v → (∀ n, v ≠ JString n) →
     getClusterIDByName_scan name (pre ++ entry :: post)
     = (EmptyString, Some (ErrNew "fail to assert 'name' to string")))
  ∧ (entry !! "name" = Some (JString name) → entry !! "cluster_id" = None →
     getClusterIDByName_scan name (pre ++ entry :: post)
     = (EmptyString, Some (ErrNew "clusterInfo doesn't contain 'cluster_id' field")))
  ∧ (∀ v, entry !! "name" = Some (JString name) → entry !! "cluster_id" = Some v →
     (∀ i, v ≠ JString i) →
     getClusterIDByName_scan name (pre ++ entry :: post)
     = (EmptyString, Some (ErrNew "fail to assert 'cluster_id' to string"))).
Proof.
  intros Hpre. rewrite scan_skips by done. cbn.
  split; [by intros ->|].
  split; [intros v -> Hv; by rewrite assertString_false|].
  split; [intros -> ->; cbn; by rewrite decide_True|].
  intros v -> -> Hv. cbn. rewrite decide_True by done. by rewrite assertString_false.
Qed.

(** ** The credentials and the configuration *)

(** X6. [getAliyunAKPair] reads the secret once, from the namespace of the
    pod or the default one, and returns what the secret holds under the two
    keys, the empty string for a key that is missing. Its error is nil
    exactly when the read succeeded and both keys are there; a missing
    accessKeySecret is reported before a missing accessKeyID, and the
    error of the read only when both keys are there. *)
Theorem getAliyunAKPair_result s :
  let '(data, getErr) := k8sGet w (trace s) KSecret (vcManagerNs s) AliyunAkSrt in
  ∃ err,
    getAliyunAKPair s
    = (Ret (default EmptyString (data !! AliyunAKIDName),
            default EmptyString (data !! AliyunAKSecretName), err),
       record (EvGet KSecret (vcManagerNs s) AliyunAkSrt) s)
    ∧ (err = None ↔ getErr = None ∧ is_Some (data !! AliyunAKIDName)
                    ∧ is_Some (data !! AliyunAKSecretName))
    ∧ (data !! AliyunAKSecretName = None →
       err = Some (ErrNew "aliyun accessKeySecret doesn't exist"))
    ∧ (is_Some (data !! AliyunAKSecretName) → data !! AliyunAKIDName = None →
       err = Some (ErrNew "aliyun accessKeyID doesn't exist"))
    ∧ (is_Some (data !! AliyunAKSecretName) → is_Some (data !! AliyunAKIDName) →
       err = uncurry ErrStatus <$> getErr).
Proof.
  unfold getAliyunAKPair, GetPodNsFromInside, Get, vcManagerNs. unfold_run.
  destruct (podNs w (trace s)) as [ns [e|]]; cbn;
    destruct (k8sGet w (trace s) KSecret _ AliyunAkSrt) as [data [[reason msg]|]]; cbn;
    destruct (data !! AliyunAKIDName) as [keyID|], (data !! AliyunAKSecretName) as [keySrt|];
    cbn; eexists; (split; [reflexivity|]);
    repeat split; try done; try (by intros [? ?]); try (by intros (? & [? ?] & ?));
    try (by intros (? & ? & [? ?])); try (by intros [? ?] ?); try (by intros ? [? ?]);
    eauto.
Qed.

(** X7. [getASKConfigs] reads the config map once. Without askRegionID it
    returns the empty configuration and the error of that key, whether the
    read failed or not; with askRegionID and without askZoneID the
    configuration with the region only and the error of that key; with
    both, the region, the zone, the askVpcID or the empty string for it,
    and the error of the read. *)
Theorem getASKConfigs_result s :
  let '(data, getErr) := k8sGet w (trace s) KConfigMap (vcManagerNs s) AliyunASKConfigMap in
  getASKConfigs s
  = (Ret match data !! AliyunASKCfgMpRegionID, data !! AliyunASKCfgMpZoneID with
         | None, _ =>
             ({| vpcID := EmptyString; regionID := EmptyString; zoneID := EmptyString |},
              Some (ErrNew "askRegionID not exist"))
         | Some region, None =>
             ({| vpcID := EmptyString; regionID := region; zoneID := EmptyString |},
              Some (ErrNew "askZoneID not exist"))
         | Some region, Some zone =>
             ({| vpcID := default EmptyString (data !! AliyunASKCfgMpVPCID);
                 regionID := region; zoneID := zone |},
              uncurry ErrStatus <$> getErr)
         end,
     record (EvGet KConfigMap (vcManagerNs s) AliyunASKConfigMap) s).
Proof.
  unfold getASKConfigs, GetPodNsFromInside, Get, vcManagerNs. unfold_run.
  destruct (podNs w (trace s)) as [ns [e|]]; cbn;
    destruct (k8sGet w (trace s) KConfigMap _ AliyunASKConfigMap) as [data [[reason msg]|]];
    cbn;
    destruct (data !! AliyunASKCfgMpRegionID) as [region|],
             (data !! AliyunASKCfgMpZoneID) as [zone|],
             (data !! AliyunASKCfgMpVPCID) as [vpc|]; cbn; reflexivity.
Qed.

(** ** The polling loops, probe by probe *)

Lemma countEvents_app p (l1 l2 : list Event) :
  countEvents p (l1 ++ l2) = countEvents p l1 + countEvents p l2.
Proof. induction l1 as [|e l1 IH]; cbn; [done|]. rewrite IH. lia. Qed.

Lemma isMethod_stateRequest t cli id region body err :
  isMethod "GET" (EvRequest t cli (stateRequest id region) body err) = true.
Proof. done. Qed.

Ltac solve_polls :=
  repeat (apply Forall_cons; split; [done|]); first [apply List.Forall_nil | done].

Lemma count_turn t d t' cli id region body err :
  countEvents (isMethod "GET") [EvAfter t d; EvRequest t' cli (stateRequest id region) body err]
  = 1.
Proof. done. Qed.

Lemma creationLoop_probes fuel cli id region T s o s' :
  creationLoop fuel cli id region T s = (o, s') →
  ∃ polls,
    trace s' = trace s ++ polls
    ∧ Forall (pollEvent (10 * Second)%N cli id region) polls
    ∧ (countEvents (isMethod "GET") polls = 0
       ∨ (clock s + N.of_nat (countEvents (isMethod "GET") polls) * (10 * Second) ≤ T)%N)
    ∧ (o = Ret Break →
       ∃ polls' t body,
         polls = polls' ++ [EvRequest t cli (stateRequest id region) body None]
         ∧ IsJSON body = true ∧ tellsState id "running" body)
    ∧ o ≠ Ret (Return None).
Proof.
  revert s. induction fuel as [|fuel IH]; intros s Hloop.
  { injection Hloop as <- <-. exists []. rewrite app_nil_r.
    split; [done|]. split; [constructor|]. split; [by left|]. done. }
  cbn [creationLoop] in Hloop.
  unfold mbind at 1 in Hloop. unfold M_bind, bind at 1 in Hloop.
  unfold time_After at 1 in Hloop. cbn [fst snd] in Hloop.
  set (s1 := record _ s) in Hloop.
  destruct (select2_run (clock s + 10 * Second)%N T s1) as (first & Hsel & Hfst & _).
  rewrite (bind_Ret _ _ _ _ _ Hsel) in Hloop. clear Hsel.
  cbn [clock trace s1 record] in *.
  set (wake := N.max _ _) in *. set (s2 := Build_State _ _) in Hloop.
  assert (Htimer : pollEvent (10 * Second)%N cli id region (EvAfter (clock s) (10 * Second)%N))
    by (left; eauto).
  destruct first.
  - specialize (Hfst eq_refl).
    assert (Hwake : (wake = clock s + 10 * Second ∧ wake ≤ T)%N)
      by (subst wake; unfold Second in *; lia).
    destruct Hwake as [Hwake HT].
    unfold mbind at 1 in Hloop. unfold M_bind, bind at 1 in Hloop.
    destruct (getASKState cli id region s2) as [o3 s3] eqn:Hg.
    pose proof (getASKState_state cli id region s2) as Hst. rewrite Hg in Hst. cbn in Hst.
    destruct (answered_trace s2 cli (stateRequest id region))
      as (body & err & d & Hh & Htr & Hck).
    rewrite <- Hst in Htr, Hck. cbn [trace clock s2] in Htr, Hck.
    rewrite <- app_assoc in Htr. cbn [app] in Htr.
    set (turn := [EvAfter (clock s) (10 * Second)%N;
                  EvRequest wake cli (stateRequest id region) body (ErrClient <$> err)]) in *.
    assert (Hturn : Forall (pollEvent (10 * Second)%N cli id region) turn).
    { apply Forall_cons. split; [done|]. apply Forall_cons. split; [|constructor].
      right. eauto. }
    assert (Hcount : countEvents (isMethod "GET") turn = 1) by apply count_turn.
    assert (Hone : countEvents (isMethod "GET") turn = 0
                   ∨ (clock s + N.of_nat (countEvents (isMethod "GET") turn) * (10 * Second)
                      ≤ T)%N)
      by (right; rewrite Hcount; unfold Second in *; lia).
    destruct o3 as [[st [e|]]|msg|]; cbn in Hloop.
    + injection Hloop as <- <-. by exists turn.
    + destruct (decide (st = "running")) as [->|Hne]; cbn in Hloop.
      * injection Hloop as <- <-.
        exists turn. split; [done|]. split; [done|]. split; [done|].
        split; [|done]. intros _.
        destruct (getASKState_ok cli id region s2 "running") as (body' & d' & Hh' & Hr);
          [by rewrite Hg|].
        rewrite Hh in Hh'. injection Hh' as <- -> <-.
        destruct Hr as [[Hj Ht]|[? _]]; [|done].
        by exists [EvAfter (clock s) (10 * Second)%N], wake, body.
      * destruct (IH s3 Hloop) as (polls & Hp & Hall & Hmore & Hbrk & Hsome).
        exists (turn ++ polls).
        split; [by rewrite Hp, Htr, <- !app_assoc|].
        split; [by apply Forall_app|].
        split.
        { right. rewrite countEvents_app, Hcount.
          destruct Hmore as [-> | Hmore]; unfold Second in *; lia. }
        split; [|done]. intros Ho. destruct (Hbrk Ho) as (polls' & t & b & -> & Hj & Ht).
        exists (turn ++ polls'), t, b. by rewrite <- app_assoc.
    + injection Hloop as <- <-. by exists turn.
    + injection Hloop as <- <-. by exists turn.
  - cbn in Hloop. injection Hloop as <- <-.
    exists [EvAfter (clock s) (10 * Second)%N].
    split; [done|]. split; [by apply Forall_cons|]. split; [by left|]. done.
Qed.

(** The error of a probe is never the timeout of the deletion. *)
Lemma getASKState_err_not_timeout cli id region s st err vc :
  (getASKState cli id region s).1 = Ret (st, Some err) → err ≠ deletionTimeoutOf vc.
Proof.
  unfold getASKState, deletionTimeoutOf. fold (stateRequest id region). unfold_run.
  destruct (http w (trace s) cli _) as [[body [msg|]] d]; cbn.
  { by intros [= <- <-]. }
  destruct (isErrResponse body) as [[ase|]|msg|]; cbn; try done.
  destruct (Unmarshal_map body) as [m [e|]] eqn:Hu; cbn.
  { apply Unmarshal_map_err in Hu as [msg ->]. by intros [= <- <-]. }
  repeat (break_inner; cbn; try done); intros [= <- <-]; discriminate.
Qed.

Lemma deletionLoop_probes fuel cli vc id region T s o s' :
  deletionLoop fuel cli vc id region T s = (o, s') →
  ∃ polls,
    trace s' = trace s ++ polls
    ∧ Forall (pollEvent (2 * Second)%N cli id region) polls
    ∧ (countEvents (isMethod "GET") polls = 0
       ∨ (clock s + N.of_nat (countEvents (isMethod "GET") polls) * (2 * Second) ≤ T)%N)
    ∧ (o = Ret Break →
       ∃ polls' t body,
         polls = polls' ++ [EvRequest t cli (stateRequest id region) body None]
         ∧ IsJSON body = true ∧ tellsState id "deleting" body)
    ∧ (o = Ret (Return (Some (deletionTimeoutOf vc))) → (T ≤ clock s')%N)
    ∧ o ≠ Ret (Return None).
Proof.
  revert s. induction fuel as [|fuel IH]; intros s Hloop.
  { injection Hloop as <- <-. exists []. rewrite app_nil_r.
    split; [done|]. split; [constructor|]. split; [by left|]. done. }
  cbn [deletionLoop] in Hloop.
  unfold mbind at 1 in Hloop. unfold M_bind, bind at 1 in Hloop.
  unfold time_After at 1 in Hloop. cbn [fst snd] in Hloop.
  set (s1 := record _ s) in Hloop.
  destruct (select2_run (clock s + 2 * Second)%N T s1) as (first & Hsel & Hfst & Hsnd).
  rewrite (bind_Ret _ _ _ _ _ Hsel) in Hloop. clear Hsel.
  cbn [clock trace s1 record] in *.
  set (wake := N.max _ _) in *. set (s2 := Build_State _ _) in Hloop.
  assert (Htimer : pollEvent (2 * Second)%N cli id region (EvAfter (clock s) (2 * Second)%N))
    by (left; eauto).
  destruct first.
  - specialize (Hfst eq_refl).
    assert (Hwake : (wake = clock s + 2 * Second ∧ wake ≤ T)%N)
      by (subst wake; unfold Second in *; lia).
    destruct Hwake as [Hwake HT].
    unfold mbind at 1 in Hloop. unfold M_bind, bind at 1 in Hloop.
    destruct (getASKState cli id region s2) as [o3 s3] eqn:Hg.
    pose proof (getASKState_state cli id region s2) as Hst. rewrite Hg in Hst. cbn in Hst.
    destruct (answered_trace s2 cli (stateRequest id region))
      as (body & err & d & Hh & Htr & Hck).
    rewrite <- Hst in Htr, Hck. cbn [trace clock s2] in Htr, Hck.
    rewrite <- app_assoc in Htr. cbn [app] in Htr.
    set (turn := [EvAfter (clock s) (2 * Second)%N;
                  EvRequest wake cli (stateRequest id region) body (ErrClient <$> err)]) in *.
    assert (Hturn : Forall (pollEvent (2 * Second)%N cli id region) turn).
    { apply Forall_cons. split; [done|]. apply Forall_cons. split; [|constructor].
      right. eauto. }
    assert (Hcount : countEvents (isMethod "GET") turn = 1) by apply count_turn.
    assert (Hone : countEvents (isMethod "GET") turn = 0
                   ∨ (clock s + N.of_nat (countEvents (isMethod "GET") turn) * (2 * Second)
                      ≤ T)%N)
      by (right; rewrite Hcount; unfold Second in *; lia).
    destruct o3 as [[st [e|]]|msg|]; cbn in Hloop.
    + destruct (getASKState_err cli id region s2 st e) as (Hnf & _ & _); [by rewrite Hg|].
      rewrite Hnf in Hloop. cbn in Hloop. injection Hloop as <- <-.
      exists turn. split; [done|]. split; [done|]. split; [done|]. split; [done|].
      split; [|done].
      intros [= ->]. exfalso.
      eapply (getASKState_err_not_timeout cli id region s2 st); [by rewrite Hg|done].
    + destruct (decide (st = "deleting")) as [->|Hne]; cbn in Hloop.
      * injection Hloop as <- <-.
        exists turn. split; [done|]. split; [done|]. split; [done|].
        split; [|done].
        intros _.
        destruct (getASKState_ok cli id region s2 "deleting") as (body' & d' & Hh' & Hr);
          [by rewrite Hg|].
        rewrite Hh in Hh'. injection Hh' as <- -> <-.
        destruct Hr as [[Hj Ht]|[? _]]; [|done].
        by exists [EvAfter (clock s) (2 * Second)%N], wake, body.
      * destruct (IH s3 Hloop) as (polls & Hp & Hall & Hmore & Hbrk & Hto & Hsome).
        exists (turn ++ polls).
        split; [by rewrite Hp, Htr, <- !app_assoc|].
        split; [by apply Forall_app|].
        split.
        { right. rewrite countEvents_app, Hcount.
          destruct Hmore as [-> | Hmore]; unfold Second in *; lia. }
        split; [|done].
        intros Ho. destruct (Hbrk Ho) as (polls' & t & b & -> & Hj & Ht).
        exists (turn ++ polls'), t, b. by rewrite <- app_assoc.
    + injection Hloop as <- <-. by exists turn.
    + injection Hloop as <- <-. by exists turn.
  - specialize (Hsnd eq_refl). cbn in Hloop. injection Hloop as <- <-.
    exists [EvAfter (clock s) (2 * Second)%N].
    split; [done|]. split; [by apply Forall_cons|]. split; [by left|].
    split; [done|]. split; [|done]. intros _. done.
Qed.

(** ** The requests of a run *)

Lemma getASKKubeConfig_ok cli id region s kbCfg :
  (getASKKubeConfig cli id region s).1 = Ret (kbCfg, None) ↔
  ∃ body d m, http w (trace s) cli (configRequest id region) = (body, None, d)
    ∧ Unmarshal_stringmap body = (m, None)
    ∧ m !! "config" = Some kbCfg.
Proof.
  unfold getASKKubeConfig. fold (configRequest id region). unfold_run.
  destruct (http w (trace s) cli _) as [[body [msg|]] d]; cbn.
  { split; [done|]. by intros (? & ? & ? & ? & _). }
  destruct (Unmarshal_stringmap body) as [m [e|]] eqn:Hu; cbn.
  { split; [done|]. intros (? & ? & ? & [= <- <-] & ? & _). congruence. }
  destruct (m !! "config") as [kb|] eqn:Hk; cbn.
  - split.
    + intros [= <-]. by exists body, d, m.
    + intros (? & ? & ? & [= <- <-] & Hu' & Hk'). rewrite Hu in Hu'. congruence.
  - split; [done|].
    intros (? & ? & ? & [= <- <-] & Hu' & Hk'). rewrite Hu in Hu'. congruence.
Qed.

Lemma getClusterIDByName_ok cli name region s id :
  (getClusterIDByName cli name region s).1 = Ret (id, None) ↔
  ∃ body d l, http w (trace s) cli (listRequest region) = (body, None, d)
    ∧ Unmarshal_maplist body = (l, None)
    ∧ firstNamed name id l.
Proof.
  unfold getClusterIDByName. fold (listRequest region). unfold_run.
  destruct (http w (trace s) cli _) as [[body [msg|]] d]; cbn.
  { split; [done|]. by intros (? & ? & ? & ? & _). }
  destruct (Unmarshal_maplist body) as [l [e|]] eqn:Hu; cbn.
  { split; [done|]. intros (? & ? & ? & [= <- <-] & ? & _). congruence. }
  split.
  - intros [= H]. exists body, d, l. split; [done|]. split; [done|].
    apply scan_found_inv. destruct (getClusterIDByName_scan name l) as [i e]. cbn in H.
    congruence.
  - intros (? & ? & l' & [= <- <-] & Hu' & Hf). rewrite Hu in Hu'. injection Hu' as <-.
    by rewrite (scan_found_intro _ _ _ Hf).
Qed.

Lemma prefix_clusters (id : string) :
  String.prefix "/clusters/" ("/clusters/" +:+ id) = true.
Proof. cbn. apply str_prefix_nil. Qed.

Lemma isProbe_stateRequest t cli id region body err :
  isProbe (EvRequest t cli (stateRequest id region) body err) = true.
Proof.
  unfold isProbe, stateRequest, NewCommonRequest. cbn [PathPattern Method].
  by rewrite prefix_clusters.
Qed.

Lemma sentBy_request t cli method path region content body err :
  sentBy cli region (EvRequest t cli (NewCommonRequest method path region content) body err).
Proof. done. Qed.

(** What a polling loop adds to the counts. *)
Lemma pollEvent_counts d cli id region (polls : list Event) :
  Forall (pollEvent d cli id region) polls →
  Forall (sentBy cli region) polls
  ∧ countEvents (isMethod "POST") polls = 0
  ∧ countEvents (isMethod "DELETE") polls = 0
  ∧ countEvents isCreate polls = 0
  ∧ countEvents isProbe polls = countEvents (isMethod "GET") polls.
Proof.
  induction 1 as [|e polls He _ (IH1 & IH2 & IH3 & IH4 & IH5)].
  { by repeat split. }
  destruct He as [[t ->]|(t & body & err & ->)].
  - repeat split; try done. by constructor.
  - split; [constructor; [apply sentBy_request|done]|].
    cbn [countEvents]. rewrite isProbe_stateRequest, isMethod_stateRequest, IH5.
    by repeat split.
Qed.

Lemma traffic_app cli region p1 g1 r1 d1 c1 p2 g2 r2 d2 c2 (l1 l2 : list Event) :
  traffic cli region p1 g1 r1 d1 c1 l1 →
  traffic cli region p2 g2 r2 d2 c2 l2 →
  traffic cli region (p1 + p2) (g1 + g2) (r1 + r2) (d1 + d2) (c1 + c2) (l1 ++ l2).
Proof.
  intros (Hall1 & ? & ? & ? & ? & ?) (Hall2 & ? & ? & ? & ? & ?).
  split; [by apply Forall_app|]. rewrite !countEvents_app. repeat split; lia.
Qed.

Lemma traffic_mono cli region p g r d c p' g' r' d' c' (l : list Event) :
  traffic cli region p g r d c l →
  (p ≤ p')%nat → (g ≤ g')%nat → (r ≤ r')%nat → (d ≤ d')%nat → (c ≤ c')%nat →
  traffic cli region p' g' r' d' c' l.
Proof. intros (Hall & ? & ? & ? & ? & ?) ?????. split; [done|]. repeat split; lia. Qed.

Lemma traffic_quiet cli region (e : Event) :
  (∀ t c req body err, e ≠ EvRequest t c req body err) →
  traffic cli region 0 0 0 0 (if isCreate e then 1 else 0) [e].
Proof.
  intros He. destruct e as [| | |t c req body err|]; try by (split; [by repeat constructor|]).
  by destruct (He t c req body err).
Qed.

Lemma traffic_creation t cli name cfg body err :
  traffic cli (regionID cfg) 1 0 0 0 0 [EvRequest t cli (creationRequest name cfg) body err].
Proof. split; [by repeat constructor|]. by repeat split. Qed.

Lemma traffic_list t cli region body err :
  traffic cli region 0 1 0 0 0 [EvRequest t cli (listRequest region) body err].
Proof. split; [by repeat constructor|]. by repeat split. Qed.

Lemma traffic_config t cli id region body err :
  traffic cli region 0 1 0 0 0 [EvRequest t cli (configRequest id region) body err].
Proof. split; [by repeat constructor|]. by repeat split. Qed.

Lemma traffic_deletion t cli id region body err :
  traffic cli region 0 0 0 1 0 [EvRequest t cli (deletionRequest id region) body err].
Proof. split; [by repeat constructor|]. by repeat split. Qed.

Lemma traffic_polls d cli id region (polls : list Event) n :
  Forall (pollEvent d cli id region) polls →
  (countEvents (isMethod "GET") polls ≤ n)%nat →
  traffic cli region 0 n n 0 0 polls.
Proof.
  intros H Hn. destruct (pollEvent_counts _ _ _ _ _ H) as (Hall & Hp & Hd & Hc & Hr).
  split; [done|]. repeat split; lia.
Qed.

Lemma traffic_silent cli region (l : list Event) :
  Forall (λ e, match e with
               | EvGet _ _ _ | EvNewClient _ _ | EvAfter _ _ => True
               | _ => False
               end) l →
  traffic cli region 0 0 0 0 0 l.
Proof.
  induction 1 as [|e l He _ IH]; [by split|].
  change (e :: l) with ([e] ++ l).
  apply (traffic_app _ _ 0 0 0 0 0 0 0 0 0 0); [|done].
  destruct e; try done; by (split; [by repeat constructor|]).
Qed.

Ltac solve_silent :=
  apply traffic_silent; repeat (apply Forall_cons; split; [done|]); apply List.Forall_nil.

Lemma sendCreationRequest_traffic cli name cfg s o s' :
  sendCreationRequest cli name cfg s = (o, s') →
  ∃ evs, trace s' = trace s ++ evs ∧ traffic cli (regionID cfg) 1 1 0 0 0 evs.
Proof.
  intros H.
  destruct (sendCreationRequest_run cli name cfg s) as (o' & s'' & H' & Hs & _).
  rewrite H in H'. injection H' as <- <-.
  destruct (answered_trace s cli (creationRequest name cfg)) as (b & e & d & _ & Hta & _).
  destruct Hs as [->| ->].
  - eexists. split; [exact Hta|].
    eapply traffic_mono; [apply traffic_creation|lia..].
  - destruct (answered_trace (answered s cli (creationRequest name cfg)) cli
                (listRequest (regionID cfg))) as (b' & e' & d' & _ & Htb & _).
    eexists. split; [by rewrite Htb, Hta, <- app_assoc|].
    apply (traffic_app _ _ 1 0 0 0 0 0 1 0 0 0); [apply traffic_creation|apply traffic_list].
Qed.

(** How [sendCreationRequest] comes by an id: the response is JSON and
    has it as its cluster_id, or the response is an error body with the
    code [ClusterNameAlreadyExist] and the list names the cluster. *)
Lemma sendCreationRequest_ok cli name cfg s id :
  (sendCreationRequest cli name cfg s).1 = Ret (id, None) ↔
  ∃ body d, http w (trace s) cli (creationRequest name cfg) = (body, None, d)
    ∧ ((isErrResponse body = Ret None
        ∧ ∃ m, Unmarshal_stringmap body = (m, None) ∧ m !! "cluster_id" = Some id)
       ∨ (∃ ase, isErrResponse body = Ret (Some ase)
            ∧ errorCode ase = ClusterNameAlreadyExist
            ∧ (getClusterIDByName cli name (regionID cfg)
                 (answered s cli (creationRequest name cfg))).1 = Ret (id, None))).
Proof.
  unfold sendCreationRequest. fold (creationRequest name cfg).
  destruct (ProcessCommonRequest_run cli (creationRequest name cfg) s)
    as (body & err & d & Hh & Hp).
  rewrite (bind_Ret _ _ _ _ _ Hp). clear Hp. rewrite Hh.
  set (s1 := answered _ _ _).
  destruct err as [msg|]; cbn.
  { split; [done|]. by intros (? & ? & ? & _). }
  unfold mbind at 1. unfold M_bind, bind at 1. unfold lift.
  destruct (isErrResponse body) as [[ase|]|msg|] eqn:Hc; cbn.
  - case_decide as Hcode.
    + destruct (getClusterIDByName_run cli name (regionID cfg) s1) as ([id' e] & Hg & _).
      rewrite (bind_Ret _ _ _ _ _ Hg). rewrite Hg. cbn.
      split.
      * intros H. exists body, d. split; [done|]. right. exists ase.
        split; [done|]. split; [done|]. destruct e; cbn in H; congruence.
      * intros (? & ? & [= <- <-] & [[? _]|(? & _ & _ & [= -> ->])]); [congruence|done].
    + split; [done|].
      intros (? & ? & [= <- <-] & [[? _]|(ase' & Hc' & Hcode' & _)]); congruence.
  - destruct (Unmarshal_stringmap body) as [m [e|]] eqn:Hu; cbn.
    { split; [done|].
      intros (? & ? & [= <- <-] & [(_ & ? & ? & _)|(? & ? & _)]); congruence. }
    destruct (m !! "cluster_id") as [i|] eqn:Hi; cbn.
    + split.
      * intros [= <-]. exists body, d. split; [done|]. left. split; [done|]. by exists m.
      * intros (? & ? & [= <- <-] & [(_ & ? & ? & ?)|(? & ? & _)]); congruence.
    + split; [done|].
      intros (? & ? & [= <- <-] & [(_ & ? & ? & ?)|(? & ? & _)]); congruence.
  - split; [done|].
    intros (? & ? & [= <- <-] & [(? & _)|(? & ? & _)]); congruence.
  - split; [done|].
    intros (? & ? & [= <- <-] & [(? & _)|(? & ? & _)]); congruence.
Qed.

(** ** The whole run of [CreateVirtualCluster] *)

Lemma tolerated (e : option error) :
  bool_decide (e ≠ None) && negb (from_option IsAlreadyExists false e) = false →
  from_option IsAlreadyExists true e = true.
Proof. destruct e as [e|]; cbn; [|done]. by destruct (IsAlreadyExists e). Qed.

Lemma not_tolerated (e : option error) :
  bool_decide (e ≠ None) && negb (from_option IsAlreadyExists false e) = true → e ≠ None.
Proof. by destruct e. Qed.

Lemma traffic_no_creation cli region p g r d (evs : list Event) :
  traffic cli region p g r d 0 evs → Forall (λ e, ¬ isCreate e = true) evs.
Proof.
  intros (_ & _ & _ & _ & _ & Hc).
  induction evs as [|e evs IH]; [constructor|].
  cbn [countEvents] in Hc. destruct (isCreate e) eqn:He; [lia|].
  constructor; [by rewrite He|]. apply IH. lia.
Qed.

Lemma fatal_none o (evs : list Event) :
  Forall (λ e, ¬ isCreate e = true) evs → creationErrorsFatal o evs.
Proof.
  intros Hno pre obj e post -> _. apply Forall_app in Hno as [_ Hno].
  apply Forall_cons in Hno as [Hno _]. by destruct Hno.
Qed.

Lemma fatal_tail o (l1 tail : list Event) :
  Forall (λ e, ¬ isCreate e = true) l1 →
  creationErrorsFatal o tail → creationErrorsFatal o (l1 ++ tail).
Proof.
  intros Hno Htail pre obj e post Heq Hfatal.
  destruct (split_in_tail (λ x, isCreate x = true) _ _ _ _ _ Heq Hno eq_refl)
    as (k & -> & Hk).
  by apply (Htail k obj e post).
Qed.

Lemma fatal_tail1 obj (e1 : option error) : creationErrorsFatal (Ret e1) [EvCreate obj e1].
Proof.
  intros pre obj' e post Heq _.
  destruct pre as [|x [|y pre]]; cbn in Heq; [|discriminate Heq..].
  by injection Heq as -> -> <-.
Qed.

Lemma fatal_tail2 o obj (e1 : option error) t cli req body err :
  from_option IsAlreadyExists true e1 = true →
  creationErrorsFatal o [EvCreate obj e1; EvRequest t cli req body err].
Proof.
  intros Hok pre obj' e post Heq Hfatal.
  destruct pre as [|x [|y [|z pre]]]; cbn in Heq; try discriminate Heq.
  injection Heq as -> -> <-. cbn in Hok. congruence.
Qed.

Lemma fatal_tail3 o obj (e1 : option error) t cli req body err obj2 (e2 : option error) :
  from_option IsAlreadyExists true e1 = true →
  o = Ret e2 ∨ from_option IsAlreadyExists true e2 = true →
  creationErrorsFatal o
    [EvCreate obj e1; EvRequest t cli req body err; EvCreate obj2 e2].
Proof.
  intros Hok Hlast pre obj' e post Heq Hfatal.
  destruct pre as [|x [|y [|z [|u pre]]]]; cbn in Heq; try discriminate Heq.
  - injection Heq as -> -> <-. cbn in Hok. congruence.
  - injection Heq as _ _ -> -> <-. destruct Hlast as [->|Hok2]; [done|].
    cbn in Hok2. congruence.
Qed.

Lemma CreateVirtualCluster_shape vc s o s' :
  CreateVirtualCluster vc s = (o, s') →
  ∃ cli region evs,
    trace s' = trace s ++ evs
    ∧ traffic cli region 1 14 12 0 2 evs
    ∧ creationErrorsFatal o evs
    ∧ (o = Ret None →
       ∃ pre clsID t0 body0 e1 t body kbCfg e2,
         evs = pre ++ [EvRequest t0 cli (stateRequest clsID region) body0 None;
                       EvCreate (NamespaceObj (ToClusterKey vc)) e1;
                       EvRequest t cli (configRequest clsID region) body None;
                       EvCreate (KubeconfigSecret AdminSecretName (ToClusterKey vc) kbCfg) e2]
         ∧ IsJSON body0 = true
         ∧ tellsState clsID "running" body0
         ∧ (∃ m, Unmarshal_stringmap body = (m, None) ∧ m !! "config" = Some kbCfg)
         ∧ from_option IsAlreadyExists true e1 = true
         ∧ from_option IsAlreadyExists true e2 = true).
Proof.
  unfold CreateVirtualCluster. intros H.
  pose (cli0 := {| cliRegionID := EmptyString; cliAccessKeyID := EmptyString;
                   cliAccessKeySecret := EmptyString |}).
  (* 1. the access key pair *)
  destruct (getAliyunAKPair_run s) as ([[akid aksrt] e1] & ns1 & H1 & _ & _).
  rewrite (bind_Ret _ _ _ _ _ H1) in H. clear H1.
  set (s1 := record _ s) in H.
  assert (Ht1 : trace s1 = trace s ++ [EvGet KSecret ns1 AliyunAkSrt]) by done.
  clearbody s1.
  destruct e1 as [e1|].
  { injection H as <- <-. exists cli0, EmptyString. eexists. split; [exact Ht1|].
    assert (Tr : traffic cli0 EmptyString 0 0 0 0 0 [EvGet KSecret ns1 AliyunAkSrt])
      by solve_silent.
    split; [eapply traffic_mono; [exact Tr|lia..]|].
    split; [|done]. eapply fatal_none, traffic_no_creation, Tr. }
  (* the configuration *)
  destruct (getASKConfigs_run s1) as ([cfg e2] & ns2 & H2 & _ & _).
  rewrite (bind_Ret _ _ _ _ _ H2) in H. clear H2.
  set (s2 := record _ s1) in H.
  assert (Ht2 : trace s2 = trace s ++ [EvGet KSecret ns1 AliyunAkSrt;
                                       EvGet KConfigMap ns2 AliyunASKConfigMap])
    by (subst s2; cbn [trace record]; by rewrite Ht1, <- app_assoc).
  clearbody s2.
  destruct e2 as [e2|].
  { injection H as <- <-. exists cli0, EmptyString. eexists. split; [exact Ht2|].
    assert (Tr : traffic cli0 EmptyString 0 0 0 0 0
                   [EvGet KSecret ns1 AliyunAkSrt; EvGet KConfigMap ns2 AliyunASKConfigMap])
      by solve_silent.
    split; [eapply traffic_mono; [exact Tr|lia..]|].
    split; [|done]. eapply fatal_none, traffic_no_creation, Tr. }
  (* 2. the client and the creation request *)
  unfold mbind at 1 in H. unfold M_bind, bind at 1 in H.
  unfold NewClientWithAccessKey at 1 in H. cbn [fst snd] in H.
  set (cli := Build_Client _ _ _) in H.
  set (s3 := record _ s2) in H.
  assert (Ht3 : ∃ e3, trace s3 = trace s ++ [EvGet KSecret ns1 AliyunAkSrt;
                                       EvGet KConfigMap ns2 AliyunASKConfigMap;
                                       EvNewClient cli e3])
    by (eexists; subst s3; cbn [trace record]; by rewrite Ht2, <- app_assoc).
  destruct Ht3 as [e3 Ht3]. clearbody s3.
  exists cli, (regionID cfg).
  set (evs3 := [EvGet KSecret ns1 AliyunAkSrt; EvGet KConfigMap ns2 AliyunASKConfigMap;
                EvNewClient cli e3]) in *.
  assert (Tr3 : traffic cli (regionID cfg) 0 0 0 0 0 evs3) by solve_silent.
  clearbody evs3.
  destruct (newClient w (trace s2) cli) as [msg3|]; cbn [fmap option_fmap option_map] in H.
  { injection H as <- <-. exists evs3. split; [exact Ht3|].
    split; [eapply traffic_mono; [exact Tr3|lia..]|].
    split; [|done]. eapply fatal_none, traffic_no_creation, Tr3. }
  unfold mbind at 1 in H. unfold M_bind, bind at 1 in H.
  destruct (sendCreationRequest cli (vcName vc) cfg s3) as [o4 s4] eqn:H4.
  destruct (sendCreationRequest_traffic _ _ _ _ _ _ H4) as (evs4' & Ht4 & Tr4').
  rewrite Ht3, <- app_assoc in Ht4.
  pose proof (traffic_app _ _ _ _ _ _ _ _ _ _ _ _ _ _ Tr3 Tr4') as Tr4.
  cbn [Nat.add] in Tr4. clear Tr3 Tr4'.
  set (evs4 := evs3 ++ evs4') in *. clearbody evs4.
  destruct o4 as [[clsID e4]|msg|]; [|injection H as <- <-|injection H as <- <-].
  2,3: exists evs4; (split; [exact Ht4|]);
       (split; [eapply traffic_mono; [exact Tr4|lia..]|]);
       (split; [|done]); eapply fatal_none, traffic_no_creation, Tr4.
  destruct e4 as [e4|].
  { injection H as <- <-. exists evs4. split; [exact Ht4|].
    split; [eapply traffic_mono; [exact Tr4|lia..]|].
    split; [|done]. eapply fatal_none, traffic_no_creation, Tr4. }
  (* 3. the polling *)
  unfold mbind at 1 in H. unfold M_bind, bind at 1 in H.
  unfold time_After at 1 in H. cbn [fst snd] in H.
  set (s5 := record _ s4) in H.
  unfold mbind at 1 in H. unfold M_bind, bind at 1 in H.
  destruct (creationLoop creationFuel cli clsID (regionID cfg) (clock s4 + 120 * Second)%N s5)
    as [o6 s6] eqn:H6.
  destruct (creationLoop_probes _ _ _ _ _ _ _ _ H6)
    as (polls & Ht6 & Hall & Hcount & Hbrk & Hsome).
  assert (Hmax : (countEvents (isMethod "GET") polls ≤ 12)%nat).
  { subst s5. cbn [clock record] in Hcount. unfold Second in Hcount. lia. }
  pose proof (traffic_polls _ _ _ _ _ _ Hall Hmax) as Trp.
  assert (Tr5 : traffic cli (regionID cfg) 0 0 0 0 0 [EvAfter (clock s4) (120 * Second)%N])
    by solve_silent.
  pose proof (traffic_app _ _ _ _ _ _ _ _ _ _ _ _ _ _
                (traffic_app _ _ _ _ _ _ _ _ _ _ _ _ _ _ Tr4 Tr5) Trp) as Tr6.
  cbn [Nat.add] in Tr6. clear Tr4 Tr5 Trp Hcount Hmax.
  assert (Ht6' : trace s6 = trace s ++ (evs4 ++ [EvAfter (clock s4) (120 * Second)%N]) ++ polls).
  { rewrite Ht6. subst s5. cbn [trace record]. by rewrite Ht4, <- !app_assoc. }
  clear Ht6 Ht4 H6. clearbody s5.
  set (evs6 := (evs4 ++ [EvAfter (clock s4) (120 * Second)%N]) ++ polls) in *.
  pose proof (traffic_no_creation _ _ _ _ _ _ _ Tr6) as Hno6.
  destruct o6 as [[|err]|msg|]; [| |injection H as <- <-|injection H as <- <-].
  3,4: exists evs6; (split; [exact Ht6'|]);
       (split; [eapply traffic_mono; [exact Tr6|lia..]|]);
       (split; [|done]); by apply fatal_none.
  2:{ injection H as <- <-. exists evs6. split; [exact Ht6'|].
      split; [eapply traffic_mono; [exact Tr6|lia..]|].
      split; [by apply fatal_none|]. by intros [= ->]. }
  (* the loop was left: 4. the namespace *)
  destruct (Hbrk eq_refl) as (polls' & t0 & body0 & Hpolls & Hj0 & Hrun). clear Hbrk.
  assert (Hevs6 : evs6 = (evs4 ++ [EvAfter (clock s4) (120 * Second)%N] ++ polls')
                         ++ [EvRequest t0 cli (stateRequest clsID (regionID cfg)) body0 None]).
  { subst evs6. rewrite Hpolls. by rewrite <- !app_assoc. }
  clearbody evs6. clear Hpolls.
  unfold mbind at 1 in H. unfold M_bind, bind at 1 in H.
  unfold Create at 1 in H. cbn [fst snd] in H.
  set (e7 := uncurry ErrStatus <$> _) in H.
  set (s7 := record _ s6) in H.
  assert (Tr7 : traffic cli (regionID cfg) 0 0 0 0 1 [EvCreate (NamespaceObj (ToClusterKey vc)) e7])
    by (by apply (traffic_quiet cli (regionID cfg) (EvCreate _ _))).
  pose proof (traffic_app _ _ _ _ _ _ _ _ _ _ _ _ _ _ Tr6 Tr7) as Tr7'.
  cbn [Nat.add] in Tr7'. clear Tr6 Tr7.
  assert (Ht7 : trace s7 = trace s ++ evs6 ++ [EvCreate (NamespaceObj (ToClusterKey vc)) e7]).
  { subst s7. cbn [trace record]. by rewrite Ht6', <- !app_assoc. }
  clearbody s7 e7. clear Ht6'.
  destruct (bool_decide (e7 ≠ None) && negb (from_option IsAlreadyExists false e7)) eqn:Hb7.
  { injection H as <- <-. eexists. split; [exact Ht7|].
    split; [eapply traffic_mono; [exact Tr7'|lia..]|].
    split; [apply fatal_tail; [done|apply fatal_tail1]|].
    intros [= He]. by apply not_tolerated in Hb7. }
  apply tolerated in Hb7.
  (* 5. the kubeconfig *)
  destruct (getASKKubeConfig_run cli clsID (regionID cfg) s7) as ([kbCfg e8] & H8 & _).
  rewrite (bind_Ret _ _ _ _ _ H8) in H.
  destruct (answered_trace s7 cli (configRequest clsID (regionID cfg)))
    as (b8 & e8' & d8 & Hh8 & Ht8 & _).
  assert (Hok8 : e8 = None → e8' = None
                 ∧ ∃ m, Unmarshal_stringmap b8 = (m, None) ∧ m !! "config" = Some kbCfg).
  { intros ->.
    destruct (proj1 (getASKKubeConfig_ok cli clsID (regionID cfg) s7 kbCfg))
      as (b & d & m & Hh & Hu & Hk); [by rewrite H8|].
    rewrite Hh8 in Hh. injection Hh as -> -> ->. split; [done|]. by exists m. }
  clear H8.
  set (s8 := answered s7 _ _) in *.
  pose proof (traffic_app _ _ _ _ _ _ _ _ _ _ _ _ _ _ Tr7'
                (traffic_config (clock s7) cli clsID (regionID cfg) b8 (ErrClient <$> e8')))
    as Tr8.
  cbn [Nat.add] in Tr8. clear Tr7'.
  rewrite Ht7 in Ht8. rewrite <- !app_assoc in Ht8. cbn [app] in Ht8. clear Ht7.
  rewrite <- !app_assoc in Tr8. cbn [app] in Tr8.
  destruct e8 as [e8|].
  { injection H as <- <-. eexists. split; [exact Ht8|].
    split; [eapply traffic_mono; [exact Tr8|lia..]|].
    split; [|done]. apply fatal_tail; [done|]. by apply fatal_tail2. }
  destruct (Hok8 eq_refl) as (-> & m & Hu8 & Hk8). clear Hok8.
  cbn [fmap option_fmap option_map] in *.
  (* 6. the secret *)
  unfold mbind at 1 in H. unfold M_bind, bind at 1 in H.
  unfold Create at 1 in H. cbn [fst snd] in H.
  set (e9 := uncurry ErrStatus <$> _) in H.
  set (s9 := record _ s8) in H.
  assert (Tr9 : traffic cli (regionID cfg) 0 0 0 0 1
                  [EvCreate (KubeconfigSecret AdminSecretName (ToClusterKey vc) kbCfg) e9])
    by (by apply (traffic_quiet cli (regionID cfg) (EvCreate _ _))).
  pose proof (traffic_app _ _ _ _ _ _ _ _ _ _ _ _ _ _ Tr8 Tr9) as Tr9'.
  cbn [Nat.add] in Tr9'. clear Tr8 Tr9.
  rewrite <- !app_assoc in Tr9'. cbn [app] in Tr9'.
  assert (Ht9 : trace s9
                = trace s ++ evs6
                    ++ [EvCreate (NamespaceObj (ToClusterKey vc)) e7;
                        EvRequest (clock s7) cli (configRequest clsID (regionID cfg)) b8 None;
                        EvCreate (KubeconfigSecret AdminSecretName (ToClusterKey vc) kbCfg) e9]).
  { subst s9. cbn [trace record]. rewrite Ht8. by rewrite <- !app_assoc. }
  clearbody s9 e9. clear Ht8.
  assert (Hend : ∀ o', o' = Ret e9 ∨ from_option IsAlreadyExists true e9 = true →
            creationErrorsFatal o'
              (evs6 ++ [EvCreate (NamespaceObj (ToClusterKey vc)) e7;
                        EvRequest (clock s7) cli (configRequest clsID (regionID cfg)) b8 None;
                        EvCreate (KubeconfigSecret AdminSecretName (ToClusterKey vc) kbCfg)
                          e9])).
  { intros o' Ho'. apply fatal_tail; [done|]. by apply fatal_tail3. }
  destruct (bool_decide (e9 ≠ None) && negb (from_option IsAlreadyExists false e9)) eqn:Hb9.
  { injection H as <- <-. eexists. split; [exact Ht9|].
    split; [eapply traffic_mono; [exact Tr9'|lia..]|].
    split; [apply Hend; by left|].
    intros [= He]. by apply not_tolerated in Hb9. }
  apply tolerated in Hb9.
  injection H as <- <-. eexists. split; [exact Ht9|].
  split; [eapply traffic_mono; [exact Tr9'|lia..]|].
  split; [apply Hend; by right|].
  intros _.
  exists (evs4 ++ [EvAfter (clock s4) (120 * Second)%N] ++ polls'),
         clsID, t0, body0, e7, (clock s7), b8, kbCfg, e9.
  split; [rewrite Hevs6; by rewrite <- !app_assoc|].
  split; [done|]. split; [done|]. split; [by exists m|]. done.
Qed.

(** ** The whole run of [DeleteVirtualCluster] *)

Lemma getAliyunAKPair_not_timeout s keyID keySecret err vc :
  (getAliyunAKPair s).1 = Ret (keyID, keySecret, Some err) → err ≠ deletionTimeoutOf vc.
Proof.
  unfold getAliyunAKPair, GetPodNsFromInside, Get, deletionTimeoutOf. unfold_run.
  destruct (podNs w (trace s)) as [ns [e|]]; cbn;
    destruct (k8sGet w (trace s) KSecret _ AliyunAkSrt) as [data [[reason msg]|]]; cbn;
    repeat (break_inner; cbn); intros [= <- <- <-]; discriminate.
Qed.

Lemma getASKConfigs_not_timeout s cfg err vc :
  (getASKConfigs s).1 = Ret (cfg, Some err) → err ≠ deletionTimeoutOf vc.
Proof.
  unfold getASKConfigs, GetPodNsFromInside, Get, deletionTimeoutOf. unfold_run.
  destruct (podNs w (trace s)) as [ns [e|]]; cbn;
    destruct (k8sGet w (trace s) KConfigMap _ AliyunASKConfigMap) as [data [[reason msg]|]];
    cbn; repeat (break_inner; cbn); intros [= <- <-]; discriminate.
Qed.

Lemma getClusterIDByName_scan_not_timeout name l id err vc :
  getClusterIDByName_scan name l = (id, Some err) → err ≠ deletionTimeoutOf vc.
Proof.
  unfold deletionTimeoutOf.
  induction l as [|clsInfo rest IH]; cbn; [by intros [= <- <-]|].
  repeat (break_inner; cbn; try done); intros [= <- <-]; discriminate.
Qed.

Lemma getClusterIDByName_not_timeout cli name region s id err vc :
  (getClusterIDByName cli name region s).1 = Ret (id, Some err) → err ≠ deletionTimeoutOf vc.
Proof.
  unfold getClusterIDByName. fold (listRequest region). unfold_run.
  destruct (http w (trace s) cli _) as [[body [msg|]] d]; cbn.
  { by intros [= <- <-]. }
  destruct (Unmarshal_maplist body) as [l [e|]] eqn:Hu; cbn.
  { apply Unmarshal_maplist_err in Hu as [msg ->]. by intros [= <- <-]. }
  intros [= H]. destruct (getClusterIDByName_scan name l) as [i e] eqn:Hs.
  cbn in H. injection H as -> ->. by eapply getClusterIDByName_scan_not_timeout.
Qed.

Lemma DeleteVirtualCluster_shape vc s o s' :
  DeleteVirtualCluster vc s = (o, s') →
  ∃ cli region evs,
    trace s' = trace s ++ evs
    ∧ traffic cli region 0 51 50 1 0 evs
    ∧ ((countEvents (isMethod "DELETE") evs = 0
        ∧ o ≠ Ret None ∧ o ≠ Ret (Some (deletionTimeoutOf vc)))
       ∨ ∃ ns1 ns2 tl listBody l clusterID t body err rest,
           evs = [EvGet KSecret ns1 AliyunAkSrt;
                  EvGet KConfigMap ns2 AliyunASKConfigMap;
                  EvNewClient cli None;
                  EvRequest tl cli (listRequest region) listBody None;
                  EvRequest t cli (deletionRequest clusterID region) body err] ++ rest
           ∧ Unmarshal_maplist listBody = (l, None)
           ∧ firstNamed (vcName vc) clusterID l
           ∧ (o = Ret None →
              err = None
              ∧ ∃ rest' t' body',
                  rest = rest' ++ [EvRequest t' cli (stateRequest clusterID region) body' None]
                  ∧ IsJSON body' = true ∧ tellsState clusterID "deleting" body')
           ∧ (o = Ret (Some (deletionTimeoutOf vc)) →
              err = None
              ∧ ∃ T0 polls, rest = EvAfter T0 (100 * Second)%N :: polls
                            ∧ (T0 + 100 * Second ≤ clock s')%N)).
Proof.
  unfold DeleteVirtualCluster. intros H.
  pose (cli0 := {| cliRegionID := EmptyString; cliAccessKeyID := EmptyString;
                   cliAccessKeySecret := EmptyString |}).
  destruct (getAliyunAKPair_run s) as ([[akid aksrt] e1] & ns1 & H1 & _ & _).
  pose proof (getAliyunAKPair_not_timeout s akid aksrt) as Hn1. rewrite H1 in Hn1.
  rewrite (bind_Ret _ _ _ _ _ H1) in H. clear H1.
  set (s1 := record _ s) in H.
  assert (Ht1 : trace s1 = trace s ++ [EvGet KSecret ns1 AliyunAkSrt]) by done.
  clearbody s1.
  destruct e1 as [e1|].
  { injection H as <- <-. exists cli0, EmptyString. eexists. split; [exact Ht1|].
    split; [eapply traffic_mono; [solve_silent|lia..]|].
    left. split; [done|]. split; [done|]. intros [= He]. by eapply (Hn1 e1 vc). }
  clear Hn1.
  destruct (getASKConfigs_run s1) as ([cfg e2] & ns2 & H2 & _ & _).
  pose proof (getASKConfigs_not_timeout s1 cfg) as Hn2. rewrite H2 in Hn2.
  rewrite (bind_Ret _ _ _ _ _ H2) in H. clear H2.
  set (s2 := record _ s1) in H.
  assert (Ht2 : trace s2 = trace s ++ [EvGet KSecret ns1 AliyunAkSrt;
                                       EvGet KConfigMap ns2 AliyunASKConfigMap])
    by (subst s2; cbn [trace record]; by rewrite Ht1, <- app_assoc).
  clearbody s2.
  destruct e2 as [e2|].
  { injection H as <- <-. exists cli0, EmptyString. eexists. split; [exact Ht2|].
    split; [eapply traffic_mono; [solve_silent|lia..]|].
    left. split; [done|]. split; [done|]. intros [= He]. by eapply (Hn2 e2 vc). }
  clear Hn2.
  unfold mbind at 1 in H. unfold M_bind, bind at 1 in H.
  unfold NewClientWithAccessKey at 1 in H. cbn [fst snd] in H.
  set (cli := Build_Client _ _ _) in H.
  set (s3 := record _ s2) in H.
  exists cli, (regionID cfg).
  destruct (newClient w (trace s2) cli) as [msg3|] eqn:Hnew;
    cbn [fmap option_fmap option_map] in H.
  { injection H as <- <-. eexists. split.
    { subst s3. cbn [trace record]. by rewrite Ht2, <- app_assoc. }
    split; [eapply traffic_mono; [solve_silent|lia..]|].
    left. split; [done|]. split; [done|]. done. }
  assert (Ht3 : trace s3 = trace s ++ [EvGet KSecret ns1 AliyunAkSrt;
                                       EvGet KConfigMap ns2 AliyunASKConfigMap;
                                       EvNewClient cli None])
    by (subst s3; cbn [trace record]; by rewrite Ht2, <- app_assoc).
  clearbody s3.
  destruct (getClusterIDByName_run cli (vcName vc) (regionID cfg) s3) as ([id e4] & H4 & _).
  pose proof (getClusterIDByName_not_timeout cli (vcName vc) (regionID cfg) s3 id) as Hn4.
  pose proof (getClusterIDByName_ok cli (vcName vc) (regionID cfg) s3 id) as Hok4.
  rewrite H4 in Hn4, Hok4. cbn [fst] in Hn4, Hok4.
  rewrite (bind_Ret _ _ _ _ _ H4) in H. clear H4.
  destruct (answered_trace s3 cli (listRequest (regionID cfg)))
    as (b4 & e4' & d4 & Hh4 & Ht4 & _).
  set (s4 := answered s3 _ _) in *. rewrite Ht3, <- app_assoc in Ht4. cbn [app] in Ht4.
  clearbody s4.
  assert (Tr4 : traffic cli (regionID cfg) 0 1 0 0 0
                  [EvGet KSecret ns1 AliyunAkSrt; EvGet KConfigMap ns2 AliyunASKConfigMap;
                   EvNewClient cli None;
                   EvRequest (clock s3) cli (listRequest (regionID cfg)) b4 (ErrClient <$> e4')]).
  { apply (traffic_app _ _ 0 0 0 0 0 0 1 0 0 0 [_; _; _] [_]);
      [solve_silent|apply traffic_list]. }
  destruct e4 as [e4|].
  { injection H as <- <-. eexists. split; [exact Ht4|].
    split; [eapply traffic_mono; [exact Tr4|lia..]|].
    left. split; [done|]. split; [done|]. intros [= He]. by eapply (Hn4 e4 vc). }
  clear Hn4.
  destruct (proj1 Hok4 eq_refl) as (b & d & l & Hh & Hu & Hfirst). clear Hok4.
  rewrite Hh4 in Hh. injection Hh as <- -> <-. cbn [fmap option_fmap option_map] in *.
  rewrite (bind_Ret _ _ _ _ _ (sendDeletionRequest_run cli id (regionID cfg) s4)) in H.
  destruct (answered_trace s4 cli (deletionRequest id (regionID cfg)))
    as (b5 & e5 & d5 & Hh5 & Ht5 & _).
  set (s5 := answered s4 _ _) in *. rewrite Ht4, <- app_assoc in Ht5. cbn [app] in Ht5.
  rewrite Hh5 in H. cbn [fst snd] in H.
  pose proof (traffic_app _ _ _ _ _ _ _ _ _ _ _ _ _ _ Tr4
                (traffic_deletion (clock s4) cli id (regionID cfg) b5 (ErrClient <$> e5)))
    as Tr5.
  cbn [Nat.add app] in Tr5. clear Tr4.
  destruct e5 as [msg5|]; cbn [fmap option_fmap option_map] in *.
  { injection H as <- <-. eexists. split; [exact Ht5|].
    split; [eapply traffic_mono; [exact Tr5|lia..]|].
    right. exists ns1, ns2, (clock s3), b4, l, id, (clock s4), b5, (Some (ErrClient msg5)), [].
    split; [done|]. split; [done|]. split; [done|]. split; [done|]. done. }
  unfold mbind at 1 in H. unfold M_bind, bind at 1 in H.
  unfold time_After at 1 in H. cbn [fst snd] in H.
  set (s6 := record _ s5) in H.
  unfold mbind at 1 in H. unfold M_bind, bind at 1 in H.
  destruct (deletionLoop deletionFuel cli vc id (regionID cfg) (clock s5 + 100 * Second)%N s6)
    as [o7 s7] eqn:H7.
  destruct (deletionLoop_probes _ _ _ _ _ _ _ _ _ H7)
    as (polls & Ht7 & Hall & Hcount & Hbrk & Hto & Hsome).
  assert (Hmax : (countEvents (isMethod "GET") polls ≤ 50)%nat).
  { subst s6. cbn [clock record] in Hcount. unfold Second in Hcount. lia. }
  pose proof (traffic_polls _ _ _ _ _ _ Hall Hmax) as Trp.
  assert (Tr6 : traffic cli (regionID cfg) 0 0 0 0 0 [EvAfter (clock s5) (100 * Second)%N])
    by solve_silent.
  pose proof (traffic_app _ _ _ _ _ _ _ _ _ _ _ _ _ _
                (traffic_app _ _ _ _ _ _ _ _ _ _ _ _ _ _ Tr5 Tr6) Trp) as Tr7.
  cbn [Nat.add] in Tr7. clear Tr5 Tr6 Trp Hcount Hmax.
  assert (Ht7' : trace s7
                 = trace s ++ ([EvGet KSecret ns1 AliyunAkSrt;
                                EvGet KConfigMap ns2 AliyunASKConfigMap;
                                EvNewClient cli None;
                                EvRequest (clock s3) cli (listRequest (regionID cfg)) b4 None;
                                EvRequest (clock s4) cli (deletionRequest id (regionID cfg))
                                  b5 None]
                               ++ [EvAfter (clock s5) (100 * Second)%N]) ++ polls).
  { rewrite Ht7. subst s6. cbn [trace record]. by rewrite Ht5, <- !app_assoc. }
  assert (Ho : s' = s7 ∧ (o7 = Ret Break → o = Ret None)
               ∧ (∀ err, o7 = Ret (Return err) → o = Ret err)
               ∧ (o = Ret None → o7 = Ret Break)
               ∧ (∀ err, o = Ret (Some err) → o7 = Ret (Return (Some err)))).
  { destruct o7 as [[|[err|]]|msg|]; injection H as <- <-; repeat split; try done;
      intros; congruence. }
  destruct Ho as (-> & Ho1 & Ho2 & Ho3 & Ho4). clear H.
  eexists. split; [exact Ht7'|].
  split; [eapply traffic_mono; [exact Tr7|lia..]|].
  right. exists ns1, ns2, (clock s3), b4, l, id, (clock s4), b5, None,
           (EvAfter (clock s5) (100 * Second)%N :: polls).
  split; [by rewrite <- !app_assoc|]. split; [done|]. split; [done|]. split.
  - intros Hnil. destruct (Hbrk (Ho3 Hnil)) as (polls' & t' & body' & -> & Hj & Ht).
    split; [done|].
    by exists (EvAfter (clock s5) (100 * Second)%N :: polls'), t', body'.
  - intros Hout. split; [done|].
    exists (clock s5), polls. split; [done|]. apply Hto. by apply Ho4.
Qed.

(** ** The requests, one by one: further properties *)

(** X8. [getClusterIDByName] sends the list request once, whatever
    comes of it, and the clock advances by the time the request takes. Its
    error is nil exactly when the client reports no error, the response
    decodes into a list and the list names the cluster with a string id
    after entries of other names only; the id returned is then that id,
    and with an error it is the empty string. *)
Theorem getClusterIDByName_result cli name region s :
  ∃ body err d id e,
    http w (trace s) cli (listRequest region) = (body, err, d)
    ∧ getClusterIDByName cli name region s
      = (Ret (id, e),
         {| clock := (clock s + d)%N;
            trace := trace s ++ [EvRequest (clock s) cli (listRequest region) body
                                   (ErrClient <$> err)] |})
    ∧ (e = None ↔ err = None ∧ ∃ l, Unmarshal_maplist body = (l, None) ∧ firstNamed name id l)
    ∧ (e ≠ None → id = EmptyString).
Proof.
  pose proof (getClusterIDByName_ok cli name region s) as Hok.
  destruct (getClusterIDByName_run cli name region s) as ([id e] & Hg & _).
  rewrite Hg in Hok. cbn [fst] in Hok.
  destruct (answered_trace s cli (listRequest region)) as (body & err & d & Hh & Ht & Hc).
  exists body, err, d, id, e. split; [done|]. split.
  { rewrite Hg. f_equal. destruct (answered s cli (listRequest region)) as [c tr].
    cbn in Ht, Hc. by subst. }
  split.
  - split.
    + intros ->. destruct (proj1 (Hok id) eq_refl) as (b' & d' & l & Hh' & Hu & Hf).
      rewrite Hh in Hh'. injection Hh' as -> -> ->. split; [done|]. by exists l.
    + intros (-> & l & Hu & Hf).
      assert (Hid : Ret (id, e) = Ret (id, None)) by (apply Hok; by exists body, d, l).
      congruence.
  - revert Hg. unfold getClusterIDByName. fold (listRequest region). unfold_run.
    rewrite Hh. destruct err as [msg|]; cbn; [by intros [= <- <-]|].
    destruct (Unmarshal_maplist body) as [l [e'|]]; cbn; [by intros [= <- <-]|].
    destruct (getClusterIDByName_scan name l) as [i e'] eqn:Hs.
    intros [= -> ->] He. destruct e as [e|]; [|done].
    by eapply scan_error_empty.
Qed.

(** X9. [sendCreationRequest] returns an id without an error exactly in
    two cases: the response to the creation request is JSON and decodes
    into a map of strings with that id as its cluster_id; or the response
    is an error body in which the classifier reads the code
    [ClusterNameAlreadyExist], and the list request that follows finds the
    id of the cluster of that name. *)
Theorem sendCreationRequest_id cli name cfg s id :
  (sendCreationRequest cli name cfg s).1 = Ret (id, None) ↔
  ∃ body d, http w (trace s) cli (creationRequest name cfg) = (body, None, d)
    ∧ ((isErrResponse body = Ret None
        ∧ ∃ m, Unmarshal_stringmap body = (m, None) ∧ m !! "cluster_id" = Some id)
       ∨ (∃ ase body' d' l,
            isErrResponse body = Ret (Some ase)
            ∧ errorCode ase = ClusterNameAlreadyExist
            ∧ http w (trace (answered s cli (creationRequest name cfg))) cli
                (listRequest (regionID cfg)) = (body', None, d')
            ∧ Unmarshal_maplist body' = (l, None)
            ∧ firstNamed name id l)).
Proof.
  rewrite sendCreationRequest_ok. split.
  - intros (body & d & Hh & [Hjson|(ase & Hc & Hcode & Hg)]).
    + exists body, d. split; [done|]. by left.
    + apply getClusterIDByName_ok in Hg as (body' & d' & l & Hh' & Hu & Hf).
      exists body, d. split; [done|]. right. by exists ase, body', d', l.
  - intros (body & d & Hh & [Hjson|(ase & body' & d' & l & Hc & Hcode & Hh' & Hu & Hf)]).
    + exists body, d. split; [done|]. by left.
    + exists body, d. split; [done|]. right. exists ase. split; [done|]. split; [done|].
      apply getClusterIDByName_ok. by exists body', d', l.
Qed.

(** X10. A state probe that is answered by an error body returns the
    empty state and a nil error, whatever code the body carries: the error
    the classifier has read is dropped. *)
Theorem getASKState_error_body cli id region s body d ase :
  http w (trace s) cli (stateRequest id region) = (body, None, d) →
  isErrResponse body = Ret (Some ase) →
  getASKState cli id region s
  = (Ret (EmptyString, None), answered s cli (stateRequest id region)).
Proof.
  intros Hh Hc.
  pose proof (getASKState_classified cli id region s body d ase Hh Hc) as H1.
  pose proof (getASKState_state cli id region s) as H2.
  destruct (getASKState cli id region s) as [o s']. cbn in H1, H2. by subst.
Qed.

(** X11. An error that [getASKState] returns is never a [*AliyunSDKErr],
    so [clusterNotFoundErr] is false of it, and the state returned with it
    is the empty string. *)
Theorem getASKState_never_not_found cli id region s st err :
  (getASKState cli id region s).1 = Ret (st, Some err) →
  (∀ ase, err ≠ ErrSDK ase) ∧ clusterNotFoundErr err = false ∧ st = EmptyString.
Proof.
  intros H. destruct (getASKState_err cli id region s st err H) as (Hnf & _ & Hst).
  split; [|done]. revert H.
  unfold getASKState. fold (stateRequest id region). unfold_run.
  destruct (http w (trace s) cli _) as [[body [msg|]] d]; cbn.
  { by intros [= <- <-]. }
  destruct (isErrResponse body) as [[ase|]|msg|]; cbn; try done.
  destruct (Unmarshal_map body) as [m [e|]] eqn:Hu; cbn.
  { apply Unmarshal_map_err in Hu as [msg ->]. by intros [= <- <-]. }
  repeat (break_inner; cbn; try done); by intros [= <- <-].
Qed.

(** X12. [getASKKubeConfig] always returns, having sent the config
    request once: the response is not given to the classifier. Its error
    is nil exactly when the client reports no error and the response
    decodes into a map of strings with a member "config", which is then
    the kubeconfig returned. *)
Theorem getASKKubeConfig_result cli id region s :
  ∃ kbCfg e,
    getASKKubeConfig cli id region s
    = (Ret (kbCfg, e), answered s cli (configRequest id region))
    ∧ (e = None ↔
       ∃ body d m, http w (trace s) cli (configRequest id region) = (body, None, d)
         ∧ Unmarshal_stringmap body = (m, None)
         ∧ m !! "config" = Some kbCfg).
Proof.
  pose proof (getASKKubeConfig_ok cli id region s) as Hok.
  destruct (getASKKubeConfig_run cli id region s) as ([kbCfg e] & Hg & _).
  rewrite Hg in Hok. cbn [fst] in Hok.
  exists kbCfg, e. split; [done|]. rewrite <- Hok. split; congruence.
Qed.

(** X13. A body that is not JSON and has fewer than four line breaks, the
    empty body for one, makes [isErrResponse] fault instead of returning:
    its fifth line is read without a test that there is one. So does
    [sendCreationRequest] when such a body answers the creation request,
    and [getASKState] when it answers the state probe. *)
Theorem short_response_faults cli s body d :
  IsJSON body = false →
  (occurrences "010"%char body < 4)%nat →
  (∃ msg, isErrResponse body = Panic msg)
  ∧ (∀ name cfg, http w (trace s) cli (creationRequest name cfg) = (body, None, d) →
       ∃ msg, (sendCreationRequest cli name cfg s).1 = Panic msg)
  ∧ (∀ id region, http w (trace s) cli (stateRequest id region) = (body, None, d) →
       ∃ msg, (getASKState cli id region s).1 = Panic msg).
Proof.
  intros Hj Hocc. destruct (short_body_faults body Hj Hocc) as [msg Hmsg].
  split; [by exists msg|]. split.
  - intros name cfg Hh. exists msg.
    unfold sendCreationRequest. fold (creationRequest name cfg). unfold_run.
    rewrite Hh. cbn. by rewrite Hmsg.
  - intros id region Hh. exists msg.
    unfold getASKState. fold (stateRequest id region). unfold_run.
    rewrite Hh. cbn. by rewrite Hmsg.
Qed.

(** ** The runs: further properties *)

(** X14. When [CreateVirtualCluster] returns nil, the events of the run
    end with: a state probe for the cluster that was answered, in JSON, by
    "running"; the creation of the namespace named by [ToClusterKey]; the
    config request for the same cluster, sent by the same client; and the
    creation, in that namespace, of the secret [AdminSecretName] with the
    "config" member of the response as its kubeconfig. Each of the two
    creations succeeded or failed with AlreadyExists. *)
Theorem CreateVirtualCluster_nil vc s :
  (CreateVirtualCluster vc s).1 = Ret None →
  ∃ pre cli clsID region t0 body0 e1 t body kbCfg e2,
    trace (CreateVirtualCluster vc s).2
    = trace s ++ pre
        ++ [EvRequest t0 cli (stateRequest clsID region) body0 None;
            EvCreate (NamespaceObj (ToClusterKey vc)) e1;
            EvRequest t cli (configRequest clsID region) body None;
            EvCreate (KubeconfigSecret AdminSecretName (ToClusterKey vc) kbCfg) e2]
    ∧ IsJSON body0 = true
    ∧ tellsState clsID "running" body0
    ∧ (∃ m, Unmarshal_stringmap body = (m, None) ∧ m !! "config" = Some kbCfg)
    ∧ from_option IsAlreadyExists true e1 = true
    ∧ from_option IsAlreadyExists true e2 = true.
Proof.
  destruct (CreateVirtualCluster vc s) as [o s'] eqn:H. cbn. intros ->.
  destruct (CreateVirtualCluster_shape _ _ _ _ H)
    as (cli & region & evs & Ht & _ & _ & Hnil).
  destruct (Hnil eq_refl)
    as (pre & clsID & t0 & body0 & e1 & t & body & kbCfg & e2 & -> & Hrest).
  by exists pre, cli, clsID, region, t0, body0, e1, t, body, kbCfg, e2.
Qed.

(** X15. A run of [CreateVirtualCluster] sends at most one POST request,
    at most twelve state probes and at most fourteen GET requests in all,
    never a DELETE request, and creates at most two Kubernetes objects. *)
Theorem CreateVirtualCluster_bounds vc s :
  ∃ evs,
    trace (CreateVirtualCluster vc s).2 = trace s ++ evs
    ∧ (countEvents (isMethod "POST") evs ≤ 1)%nat
    ∧ (countEvents isProbe evs ≤ 12)%nat
    ∧ (countEvents (isMethod "GET") evs ≤ 14)%nat
    ∧ countEvents (isMethod "DELETE") evs = 0
    ∧ (countEvents isCreate evs ≤ 2)%nat.
Proof.
  destruct (CreateVirtualCluster vc s) as [o s'] eqn:H. cbn.
  destruct (CreateVirtualCluster_shape _ _ _ _ H)
    as (cli & region & evs & Ht & (_ & Hp & Hg & Hr & Hd & Hc) & _).
  exists evs. repeat split; try done. lia.
Qed.

(** X16. All requests of one run of [CreateVirtualCluster], and all
    requests of one run of [DeleteVirtualCluster], are sent by one client
    and carry one RegionId. *)
Theorem one_client_per_run vc s :
  (∃ cli region evs, trace (CreateVirtualCluster vc s).2 = trace s ++ evs
                     ∧ Forall (sentBy cli region) evs)
  ∧ (∃ cli region evs, trace (DeleteVirtualCluster vc s).2 = trace s ++ evs
                       ∧ Forall (sentBy cli region) evs).
Proof.
  split.
  - destruct (CreateVirtualCluster vc s) as [o s'] eqn:H. cbn.
    destruct (CreateVirtualCluster_shape _ _ _ _ H) as (cli & region & evs & Ht & (Hs & _) & _).
    by exists cli, region, evs.
  - destruct (DeleteVirtualCluster vc s) as [o s'] eqn:H. cbn.
    destruct (DeleteVirtualCluster_shape _ _ _ _ H) as (cli & region & evs & Ht & (Hs & _) & _).
    by exists cli, region, evs.
Qed.

(** X17. When [DeleteVirtualCluster] returns nil, the last event of the
    run is a state probe that was answered, in JSON, by "deleting" for the
    cluster whose deletion was requested before: an answer that the
    cluster is not found does not end the run with nil. *)
Theorem DeleteVirtualCluster_nil vc s :
  (DeleteVirtualCluster vc s).1 = Ret None →
  ∃ pre cli clusterID region td bd mid t body,
    trace (DeleteVirtualCluster vc s).2
    = trace s ++ pre ++ EvRequest td cli (deletionRequest clusterID region) bd None
        :: mid ++ [EvRequest t cli (stateRequest clusterID region) body None]
    ∧ IsJSON body = true
    ∧ tellsState clusterID "deleting" body.
Proof.
  destruct (DeleteVirtualCluster vc s) as [o s'] eqn:H. cbn. intros ->.
  destruct (DeleteVirtualCluster_shape _ _ _ _ H)
    as (cli & region & evs & Ht & _ & [(_ & Hn & _)|Hsent]); [done|].
  destruct Hsent
    as (ns1 & ns2 & tl & lb & l & id & td & bd & err & rest & -> & _ & _ & Hnil & _).
  destruct (Hnil eq_refl) as (-> & rest' & t & body & -> & Hj & Hst).
  by exists [EvGet KSecret ns1 AliyunAkSrt; EvGet KConfigMap ns2 AliyunASKConfigMap;
             EvNewClient cli None; EvRequest tl cli (listRequest region) lb None],
            cli, id, region, td, bd, rest', t, body.
Qed.

(** X18. A run of [DeleteVirtualCluster] sends at most one DELETE
    request, at most fifty state probes and at most fifty-one GET requests
    in all, never a POST request, and creates no Kubernetes object. *)
Theorem DeleteVirtualCluster_bounds vc s :
  ∃ evs,
    trace (DeleteVirtualCluster vc s).2 = trace s ++ evs
    ∧ (countEvents (isMethod "DELETE") evs ≤ 1)%nat
    ∧ (countEvents isProbe evs ≤ 50)%nat
    ∧ (countEvents (isMethod "GET") evs ≤ 51)%nat
    ∧ countEvents (isMethod "POST") evs = 0
    ∧ countEvents isCreate evs = 0.
Proof.
  destruct (DeleteVirtualCluster vc s) as [o s'] eqn:H. cbn.
  destruct (DeleteVirtualCluster_shape _ _ _ _ H)
    as (cli & region & evs & Ht & (_ & Hp & Hg & Hr & Hd & Hc) & _).
  exists evs. repeat split; try done; lia.
Qed.

Lemma isMethod_true method t cli req body err :
  Method req = method → isMethod method (EvRequest t cli req body err) = true.
Proof. intros H. by apply bool_decide_eq_true_2. Qed.

(** X19. A DELETE request in a run of [DeleteVirtualCluster] is the fifth
    event of the run, after the two reads, the construction of its client
    without an error and the list request of that client, answered without
    an error; and it asks for the deletion of the cluster whose id the
    response to the list request gives for the first entry named as the
    Virtualcluster. *)
Theorem DeleteVirtualCluster_target vc s (pre : list Event) t cli req body err post :
  trace (DeleteVirtualCluster vc s).2 = trace s ++ pre ++ EvRequest t cli req body err :: post →
  Method req = "DELETE" →
  ∃ ns1 ns2 tl region listBody l clusterID,
    pre = [EvGet KSecret ns1 AliyunAkSrt;
           EvGet KConfigMap ns2 AliyunASKConfigMap;
           EvNewClient cli None;
           EvRequest tl cli (listRequest region) listBody None]
    ∧ req = deletionRequest clusterID region
    ∧ Unmarshal_maplist listBody = (l, None)
    ∧ firstNamed (vcName vc) clusterID l.
Proof.
  destruct (DeleteVirtualCluster vc s) as [o s'] eqn:H. cbn. intros Htr Hm.
  pose proof (isMethod_true _ t cli req body err Hm) as Hdel.
  destruct (DeleteVirtualCluster_shape _ _ _ _ H)
    as (cli' & region & evs & Ht & (_ & _ & _ & _ & Hd & _) & Hcase).
  rewrite Ht in Htr. apply app_inv_head in Htr. subst evs.
  destruct Hcase as [(Hnone & _)|Hsent].
  { rewrite countEvents_app in Hnone. cbn [countEvents] in Hnone.
    rewrite Hdel in Hnone. lia. }
  destruct Hsent
    as (ns1 & ns2 & tl & lb & l & id & td & bd & e5 & rest & Heq & Hu & Hf & _).
  assert (Hrest : countEvents (isMethod "DELETE") rest = 0).
  { match type of Heq with
    | _ = ?pfx ++ rest =>
        assert (Hpfx : countEvents (isMethod "DELETE") pfx = 1) by done
    end.
    rewrite Heq, countEvents_app, Hpfx in Hd. lia. }
  destruct pre as [|p0 [|p1 [|p2 [|p3 [|p4 pre]]]]]; cbn in Heq.
  - discriminate Heq.
  - discriminate Heq.
  - discriminate Heq.
  - injection Heq as _ _ _ _ _ Hreq. subst req. discriminate Hm.
  - injection Heq as -> -> -> -> -> -> -> -> _. by exists ns1, ns2, tl, region, lb, l, id.
  - injection Heq as _ _ _ _ _ Hpost. rewrite <- Hpost in Hrest.
    rewrite countEvents_app in Hrest. cbn [countEvents] in Hrest.
    rewrite Hdel in Hrest. lia.
Qed.

(** X20. When [DeleteVirtualCluster] returns its timeout error, the
    DELETE request was sent and answered without an error of the client,
    the deadline timer of 100 seconds was started right after it, and the
    run ends no sooner than 100 seconds after that. *)
Theorem DeleteVirtualCluster_timeout vc s :
  (DeleteVirtualCluster vc s).1 = Ret (Some (deletionTimeoutOf vc)) →
  ∃ pre t cli clusterID region body T0 polls,
    trace (DeleteVirtualCluster vc s).2
    = trace s ++ pre ++ EvRequest t cli (deletionRequest clusterID region) body None
        :: EvAfter T0 (100 * Second)%N :: polls
    ∧ (T0 + 100 * Second ≤ clock (DeleteVirtualCluster vc s).2)%N.
Proof.
  destruct (DeleteVirtualCluster vc s) as [o s'] eqn:H. cbn. intros ->.
  destruct (DeleteVirtualCluster_shape _ _ _ _ H)
    as (cli & region & evs & Ht & _ & [(_ & _ & Hn)|Hsent]); [done|].
  destruct Hsent
    as (ns1 & ns2 & tl & lb & l & id & td & bd & err & rest & -> & _ & _ & _ & Hto).
  destruct (Hto eq_refl) as (-> & T0 & polls & -> & Hclock).
  by exists [EvGet KSecret ns1 AliyunAkSrt; EvGet KConfigMap ns2 AliyunASKConfigMap;
             EvNewClient cli None; EvRequest tl cli (listRequest region) lb None],
            td, cli, id, region, bd, T0, polls.
Qed.

(** X21. When the secret cannot be read or lacks one of its two keys,
    [CreateVirtualCluster] and [DeleteVirtualCluster] both return an error
    after that one read. When the secret is in order and the config map
    cannot be read or lacks the region or the zone, both return an error
    after the two reads. In either case no client is built and no request
    is sent. *)
Theorem loaders_first vc s :
  (∀ data getErr,
     k8sGet w (trace s) KSecret (vcManagerNs s) AliyunAkSrt = (data, getErr) →
     getErr ≠ None ∨ data !! AliyunAKIDName = None ∨ data !! AliyunAKSecretName = None →
     ∃ err,
       CreateVirtualCluster vc s
       = (Ret (Some err), record (EvGet KSecret (vcManagerNs s) AliyunAkSrt) s)
       ∧ DeleteVirtualCluster vc s
         = (Ret (Some err), record (EvGet KSecret (vcManagerNs s) AliyunAkSrt) s))
  ∧ (∀ keyID keySecret s1 data getErr,
       getAliyunAKPair s = (Ret (keyID, keySecret, None), s1) →
       k8sGet w (trace s1) KConfigMap (vcManagerNs s1) AliyunASKConfigMap = (data, getErr) →
       getErr ≠ None ∨ data !! AliyunASKCfgMpRegionID = None
       ∨ data !! AliyunASKCfgMpZoneID = None →
       ∃ err,
         CreateVirtualCluster vc s
         = (Ret (Some err), record (EvGet KConfigMap (vcManagerNs s1) AliyunASKConfigMap) s1)
         ∧ DeleteVirtualCluster vc s
           = (Ret (Some err),
              record (EvGet KConfigMap (vcManagerNs s1) AliyunASKConfigMap) s1)).
Proof.
  split.
  - intros data getErr Hget Hbad.
    assert (Hpair : ∃ keyID keySecret err,
              getAliyunAKPair s
              = (Ret (keyID, keySecret, Some err),
                 record (EvGet KSecret (vcManagerNs s) AliyunAkSrt) s)).
    { revert Hget. unfold getAliyunAKPair, GetPodNsFromInside, Get, vcManagerNs. unfold_run.
      destruct (podNs w (trace s)) as [ns [e|]]; cbn; intros ->; cbn;
        destruct getErr as [[reason msg]|],
                 (data !! AliyunAKIDName) as [keyID|],
                 (data !! AliyunAKSecretName) as [keySrt|]; cbn;
        try (by do 3 eexists); by destruct Hbad as [?|[?|?]]. }
    destruct Hpair as (keyID & keySecret & err & Hpair). exists err.
    unfold CreateVirtualCluster, DeleteVirtualCluster.
    by rewrite !(bind_Ret _ _ _ _ _ Hpair).
  - intros keyID keySecret s1 data getErr Hpair Hget Hbad.
    assert (Hcfg : ∃ cfg err,
              getASKConfigs s1
              = (Ret (cfg, Some err),
                 record (EvGet KConfigMap (vcManagerNs s1) AliyunASKConfigMap) s1)).
    { revert Hget. unfold getASKConfigs, GetPodNsFromInside, Get, vcManagerNs. unfold_run.
      destruct (podNs w (trace s1)) as [ns [e|]]; cbn; intros ->; cbn;
        destruct getErr as [[reason msg]|],
                 (data !! AliyunASKCfgMpRegionID) as [region|],
                 (data !! AliyunASKCfgMpZoneID) as [zone|],
                 (data !! AliyunASKCfgMpVPCID) as [vpc|]; cbn;
        try (by do 2 eexists); by destruct Hbad as [?|[?|?]]. }
    destruct Hcfg as (cfg & err & Hcfg). exists err.
    unfold CreateVirtualCluster, DeleteVirtualCluster.
    rewrite !(bind_Ret _ _ _ _ _ Hpair). by rewrite !(bind_Ret _ _ _ _ _ Hcfg).
Qed.

(** X22. In a run of [CreateVirtualCluster], a creation of the namespace
    or of the secret that fails with another error than AlreadyExists is
    the last event of the run, and the run returns that error: no
    kubeconfig is asked for after a namespace that could not be made. *)
Theorem creation_error_fatal vc s (pre : list Event) obj e post :
  trace (CreateVirtualCluster vc s).2 = trace s ++ pre ++ EvCreate obj (Some e) :: post →
  IsAlreadyExists e = false →
  post = [] ∧ (CreateVirtualCluster vc s).1 = Ret (Some e).
Proof.
  destruct (CreateVirtualCluster vc s) as [o s'] eqn:H. cbn. intros Htr Hfatal.
  destruct (CreateVirtualCluster_shape _ _ _ _ H)
    as (cli & region & evs & Ht & _ & Hf & _).
  rewrite Ht in Htr. apply app_inv_head in Htr.
  by apply (Hf pre obj e post).
Qed.

End MoreFacts.

(** ** Witnesses of the further properties *)

Lemma sendCreationRequest_documented_conflict_witness :
  (@sendCreationRequest sampleImports (sampleWorld conflictBackend)
     sampleCli "tenant-a" sampleCfg (st0 0)).1
  = Ret ("cls-123", None)
  ∧ @sendCreationRequest sampleImports (sampleWorld conflictBackend)
      sampleCli "tenant-a" sampleCfg
      (@sendCreationRequest sampleImports (sampleWorld conflictBackend)
         sampleCli "tenant-a" sampleCfg (st0 0)).2
    = (Ret (EmptyString,
            Some (ErrSDK {| errorName := "SDK.ServerError";
                            errorCode := "ClusterNameAlreadyExist" +:+ DQ +:+ ","
                                         +:+ DQ +:+ "message";
                            errorMessage := "R1" +:+ DQ +:+ "," +:+ DQ +:+ "status" |})),
       @answered (sampleWorld conflictBackend)
         (@sendCreationRequest sampleImports (sampleWorld conflictBackend)
            sampleCli "tenant-a" sampleCfg (st0 0)).2
         sampleCli (creationRequest "tenant-a" sampleCfg)).
Proof.
  split; [by vm_compute|].
  apply (@sendCreationRequest_documented_conflict sampleImports (sampleWorld conflictBackend)
           sampleCli "tenant-a" sampleCfg _
           "ClusterNameAlreadyExist" "cluster name X already exist" "R1" "400" Second);
    by vm_compute.
Defined.

Lemma isErrResponse_documented_shape_witness :
  @isErrResponse sampleImports (errorBody "ErrorClusterNotFound" "cluster not found" "R4" "404")
  = Ret (Some {| errorName := "SDK.ServerError";
                 errorCode := "ErrorClusterNotFound" +:+ DQ +:+ "," +:+ DQ +:+ "message";
                 errorMessage := "R4" +:+ DQ +:+ "," +:+ DQ +:+ "status" |}).
Proof.
  apply (@isErrResponse_documented_shape sampleImports
           "ErrorClusterNotFound" "cluster not found" "R4" "404");
    first [reflexivity | by vm_compute].
Defined.


Lemma getClusterIDByName_scan_not_listed_witness :
  getClusterIDByName_scan "tenant-a"
    [ {[ "name" := JString "tenant-b"; "cluster_id" := JString "cls-9" ]} ]
  = (EmptyString,
     Some (ErrNew ("can't find cluster information for cluster(" +:+ "tenant-a" +:+ ")"))).
Proof.
  apply getClusterIDByName_scan_not_listed.
  apply Forall_cons. split; [|apply List.Forall_nil].
  exists "tenant-b". split; [by vm_compute | discriminate].
Defined.

Lemma getClusterIDByName_scan_malformed_witness :
  getClusterIDByName_scan "tenant-a"
    ([] ++ ∅ :: [ {[ "name" := JString "tenant-a"; "cluster_id" := JString "cls-123" ]} ])
  = (EmptyString, Some (ErrNew "clusterInfo doesn't contain 'name' field")).
Proof.
  apply (proj1 (getClusterIDByName_scan_malformed "tenant-a" [] ∅
                  [ {[ "name" := JString "tenant-a"; "cluster_id" := JString "cls-123" ]} ]
                  (List.Forall_nil _))).
  reflexivity.
Defined.

Lemma getASKState_error_body_witness :
  @getASKState sampleImports (sampleWorld throttledBackend)
    sampleCli "cls-123" "cn-hangzhou" (st0 0)
  = (Ret (EmptyString, None),
     @answered (sampleWorld throttledBackend) (st0 0) sampleCli
       (stateRequest "cls-123" "cn-hangzhou")).
Proof.
  apply (@getASKState_error_body sampleImports (sampleWorld throttledBackend)
           sampleCli "cls-123" "cn-hangzhou" (st0 0)
           (errorBody "Throttling" "request was throttled" "R2" "400") Second
           {| errorName := "SDK.ServerError";
              errorCode := "Throttling" +:+ DQ +:+ "," +:+ DQ +:+ "message";
              errorMessage := "R2" +:+ DQ +:+ "," +:+ DQ +:+ "status" |});
    by vm_compute.
Defined.

Lemma getASKState_never_not_found_witness :
  (∀ ase, ErrNew "cluster info entry doesn't contain 'cluster_id' field" ≠ ErrSDK ase)
  ∧ clusterNotFoundErr (ErrNew "cluster info entry doesn't contain 'cluster_id' field") = false
  ∧ EmptyString = EmptyString.
Proof.
  apply (@getASKState_never_not_found sampleImports (sampleWorld successBackend)
           sampleCli "cls-999" "cn-hangzhou" (st0 0)).
  by vm_compute.
Defined.

Lemma short_response_faults_witness :
  (∃ msg, @isErrResponse sampleImports "Service Unavailable" = Panic msg)
  ∧ ∃ msg, (@getASKState sampleImports (sampleWorld (goneBackend "Service Unavailable"))
              sampleCli "cls-123" "cn-hangzhou" (st0 0)).1 = Panic msg.
Proof.
  pose proof (@short_response_faults sampleImports
                (sampleWorld (goneBackend "Service Unavailable")) sampleCli (st0 0)
                "Service Unavailable" Second eq_refl ltac:(vm_compute; lia))
    as (Hbody & _ & Hprobe).
  split; [exact Hbody|]. apply Hprobe. by vm_compute.
Defined.

Lemma CreateVirtualCluster_nil_witness :
  ∃ pre cli clsID region t0 body0 e1 t body kbCfg e2,
    trace (runCreate successBackend).2
    = trace (st0 0) ++ pre
        ++ [EvRequest t0 cli (stateRequest clsID region) body0 None;
            EvCreate (NamespaceObj (sample_ToClusterKey tenantA)) e1;
            EvRequest t cli (configRequest clsID region) body None;
            EvCreate (KubeconfigSecret "admin-kubeconfig" (sample_ToClusterKey tenantA) kbCfg)
              e2]
    ∧ sample_IsJSON body0 = true
    ∧ @tellsState sampleImports clsID "running" body0
    ∧ (∃ m, @Unmarshal_stringmap sampleImports body = (m, None) ∧ m !! "config" = Some kbCfg)
    ∧ from_option IsAlreadyExists true e1 = true
    ∧ from_option IsAlreadyExists true e2 = true.
Proof.
  apply (@CreateVirtualCluster_nil sampleImports (sampleWorld successBackend) tenantA (st0 0)).
  by vm_compute.
Defined.

Lemma DeleteVirtualCluster_nil_witness :
  ∃ pre cli clusterID region td bd mid t body,
    trace (runDelete (goneBackend (stateBody "cls-123" "deleting"))).2
    = trace (st0 0) ++ pre ++ EvRequest td cli (deletionRequest clusterID region) bd None
        :: mid ++ [EvRequest t cli (stateRequest clusterID region) body None]
    ∧ sample_IsJSON body = true
    ∧ @tellsState sampleImports clusterID "deleting" body.
Proof.
  apply (@DeleteVirtualCluster_nil sampleImports
           (sampleWorld (goneBackend (stateBody "cls-123" "deleting"))) tenantA (st0 0)).
  by vm_compute.
Defined.

Lemma DeleteVirtualCluster_target_witness :
  ∃ ns1 ns2 tl region listBody l clusterID,
    take 4 (trace (runDelete unreachableBackend).2)
    = [EvGet KSecret ns1 AliyunAkSrt;
       EvGet KConfigMap ns2 AliyunASKConfigMap;
       EvNewClient sampleCli None;
       EvRequest tl sampleCli (listRequest region) listBody None]
    ∧ deletionRequest "cls-123" "cn-hangzhou" = deletionRequest clusterID region
    ∧ @Unmarshal_maplist sampleImports listBody = (l, None)
    ∧ firstNamed (vcName tenantA) clusterID l.
Proof.
  apply (@DeleteVirtualCluster_target sampleImports (sampleWorld unreachableBackend)
           tenantA (st0 0) (take 4 (trace (runDelete unreachableBackend).2))
           Second sampleCli (deletionRequest "cls-123" "cn-hangzhou") EmptyString
           (Some (ErrClient "dial tcp: i/o timeout")) []);
    by vm_compute.
Defined.

Lemma DeleteVirtualCluster_timeout_witness :
  ∃ pre t cli clusterID region body T0 polls,
    trace (runDelete (goneBackend (stateBody "cls-123" "creating"))).2
    = trace (st0 0) ++ pre ++ EvRequest t cli (deletionRequest clusterID region) body None
        :: EvAfter T0 (100 * Second)%N :: polls
    ∧ (T0 + 100 * Second
       ≤ clock (runDelete (goneBackend (stateBody "cls-123" "creating"))).2)%N.
Proof.
  apply (@DeleteVirtualCluster_timeout sampleImports
           (sampleWorld (goneBackend (stateBody "cls-123" "creating"))) tenantA (st0 0)).
  by vm_compute.
Defined.

Lemma loaders_first_witness :
  ∃ err,
    @CreateVirtualCluster sampleImports bareWorld tenantA (st0 0)
    = (Ret (Some err), record (EvGet KSecret "vc-manager" AliyunAkSrt) (st0 0))
    ∧ @DeleteVirtualCluster sampleImports bareWorld tenantA (st0 0)
      = (Ret (Some err), record (EvGet KSecret "vc-manager" AliyunAkSrt) (st0 0)).
Proof.
  apply (proj1 (@loaders_first sampleImports bareWorld tenantA (st0 0))
           ∅ (Some ("NotFound", "aliyun-accesskey not found")));
    [reflexivity | by left].
Defined.

Lemma creation_error_fatal_witness :
  @nil Event = []
  ∧ (@CreateVirtualCluster sampleImports forbiddenWorld tenantA (st0 0)).1
    = Ret (Some (ErrStatus "Forbidden" "creation is forbidden")).
Proof.
  apply (@creation_error_fatal sampleImports forbiddenWorld tenantA (st0 0)
           (take 9 (trace (@CreateVirtualCluster sampleImports forbiddenWorld tenantA
                             (st0 0)).2))
           (NamespaceObj (sample_ToClusterKey tenantA))
           (ErrStatus "Forbidden" "creation is forbidden") []);
    by vm_compute.
Defined.
